(** * IntelliSQL: a shallow embedding of the question-answering pipeline

    The development follows the three source files of the project:
    - [database_setup.py]: [create_database], [get_schema_info];
    - [sql_agent.py]: [_ipv4_only_getaddrinfo], [configure_gemini],
      [call_gemini_with_retry], [generate_sql_query], [execute_sql_query],
      [generate_natural_answer], [ask_question];
    - [app.py]: [initialize_database], [display_sidebar], [main].

    A Python [str] is a sequence of Unicode code points and is modelled
    as a list of code points; the white space of [str.strip] is that of
    Python, and the case mappings of [str.upper] and [str.lower] are an
    interface that fixes them on ASCII and on white space.  The reading
    of an unquoted name in [PRAGMA table_info(...)] is an interface as
    well.  Effects (the process environment, the database file, the
    language-model service, the clock and the standard output) are fields
    of one [world] record that every operation threads through an
    exception-and-state monad. *)

From Stdlib Require Import List Bool Arith NArith ZArith QArith Lia.
From Stdlib Require Import Ascii String DecimalString.
From Stdlib Require Import Sorted Permutation.
Import ListNotations.

Close Scope Q_scope.
Open Scope nat_scope.
Open Scope string_scope.
Open Scope list_scope.

(* ================================================================== *)
(** ** Python text *)

(** A Unicode code point and a Python [str]. *)
Definition codepoint : Type := N.
Definition str : Type := list codepoint.

(** The code points that the bytes of a UTF-8 literal spell. *)
Fixpoint decode_utf8 (bytes : list N) : str :=
  match bytes with
  | [] => []
  | b :: r =>
      if (b <? 128)%N then b :: decode_utf8 r
      else if (b <? 224)%N then
        match r with
        | b2 :: r2 => ((b - 192) * 64 + (b2 - 128))%N :: decode_utf8 r2
        | [] => [b]
        end
      else if (b <? 240)%N then
        match r with
        | b2 :: b3 :: r3 =>
            ((b - 224) * 4096 + (b2 - 128) * 64 + (b3 - 128))%N :: decode_utf8 r3
        | _ => [b]
        end
      else
        match r with
        | b2 :: b3 :: b4 :: r4 =>
            ((b - 240) * 262144 + (b2 - 128) * 4096 + (b3 - 128) * 64 +
             (b4 - 128))%N :: decode_utf8 r4
        | _ => [b]
        end
  end.

(** A literal of the source as a text. *)
Definition txt (s : string) : str :=
  decode_utf8 (map N_of_ascii (list_ascii_of_string s)).

Coercion txt : string >-> str.

(** [a == b] on texts. *)
Fixpoint str_eqb (a b : str) : bool :=
  match a, b with
  | [], [] => true
  | x :: a', y :: b' => N.eqb x y && str_eqb a' b'
  | _, _ => false
  end.

(** [str.isspace] on one character, which is also the white space that
    [str.strip] removes: the ASCII controls TAB to CR and FS to US, the
    space, NEL, the no-break space and the Unicode separators. *)
Definition isspace (c : codepoint) : bool :=
  ((9 <=? c)%N && (c <=? 13)%N) ||
  ((28 <=? c)%N && (c <=? 32)%N) ||
  (c =? 133)%N || (c =? 160)%N || (c =? 5760)%N ||
  ((8192 <=? c)%N && (c <=? 8202)%N) ||
  (c =? 8232)%N || (c =? 8233)%N || (c =? 8239)%N || (c =? 8287)%N ||
  (c =? 12288)%N.

(** The mappings of the ASCII letters. *)
Definition ascii_upper (c : codepoint) : codepoint :=
  if (97 <=? c)%N && (c <=? 122)%N then (c - 32)%N else c.

Definition ascii_lower (c : codepoint) : codepoint :=
  if (65 <=? c)%N && (c <=? 90)%N then (c + 32)%N else c.

(** The case mappings of the Unicode database of the Python runtime:
    [str.upper] maps every character on its own, to one or more
    characters; [str.lower] looks at the characters around a sigma.  On
    ASCII characters both are the mappings of the ASCII letters, and a
    white-space character is its own upper case. *)
Class Unicode : Type := {
  upper_char : codepoint -> str;
  lower_text : str -> str;
  upper_char_ascii :
    forall c, (c < 128)%N -> upper_char c = [ascii_upper c];
  upper_char_space :
    forall c, isspace c = true -> upper_char c = [c];
  lower_text_ascii :
    forall s, Forall (fun c => (c < 128)%N) s ->
              lower_text s = map ascii_lower s
}.

Module PyStr.

(** The line feed, as in the literal ["\n"]. *)
Definition nl_char : codepoint := 10%N.
Definition nl : str := [nl_char].

(** [s.upper()] and [s.lower()]. *)
Definition upper {U : Unicode} (s : str) : str := flat_map upper_char s.
Definition lower {U : Unicode} (s : str) : str := lower_text s.

(** [s.lstrip()], [s.rstrip()] and [s.strip()] with no argument. *)
Fixpoint lstrip (s : str) : str :=
  match s with
  | [] => []
  | c :: t => if isspace c then lstrip t else s
  end.

Fixpoint rstrip (s : str) : str :=
  match s with
  | [] => []
  | c :: t =>
      match rstrip t with
      | [] => if isspace c then [] else [c]
      | a :: b => c :: a :: b
      end
  end.

Definition strip (s : str) : str := rstrip (lstrip s).

(** [p] is a prefix of [s]. *)
Fixpoint prefix (p s : str) : bool :=
  match p with
  | [] => true
  | a :: p' =>
      match s with
      | [] => false
      | b :: s' => N.eqb a b && prefix p' s'
      end
  end.

(** [s.startswith(p)]. *)
Definition startswith (s p : str) : bool := prefix p s.

(** [p in s]. *)
Fixpoint contains (p s : str) : bool :=
  prefix p s ||
  match s with
  | [] => false
  | _ :: t => contains p t
  end.

(** [s.split("\n")]: the list is never empty. *)
Fixpoint split_nl (s : str) : list str :=
  match s with
  | [] => [[]]
  | c :: t =>
      if N.eqb c nl_char then [] :: split_nl t
      else match split_nl t with
           | [] => [[c]]
           | l :: ls => (c :: l) :: ls
           end
  end.

(** [sep.join(ls)]. *)
Fixpoint join (sep : str) (ls : list str) : str :=
  match ls with
  | [] => []
  | [x] => x
  | x :: ls' => x ++ sep ++ join sep ls'
  end.

(** ["\n".join(ls)]. *)
Definition join_nl (ls : list str) : str := join nl ls.

(** [str(n)] for a natural number and for an integer. *)
Definition of_nat (n : nat) : str := txt (NilZero.string_of_uint (Nat.to_uint n)).
Definition of_Z (z : Z) : str := txt (NilZero.string_of_int (Z.to_int z)).

(** Python truthiness of a string: the empty string is false. *)
Definition truthy (s : str) : bool :=
  match s with [] => false | _ => true end.

End PyStr.
(* ================================================================== *)
(** ** Exceptions and the effect monad *)

(** The exception classes the three files raise or let through.  All of
    them derive from [Exception]. *)
Inductive exn_class : Type :=
| ValueError
| RuntimeError
| AttributeError
| SqliteError          (* sqlite3.Error and its subclasses *)
| ServiceError.        (* whatever [model.generate_content] raises *)

Record exn : Type := mkExn { exn_kind : exn_class; exn_msg : str }.

(** [str(e)]. *)
Definition str_exn (e : exn) : str := exn_msg e.

Inductive outcome (A : Type) : Type :=
| Returned (a : A)
| Raised (e : exn).
Arguments Returned {A} a.
Arguments Raised {A} e.

(** A computation over a state [S] that returns or raises; the state
    reached at the point of the raise is kept, as side effects are in
    Python. *)
Definition Eff (S A : Type) : Type := S -> outcome A * S.

Definition ret {S A} (a : A) : Eff S A := fun s => (Returned a, s).

Definition raise {S A} (e : exn) : Eff S A := fun s => (Raised e, s).

Definition bind {S A B} (m : Eff S A) (k : A -> Eff S B) : Eff S B :=
  fun s =>
    match m s with
    | (Returned a, s') => k a s'
    | (Raised e, s') => (Raised e, s')
    end.

(** [try: m  except Exception as e: h e]. *)
Definition try_except {S A} (m : Eff S A) (h : exn -> Eff S A) : Eff S A :=
  fun s =>
    match m s with
    | (Returned a, s') => (Returned a, s')
    | (Raised e, s') => h e s'
    end.

(** [try: m  finally: f]. *)
Definition try_finally {S A} (m : Eff S A) (f : Eff S unit) : Eff S A :=
  fun s =>
    match m s with
    | (r, s') =>
        match f s' with
        | (Returned _, s'') => (r, s'')
        | (Raised e, s'') => (Raised e, s'')
        end
    end.

Definition get_state {S} : Eff S S := fun s => (Returned s, s).
Definition gets {S A} (f : S -> A) : Eff S A := fun s => (Returned (f s), s).
Definition modify {S} (f : S -> S) : Eff S unit := fun s => (Returned tt, f s).

Declare Scope eff_scope.
Delimit Scope eff_scope with eff.
Notation "x <- m ;; k" := (bind m (fun x => k))
  (at level 61, m at next level, right associativity) : eff_scope.
Notation "m ;;; k" := (bind m (fun _ => k))
  (at level 61, right associativity) : eff_scope.
Open Scope eff_scope.

(* ================================================================== *)
(** ** The database file *)

Inductive value : Type :=
| VNull
| VInt (z : Z)
| VReal (q : Q)
| VText (s : str).

Definition row : Type := list value.

(** One line of [PRAGMA table_info]: name, declared type, not-null flag
    and primary-key flag (the column id and the default are not used by
    the project). *)
Record column : Type := mkColumn {
  col_name : str;
  col_type : str;
  col_notnull : bool;
  col_pk : bool
}.

Record table : Type := mkTable {
  tbl_columns : list column;
  tbl_rows : list row
}.

(** The user tables of one database file, by name. *)
Definition database : Type := list (str * table).

Definition empty_db : database := [].

(** SQLite compares the names of tables without regard to the case of
    the ASCII letters. *)
Definition name_eqb (a b : str) : bool :=
  str_eqb (map ascii_lower a) (map ascii_lower b).

Fixpoint find_table (name : str) (d : database) : option table :=
  match d with
  | [] => None
  | (n, t) :: d' => if name_eqb n name then Some t else find_table name d'
  end.

(** [DROP TABLE IF EXISTS name]. *)
Definition drop_table_if_exists (name : str) (d : database) : database :=
  filter (fun nt => negb (name_eqb (fst nt) name)) d.

(** What lies at [DB_PATH]: nothing, a database, or a file that exists
    but that SQLite cannot open. *)
Inductive file_state : Type :=
| Absent
| Present (d : database)
| Unopenable.

(** The result of running one statement on the engine, a black box. *)
Inductive exec_outcome : Type :=
| ExecRows (columns : list str) (rows : list row)
| ExecError (msg : str).

(** The outcome of one [model.generate_content] call. *)
Inductive llm_outcome : Type :=
| Responds (reply : str)
| Fails (e : exn).

(* ================================================================== *)
(** ** The world *)

Record world : Type := mkWorld {
  (** [os.getenv("GOOGLE_API_KEY")] after [load_dotenv()] *)
  api_key : option str;
  (** the key handed to [genai.configure], if any *)
  genai_key : option str;
  (** the service: outcome of the n-th call (from 0) on a prompt *)
  gemini : nat -> str -> llm_outcome;
  (** the prompts sent so far, oldest first *)
  gemini_prompts : list str;
  (** the arguments of [time.sleep] so far, oldest first *)
  sleeps : list Z;
  (** the lines printed so far, oldest first *)
  stdout : list str;
  (** the file at [DB_PATH] *)
  db_file : file_state;
  (** the engine's evaluation of a statement on a database *)
  engine : database -> str -> exec_outcome;
  (** number of [sqlite3.connect] calls made so far *)
  connects : nat;
  (** number of connections currently open *)
  open_connections : nat
}.

Definition set_genai_key (k : option str) (w : world) : world :=
  mkWorld (api_key w) k (gemini w) (gemini_prompts w) (sleeps w) (stdout w)
          (db_file w) (engine w) (connects w) (open_connections w).

Definition log_prompt (p : str) (w : world) : world :=
  mkWorld (api_key w) (genai_key w) (gemini w) ((gemini_prompts w ++ [p])%list)
          (sleeps w) (stdout w) (db_file w) (engine w) (connects w)
          (open_connections w).

Definition log_sleep (t : Z) (w : world) : world :=
  mkWorld (api_key w) (genai_key w) (gemini w) (gemini_prompts w)
          ((sleeps w ++ [t])%list) (stdout w) (db_file w) (engine w) (connects w)
          (open_connections w).

Definition log_print (l : str) (w : world) : world :=
  mkWorld (api_key w) (genai_key w) (gemini w) (gemini_prompts w) (sleeps w)
          ((stdout w ++ [l])%list) (db_file w) (engine w) (connects w)
          (open_connections w).

Definition set_db_file (f : file_state) (w : world) : world :=
  mkWorld (api_key w) (genai_key w) (gemini w) (gemini_prompts w) (sleeps w)
          (stdout w) f (engine w) (connects w) (open_connections w).

Definition opened_connection (w : world) : world :=
  mkWorld (api_key w) (genai_key w) (gemini w) (gemini_prompts w) (sleeps w)
          (stdout w) (db_file w) (engine w) (S (connects w))
          (S (open_connections w)).

Definition refused_connection (w : world) : world :=
  mkWorld (api_key w) (genai_key w) (gemini w) (gemini_prompts w) (sleeps w)
          (stdout w) (db_file w) (engine w) (S (connects w))
          (open_connections w).

Definition closed_connection (w : world) : world :=
  mkWorld (api_key w) (genai_key w) (gemini w) (gemini_prompts w) (sleeps w)
          (stdout w) (db_file w) (engine w) (connects w)
          (pred (open_connections w)).

(** [print(l)] and [time.sleep(t)]. *)
Definition print (l : str) : Eff world unit := modify (log_print l).
Definition sleep (t : Z) : Eff world unit := modify (log_sleep t).

(* ================================================================== *)
(** ** database_setup.py *)

(** How [cursor.execute] reads the text that stands, unquoted, between
    the parentheses of [PRAGMA table_info(...)]: as the name of a table
    ([inr]), or not at all, the statement being refused with an
    exception ([inl]). *)
Class SqliteSyntax : Type := {
  pragma_arg : str -> exn + str
}.

Module DatabaseSetup.

(** [DB_PATH]: the file [company.db] beside the module; the directory
    part of the path is left out. *)
Definition DB_PATH : str := "company.db".

(** [sqlite3.connect(DB_PATH)]: SQLite creates an empty database when
    no file is there, and raises when the file cannot be opened. *)
Definition connect : Eff world unit := fun w =>
  match db_file w with
  | Unopenable =>
      (Raised (mkExn SqliteError "unable to open database file"),
       refused_connection w)
  | Absent => (Returned tt, opened_connection (set_db_file (Present empty_db) w))
  | Present _ => (Returned tt, opened_connection w)
  end.

(** [conn.close()]. *)
Definition close : Eff world unit := modify closed_connection.

(** A data-definition or insertion statement: the new database, or the
    engine's message. *)
Definition update : Type := database -> str + database.

Definition drop_table (name : str) : update :=
  fun d => inr (drop_table_if_exists name d).

Definition create_table (name : str) (cols : list column) : update :=
  fun d =>
    match find_table name d with
    | Some _ => inl (txt "table " ++ name ++ txt " already exists")
    | None => inr (d ++ [(name, mkTable cols [])])
    end.

Fixpoint append_rows (name : str) (rs : list row) (d : database) : database :=
  match d with
  | [] => []
  | (n, t) :: d' =>
      if name_eqb n name
      then (n, mkTable (tbl_columns t) (tbl_rows t ++ rs)) :: d'
      else (n, t) :: append_rows name rs d'
  end.

(** [cursor.executemany("INSERT INTO name VALUES (...)", rs)]. *)
Definition insert_many (name : str) (rs : list row) : update :=
  fun d =>
    match find_table name d with
    | None => inl (txt "no such table: " ++ name)
    | Some _ => inr (append_rows name rs d)
    end.

(** Runs one statement on the open database. *)
Definition execute_update (u : update) : Eff world unit := fun w =>
  match db_file w with
  | Present d =>
      match u d with
      | inr d' => (Returned tt, set_db_file (Present d') w)
      | inl msg => (Raised (mkExn SqliteError msg), w)
      end
  | _ => (Raised (mkExn SqliteError "unable to open database file"), w)
  end.

Fixpoint executescript (us : list update) : Eff world unit :=
  match us with
  | [] => ret tt
  | u :: us' => execute_update u ;;; executescript us'
  end.

(** The five [CREATE TABLE] statements, as [PRAGMA table_info] reports
    their columns. *)
Definition departments_columns : list column :=
  [ mkColumn "department_id" "INTEGER" false true;
    mkColumn "department_name" "TEXT" true false;
    mkColumn "location" "TEXT" true false ].

Definition employees_columns : list column :=
  [ mkColumn "employee_id" "INTEGER" false true;
    mkColumn "first_name" "TEXT" true false;
    mkColumn "last_name" "TEXT" true false;
    mkColumn "email" "TEXT" true false;
    mkColumn "hire_date" "DATE" true false;
    mkColumn "department_id" "INTEGER" false false;
    mkColumn "job_title" "TEXT" true false ].

Definition projects_columns : list column :=
  [ mkColumn "project_id" "INTEGER" false true;
    mkColumn "project_name" "TEXT" true false;
    mkColumn "start_date" "DATE" true false;
    mkColumn "end_date" "DATE" false false;
    mkColumn "budget" "REAL" true false;
    mkColumn "status" "TEXT" true false ].

Definition salaries_columns : list column :=
  [ mkColumn "salary_id" "INTEGER" false true;
    mkColumn "employee_id" "INTEGER" true false;
    mkColumn "salary_amount" "REAL" true false;
    mkColumn "effective_date" "DATE" true false ].

Definition project_assignments_columns : list column :=
  [ mkColumn "assignment_id" "INTEGER" false true;
    mkColumn "employee_id" "INTEGER" true false;
    mkColumn "project_id" "INTEGER" true false;
    mkColumn "role" "TEXT" true false;
    mkColumn "assigned_date" "DATE" true false ].

(** The sample rows. *)
Definition departments : list row :=
[
  [VInt 1; VText "Engineering"; VText "Building A, Floor 3"];
  [VInt 2; VText "Marketing"; VText "Building B, Floor 1"];
  [VInt 3; VText "Human Resources"; VText "Building A, Floor 1"];
  [VInt 4; VText "Finance"; VText "Building C, Floor 2"];
  [VInt 5; VText "Data Science"; VText "Building A, Floor 4"]
].

Definition employees : list row :=
[
  [VInt 1; VText "Aarav"; VText "Sharma"; VText "aarav.sharma@company.com";
   VText "2021-03-15"; VInt 1; VText "Software Engineer"];
  [VInt 2; VText "Priya"; VText "Patel"; VText "priya.patel@company.com";
   VText "2020-07-20"; VInt 1; VText "Senior Software Engineer"];
  [VInt 3; VText "Rahul"; VText "Gupta"; VText "rahul.gupta@company.com";
   VText "2022-01-10"; VInt 2; VText "Marketing Analyst"];
  [VInt 4; VText "Sneha"; VText "Reddy"; VText "sneha.reddy@company.com";
   VText "2019-11-05"; VInt 3; VText "HR Manager"];
  [VInt 5; VText "Vikram"; VText "Singh"; VText "vikram.singh@company.com";
   VText "2023-02-28"; VInt 1; VText "Junior Developer"];
  [VInt 6; VText "Ananya"; VText "Iyer"; VText "ananya.iyer@company.com";
   VText "2020-09-14"; VInt 4; VText "Financial Analyst"];
  [VInt 7; VText "Rohan"; VText "Mehta"; VText "rohan.mehta@company.com";
   VText "2021-06-01"; VInt 5; VText "Data Scientist"];
  [VInt 8; VText "Kavya"; VText "Nair"; VText "kavya.nair@company.com";
   VText "2022-08-22"; VInt 5; VText "ML Engineer"];
  [VInt 9; VText "Arjun"; VText "Kumar"; VText "arjun.kumar@company.com";
   VText "2018-04-12"; VInt 1; VText "Tech Lead"];
  [VInt 10; VText "Divya"; VText "Joshi"; VText "divya.joshi@company.com";
   VText "2023-05-17"; VInt 2; VText "Content Strategist"];
  [VInt 11; VText "Manish"; VText "Verma"; VText "manish.verma@company.com";
   VText "2021-11-30"; VInt 4; VText "Accountant"];
  [VInt 12; VText "Pooja"; VText "Agarwal";
   VText "pooja.agarwal@company.com"; VText "2020-02-14"; VInt 3;
   VText "Recruiter"];
  [VInt 13; VText "Siddharth"; VText "Rao";
   VText "siddharth.rao@company.com"; VText "2019-08-25"; VInt 1;
   VText "DevOps Engineer"];
  [VInt 14; VText "Neha"; VText "Desai"; VText "neha.desai@company.com";
   VText "2022-12-01"; VInt 5; VText "Data Analyst"];
  [VInt 15; VText "Amit"; VText "Choudhary";
   VText "amit.choudhary@company.com"; VText "2023-09-10"; VInt 2;
   VText "Marketing Manager"]
].

Definition projects : list row :=
[
  [VInt 1; VText "Cloud Migration"; VText "2024-01-15"; VText "2024-12-31";
   VReal (500000 # 1); VText "Active"];
  [VInt 2; VText "Customer Analytics"; VText "2023-06-01";
   VText "2024-06-30"; VReal (250000 # 1); VText "Active"];
  [VInt 3; VText "Mobile App Redesign"; VText "2023-09-01";
   VText "2024-03-31"; VReal (180000 # 1); VText "Completed"];
  [VInt 4; VText "AI Chatbot"; VText "2024-03-01"; VNull; VReal (350000 # 1);
   VText "Active"];
  [VInt 5; VText "ERP System Upgrade"; VText "2022-01-01";
   VText "2023-12-31"; VReal (750000 # 1); VText "Completed"]
].

Definition salaries : list row :=
[
  [VInt 1; VInt 1; VReal (85000 # 1); VText "2024-01-01"];
  [VInt 2; VInt 2; VReal (120000 # 1); VText "2024-01-01"];
  [VInt 3; VInt 3; VReal (65000 # 1); VText "2024-01-01"];
  [VInt 4; VInt 4; VReal (95000 # 1); VText "2024-01-01"];
  [VInt 5; VInt 5; VReal (55000 # 1); VText "2024-01-01"];
  [VInt 6; VInt 6; VReal (78000 # 1); VText "2024-01-01"];
  [VInt 7; VInt 7; VReal (110000 # 1); VText "2024-01-01"];
  [VInt 8; VInt 8; VReal (105000 # 1); VText "2024-01-01"];
  [VInt 9; VInt 9; VReal (140000 # 1); VText "2024-01-01"];
  [VInt 10; VInt 10; VReal (60000 # 1); VText "2024-01-01"];
  [VInt 11; VInt 11; VReal (72000 # 1); VText "2024-01-01"];
  [VInt 12; VInt 12; VReal (68000 # 1); VText "2024-01-01"];
  [VInt 13; VInt 13; VReal (115000 # 1); VText "2024-01-01"];
  [VInt 14; VInt 14; VReal (75000 # 1); VText "2024-01-01"];
  [VInt 15; VInt 15; VReal (90000 # 1); VText "2024-01-01"]
].

Definition assignments : list row :=
[
  [VInt 1; VInt 1; VInt 1; VText "Backend Developer"; VText "2024-01-20"];
  [VInt 2; VInt 2; VInt 1; VText "Lead Developer"; VText "2024-01-20"];
  [VInt 3; VInt 9; VInt 1; VText "Project Manager"; VText "2024-01-15"];
  [VInt 4; VInt 13; VInt 1; VText "DevOps Lead"; VText "2024-02-01"];
  [VInt 5; VInt 7; VInt 2; VText "Lead Data Scientist"; VText "2023-06-01"];
  [VInt 6; VInt 8; VInt 2; VText "ML Engineer"; VText "2023-06-15"];
  [VInt 7; VInt 14; VInt 2; VText "Data Analyst"; VText "2023-07-01"];
  [VInt 8; VInt 5; VInt 3; VText "Frontend Developer"; VText "2023-09-01"];
  [VInt 9; VInt 1; VInt 4; VText "AI Developer"; VText "2024-03-01"];
  [VInt 10; VInt 8; VInt 4; VText "ML Engineer"; VText "2024-03-15"];
  [VInt 11; VInt 7; VInt 4; VText "Data Scientist"; VText "2024-04-01"]
].

(** [create_database()]. *)
Definition create_database : Eff world unit :=
  connect ;;;
  executescript
    [ drop_table "salaries";
      drop_table "project_assignments";
      drop_table "projects";
      drop_table "employees";
      drop_table "departments" ] ;;;
  executescript
    [ create_table "departments" departments_columns;
      create_table "employees" employees_columns;
      create_table "projects" projects_columns;
      create_table "salaries" salaries_columns;
      create_table "project_assignments" project_assignments_columns ] ;;;
  execute_update (insert_many "departments" departments) ;;;
  execute_update (insert_many "employees" employees) ;;;
  execute_update (insert_many "projects" projects) ;;;
  execute_update (insert_many "salaries" salaries) ;;;
  execute_update (insert_many "project_assignments" assignments) ;;;
  close ;;;
  print (txt "Database created successfully at: " ++ DB_PATH).

(** The database that [create_database] builds where no file was. *)
Definition seeded_database : database :=
  [ (txt "departments", mkTable departments_columns departments);
    (txt "employees", mkTable employees_columns employees);
    (txt "projects", mkTable projects_columns projects);
    (txt "salaries", mkTable salaries_columns salaries);
    (txt "project_assignments",
     mkTable project_assignments_columns assignments) ].

(** [SELECT COUNT( * )] of every table. *)
Definition row_counts (d : database) : list (str * nat) :=
  map (fun nt => (fst nt, List.length (tbl_rows (snd nt)))) d.

(** The order of the BINARY collation: the texts compared code point
    by code point, which is the order of their UTF-8 bytes. *)
Fixpoint str_leb (a b : str) : bool :=
  match a, b with
  | [], _ => true
  | _ :: _, [] => false
  | x :: a', y :: b' =>
      if (x <? y)%N then true
      else if (y <? x)%N then false
      else str_leb a' b'
  end.

(** [ORDER BY name]: insertion sort on that order. *)
Fixpoint insert_sorted (n : str) (l : list str) : list str :=
  match l with
  | [] => [n]
  | m :: l' => if str_leb n m then n :: l else m :: insert_sorted n l'
  end.

Definition sort_names (l : list str) : list str :=
  fold_right insert_sorted [] l.

(** The rows of
    [SELECT name FROM sqlite_master WHERE type='table' ORDER BY name]. *)
Definition table_names (d : database) : list str :=
  sort_names (map fst d).

(** The rows of [PRAGMA table_info] for the table that SQLite
    understands by [name]: none when there is no such table. *)
Definition table_info (name : str) (d : database) : list column :=
  match find_table name d with
  | Some t => tbl_columns t
  | None => []
  end.

(** [", ".join(ls)] and ["\n\n".join(ls)]. *)
Definition join_comma (ls : list str) : str := PyStr.join ", " ls.
Definition join_blank (ls : list str) : str :=
  PyStr.join (PyStr.nl ++ PyStr.nl) ls.

Definition col_detail (c : column) : str :=
  let constraints :=
    (if col_pk c then [txt "PRIMARY KEY"] else []) ++
    (if col_notnull c then [txt "NOT NULL"] else []) in
  let constraint_str :=
    match constraints with
    | [] => []
    | _ => txt " (" ++ join_comma constraints ++ txt ")"
    end in
  txt "    - " ++ col_name c ++ txt " " ++ col_type c ++ constraint_str.

(** The entry of [schema_info] for one table. *)
Definition table_block (table_name : str) (columns : list column) : str :=
  txt "Table: " ++ table_name ++ PyStr.nl ++
  PyStr.join_nl (map col_detail columns).

(** The first query of [get_schema_info] on the open database. *)
Definition query_table_names : Eff world (list str) := fun w =>
  match db_file w with
  | Present d => (Returned (table_names d), w)
  | _ => (Raised (mkExn SqliteError "unable to open database file"), w)
  end.

Section Schema.
Context {Q : SqliteSyntax}.

(** [cursor.execute(f"PRAGMA table_info({table_name});")] and
    [cursor.fetchall()]: the name stands unquoted in the statement. *)
Definition pragma_table_info (table_name : str) : Eff world (list column) :=
  fun w =>
    match db_file w with
    | Present d =>
        match pragma_arg table_name with
        | inr understood => (Returned (table_info understood d), w)
        | inl e => (Raised e, w)
        end
    | _ => (Raised (mkExn SqliteError "unable to open database file"), w)
    end.

(** The loop of [get_schema_info] over the tables. *)
Fixpoint schema_blocks (tables : list str) : Eff world (list str) :=
  match tables with
  | [] => ret []
  | table_name :: rest =>
      columns <- pragma_table_info table_name ;;
      blocks <- schema_blocks rest ;;
      ret (table_block table_name columns :: blocks)
  end.

(** [get_schema_info()].  There is no [try]: an error of a query leaves
    the connection open. *)
Definition get_schema_info : Eff world str :=
  connect ;;;
  tables <- query_table_names ;;
  schema_info <- schema_blocks tables ;;
  close ;;;
  ret (join_blank schema_info).

End Schema.

(** The schema text of a database whose table names SQLite reads as
    they are spelt. *)
Definition render_schema (d : database) : str :=
  join_blank (map (fun n => table_block n (table_info n d)) (table_names d)).

End DatabaseSetup.

(* ================================================================== *)
(** ** app.py *)

Module App.

(** [os.path.exists(DB_PATH)]. *)
Definition path_exists (w : world) : bool :=
  match db_file w with
  | Absent => false
  | _ => true
  end.

(** [initialize_database()]; the spinner and the success banner of the
    user interface are not part of the world. *)
Definition initialize_database : Eff world unit := fun w =>
  if negb (path_exists w) then DatabaseSetup.create_database w
  else (Returned tt, w).

(** The first two steps of [main()]: [initialize_database()], then the
    sidebar, which reads the schema with [get_schema_info()]. *)
Definition startup {Q : SqliteSyntax} : Eff world str :=
  initialize_database ;;;
  DatabaseSetup.get_schema_info.

End App.

(* ================================================================== *)
(** ** Python values of the answer record *)

(** The values stored in the dictionary that [ask_question] returns. *)
Inductive pyval : Type :=
| PNone
| PStr (s : str)
| PStrList (l : list str)
| PRows (l : list row).

(** A Python [dict] with string keys, in insertion order. *)
Definition dict : Type := list (string * pyval).

Fixpoint dict_get (k : string) (d : dict) : option pyval :=
  match d with
  | [] => None
  | (k', v) :: d' => if String.eqb k' k then Some v else dict_get k d'
  end.

(** [d[k] = v]: an existing key keeps its place, a new one comes last. *)
Fixpoint dict_set (k : string) (v : pyval) (d : dict) : dict :=
  match d with
  | [] => [(k, v)]
  | (k', v') :: d' =>
      if String.eqb k' k then (k', v) :: d' else (k', v') :: dict_set k v d'
  end.

Definition dict_keys (d : dict) : list string := map fst d.

(** [str(row)] for a result row and [str(columns)] for the list of column
    names: the renderings of the Python runtime, taken as an interface. *)
Class Repr : Type := {
  str_row : row -> str;
  str_columns : list str -> str
}.

(* ================================================================== *)
(** ** sql_agent.py *)

Module SqlAgent.

Section Agent.
Context {U : Unicode} {Q : SqliteSyntax}.

Definition placeholder_key : str := "your_google_api_key_here".

Definition missing_key_message : str :=
  txt "Please set a valid GOOGLE_API_KEY in your .env file." ++ PyStr.nl ++
  txt "Get one at: https://makersuite.google.com/app/apikey".

(** [not api_key or api_key == "your_google_api_key_here"]. *)
Definition key_rejected (k : option str) : bool :=
  match k with
  | None => true
  | Some s => negb (PyStr.truthy s) || str_eqb s placeholder_key
  end.

(** [configure_gemini()]. *)
Definition configure_gemini : Eff world unit :=
  k <- gets api_key ;;
  if key_rejected k then raise (mkExn ValueError missing_key_message)
  else modify (set_genai_key k).

(** [get_gemini_model()]; the model object carries no state. *)
Definition get_gemini_model : Eff world unit := configure_gemini.

(** The response object of the service. *)
Record response : Type := mkResponse { text : str }.

(** [model.generate_content(prompt)]. *)
Definition generate_content (prompt : str) : Eff world response := fun w =>
  match gemini w (List.length (gemini_prompts w)) prompt with
  | Responds t => (Returned (mkResponse t), log_prompt prompt w)
  | Fails e => (Raised e, log_prompt prompt w)
  end.

(** The test on the error text that makes a failure worth a retry. *)
Definition transient (error_msg : str) : bool :=
  PyStr.contains "503" error_msg ||
  PyStr.contains "timeout" (PyStr.lower error_msg) ||
  PyStr.contains "connect" (PyStr.lower error_msg).

(** [f"Retry {attempt + 1}/{max_retries} after {wait_time}s..."]. *)
Definition retry_message (attempt max_retries : nat) (wait_time : Z) : str :=
  txt "Retry " ++ PyStr.of_nat (attempt + 1) ++ txt "/" ++
  PyStr.of_nat max_retries ++ txt " after " ++ PyStr.of_Z wait_time ++
  txt "s...".

(** The body of [for attempt in range(max_retries)], over the attempts
    still to run.  When the range is used up the function falls off its
    end and returns [None]. *)
Fixpoint retry_loop (max_retries : nat) (prompt : str) (attempts : list nat)
  : Eff world (option response) :=
  match attempts with
  | [] => ret None
  | attempt :: rest =>
      try_except
        (response <- generate_content prompt ;; ret (Some response))
        (fun e =>
           let error_msg := str_exn e in
           if (attempt <? max_retries - 1)%nat && transient error_msg then
             let wait_time := (2 ^ (Z.of_nat attempt + 1))%Z in
             print (retry_message attempt max_retries wait_time) ;;;
             sleep wait_time ;;;
             retry_loop max_retries prompt rest
           else raise e)
  end.

(** [call_gemini_with_retry(model, prompt, max_retries)]. *)
Definition call_gemini_with_retry_n (max_retries : nat) (prompt : str)
  : Eff world (option response) :=
  retry_loop max_retries prompt (seq 0 max_retries).

(** [call_gemini_with_retry(model, prompt)], with the default of three. *)
Definition call_gemini_with_retry (prompt : str) : Eff world (option response) :=
  call_gemini_with_retry_n 3 prompt.

(** [response.text], where [response] may be [None]. *)
Definition response_text (r : option response) : Eff world str :=
  match r with
  | Some r => ret (text r)
  | None => raise (mkExn AttributeError
                     "'NoneType' object has no attribute 'text'")
  end.

(** The pieces of [SQL_GENERATION_PROMPT] and [ANSWER_GENERATION_PROMPT]
    between their substitution points. *)
Definition sql_prompt_0 : str :=
  PyStr.join_nl
  [
    txt EmptyString;
    txt "You are an expert SQL query generator. You are given a SQLite database schema";
    txt "and a natural language question. Your job is to generate a valid SQLite SQL query";
    txt "that answers the question.";
    txt EmptyString;
    txt "DATABASE SCHEMA:";
    txt EmptyString
  ].

Definition sql_prompt_1 : str :=
  PyStr.join_nl
  [
    txt EmptyString;
    txt EmptyString;
    txt "RULES:";
    txt "1. Generate ONLY a valid SQLite SELECT query — no INSERT, UPDATE, DELETE, DROP, or ALTER.";
    txt "2. Use only the tables and columns listed in the schema above.";
    txt "3. Return ONLY the raw SQL query — no explanations, no markdown, no code fences.";
    txt "4. Use proper JOINs when data spans multiple tables.";
    txt "5. Use aliases for readability when joining tables.";
    txt "6. If the question is ambiguous, make a reasonable assumption and proceed.";
    txt "7. Always end the query with a semicolon.";
    txt EmptyString;
    txt "QUESTION: "
  ].

Definition sql_prompt_2 : str :=
  PyStr.join_nl
  [
    txt EmptyString;
    txt EmptyString;
    txt "SQL QUERY:";
    txt EmptyString
  ].

Definition answer_prompt_0 : str :=
  PyStr.join_nl
  [
    txt EmptyString;
    txt "You are a helpful data assistant. Given a user's question, the SQL query that was";
    txt "executed, and the results from the database, provide a clear, concise, and";
    txt "human-friendly answer.";
    txt EmptyString;
    txt "QUESTION: "
  ].

Definition answer_prompt_1 : str :=
  PyStr.join_nl
  [
    txt EmptyString;
    txt EmptyString;
    txt "SQL QUERY EXECUTED:";
    txt EmptyString
  ].

Definition answer_prompt_2 : str :=
  PyStr.join_nl
  [
    txt EmptyString;
    txt EmptyString;
    txt "QUERY RESULTS:";
    txt EmptyString
  ].

Definition answer_prompt_3 : str :=
  PyStr.join_nl
  [
    txt EmptyString;
    txt EmptyString;
    txt "COLUMN NAMES: "
  ].

Definition answer_prompt_4 : str :=
  PyStr.join_nl
  [
    txt EmptyString;
    txt EmptyString;
    txt "Instructions:";
    txt "- Provide a natural language answer summarizing the results.";
    txt "- If the results are tabular, present them in a well-formatted way.";
    txt "- If no results were returned, say so politely and suggest possible reasons.";
    txt "- Keep the answer concise but informative.";
    txt EmptyString;
    txt "ANSWER:";
    txt EmptyString
  ].

Definition format_sql_prompt (schema question : str) : str :=
  sql_prompt_0 ++ schema ++ sql_prompt_1 ++ question ++ sql_prompt_2.

Definition format_answer_prompt (question sql_query results columns : str)
  : str :=
  answer_prompt_0 ++ question ++ answer_prompt_1 ++ sql_query ++
  answer_prompt_2 ++ results ++ answer_prompt_3 ++ columns ++ answer_prompt_4.

Definition fence : str := "```".

(** A line that the clean-up of [generate_sql_query] drops. *)
Definition fence_line (line : str) : bool :=
  PyStr.startswith (PyStr.strip line) fence.

(** The post-processing of the model output in [generate_sql_query]. *)
Definition clean_sql (raw : str) : str :=
  let sql_query := PyStr.strip raw in
  if PyStr.startswith sql_query fence then
    let lines := PyStr.split_nl sql_query in
    PyStr.strip
      (PyStr.join_nl (filter (fun line => negb (fence_line line)) lines))
  else sql_query.

(** [generate_sql_query(question)]. *)
Definition generate_sql_query (question : str) : Eff world str :=
  get_gemini_model ;;;
  schema <- DatabaseSetup.get_schema_info ;;
  let prompt := format_sql_prompt schema question in
  response <- call_gemini_with_retry prompt ;;
  raw <- response_text response ;;
  ret (clean_sql raw).

Definition not_select_message : str :=
  txt "Only SELECT queries are allowed. " ++
  txt "The generated query was not a SELECT statement.".

(** The safety check of [execute_sql_query]. *)
Definition is_select (sql_query : str) : bool :=
  let normalized := PyStr.upper (PyStr.strip sql_query) in
  PyStr.startswith normalized "SELECT".

(** [cursor.execute(sql_query)] followed by the reading of
    [cursor.description] and [cursor.fetchall()].  A statement that
    passed the safety check is a query: the engine reads the database
    and does not change it. *)
Definition cursor_execute (sql_query : str)
  : Eff world (list str * list row) := fun w =>
  match db_file w with
  | Present d =>
      match engine w d sql_query with
      | ExecRows cols rs => (Returned (cols, rs), w)
      | ExecError msg => (Raised (mkExn SqliteError msg), w)
      end
  | _ => (Raised (mkExn SqliteError "unable to open database file"), w)
  end.

Definition is_sqlite_error (e : exn) : bool :=
  match exn_kind e with SqliteError => true | _ => false end.

(** [execute_sql_query(sql_query)]. *)
Definition execute_sql_query (sql_query : str)
  : Eff world (list str * list row) :=
  if negb (is_select sql_query) then
    raise (mkExn ValueError not_select_message)
  else
    DatabaseSetup.connect ;;;
    try_finally
      (try_except
         (cursor_execute sql_query)
         (fun e =>
            if is_sqlite_error e
            then raise (mkExn RuntimeError
                          (txt "SQL execution error: " ++ str_exn e))
            else raise e))
      DatabaseSetup.close.

Section Answer.
Context {R : Repr}.

(** The results text of [generate_natural_answer]. *)
Definition results_str (rows : list row) : str :=
  match rows with
  | [] => txt "No results found."
  | _ =>
      let s := PyStr.join_nl (map str_row (firstn 50 rows)) in
      if (50 <? List.length rows)%nat
      then s ++ PyStr.nl ++ txt "... and " ++
           PyStr.of_nat (List.length rows - 50) ++ txt " more rows"
      else s
  end.

(** [generate_natural_answer(question, sql_query, columns, rows)]. *)
Definition generate_natural_answer
    (question sql_query : str) (columns : list str) (rows : list row)
  : Eff world str :=
  get_gemini_model ;;;
  let prompt :=
    format_answer_prompt question sql_query (results_str rows)
                         (str_columns columns) in
  response <- call_gemini_with_retry prompt ;;
  raw <- response_text response ;;
  ret (PyStr.strip raw).

(** Runs a stage of the pipeline beside the local [result]. *)
Definition stage {A} (m : Eff world A) : Eff (world * dict) A := fun s =>
  let (o, w') := m (fst s) in (o, (w', snd s)).

(** [result[k] = v]. *)
Definition set_item (k : string) (v : pyval) : Eff (world * dict) unit :=
  modify (fun s => (fst s, dict_set k v (snd s))).

Definition initial_result (question : str) : dict :=
  [ ("question", PStr question);
    ("sql_query", PNone);
    ("columns", PNone);
    ("rows", PNone);
    ("answer", PNone);
    ("error", PNone) ].

(** The [try] block of [ask_question]. *)
Definition pipeline (question : str) : Eff (world * dict) unit :=
  sql_query <- stage (generate_sql_query question) ;;
  set_item "sql_query" (PStr sql_query) ;;;
  cr <- stage (execute_sql_query sql_query) ;;
  set_item "columns" (PStrList (fst cr)) ;;;
  set_item "rows" (PRows (snd cr)) ;;;
  answer <- stage (generate_natural_answer question sql_query (fst cr) (snd cr)) ;;
  set_item "answer" (PStr answer).

(** [ask_question(question)]: the outcome and the world it leaves. *)
Definition ask_question (question : str) : Eff world dict := fun w =>
  match try_except (pipeline question)
                   (fun e => set_item "error" (PStr (str_exn e)))
                   (w, initial_result question) with
  | (Returned _, s) => (Returned (snd s), fst s)
  | (Raised e, s) => (Raised e, fst s)
  end.

End Answer.

End Agent.

End SqlAgent.

(* ================================================================== *)
(** ** Sample inputs *)

Module Demo.

(** An engine that answers every query with one row. *)
Definition engine : database -> str -> exec_outcome :=
  fun _ _ => ExecRows [txt "n"] [[VInt 5]].

(** A fresh process: nothing sent, slept or printed yet. *)
Definition fresh (key : option str) (svc : nat -> str -> llm_outcome)
    (f : file_state) : world :=
  mkWorld key None svc [] [] [] f engine 0 0.

(** A rendering of rows and column lists good enough for examples. *)
Definition repr : Repr :=
  {| str_row := fun r => txt "(" ++ PyStr.of_nat (List.length r) ++ txt " values)";
     str_columns := fun c => txt "[" ++ PyStr.join ", " c ++ txt "]" |}.

(** Case mappings for the examples: those of Python on ASCII text, on
    the long s (U+017F), whose upper case is [S], and on the sharp s
    (U+00DF), whose upper case is [SS]; other characters are left as they
    are. *)
Definition upper_of (c : codepoint) : str :=
  if (c <? 128)%N then [ascii_upper c]
  else if (c =? 383)%N then [83%N]
  else if (c =? 223)%N then [83%N; 83%N]
  else [c].

Definition upper_of_ascii (c : codepoint) (L : (c < 128)%N)
  : upper_of c = [ascii_upper c] :=
  @eq_ind_r bool true
    (fun b : bool =>
       (if b then [ascii_upper c]
        else if (c =? 383)%N then [83%N]
        else if (c =? 223)%N then [83%N; 83%N]
        else [c]) = [ascii_upper c])
    eq_refl (c <? 128)%N (proj2 (N.ltb_lt c 128) L).

Definition upper_of_space (c : codepoint)
  : isspace c = true -> upper_of c = [c].
Proof.
  unfold isspace, upper_of, ascii_upper. intros W.
  destruct (N.ltb_spec c 128) as [L | L].
  - destruct (N.leb_spec 97 c); destruct (N.leb_spec c 122);
      cbn [andb]; try reflexivity.
    exfalso. revert W.
    repeat match goal with
      | |- context [N.leb ?a ?b] => destruct (N.leb_spec a b); try lia
      | |- context [N.eqb ?a ?b] => destruct (N.eqb_spec a b); try lia
      end; cbn; discriminate.
  - destruct (N.eqb_spec c 383) as [-> | _]; [ discriminate W | ].
    destruct (N.eqb_spec c 223) as [-> | _]; [ discriminate W | reflexivity ].
Qed.

Definition unicode : Unicode :=
  Build_Unicode upper_of (map ascii_lower) upper_of_ascii upper_of_space
                (fun s _ => eq_refl).

(** The reading of a name in [PRAGMA table_info(...)] for the examples:
    [a b] is a syntax error near its second word; the other names of the
    examples are plain identifiers, read as they are spelt. *)
Definition sqlite : SqliteSyntax :=
  {| pragma_arg := fun n =>
       if str_eqb n "a b"
       then inl (mkExn SqliteError
                   (txt "near " ++ [34%N] ++ txt "b" ++ [34%N] ++
                    txt ": syntax error"))
       else inr n |}.

Definition unavailable : exn := mkExn ServiceError "503 Service Unavailable".
Definition bad_request : exn := mkExn ServiceError "400 Bad Request".

(** A service that always answers with the same text. *)
Definition always (t : str) : nat -> str -> llm_outcome :=
  fun _ _ => Responds t.

(** A service that is unavailable for the first [k] calls. *)
Definition after_failures (k : nat) (t : str) : nat -> str -> llm_outcome :=
  fun n _ => if (n <? k)%nat then Fails unavailable else Responds t.

(** A service that answers the first call and rejects the later ones. *)
Definition once (t : str) : nat -> str -> llm_outcome :=
  fun n _ => match n with O => Responds t | _ => Fails bad_request end.

Definition seventy_five_rows : list row := repeat [VInt 1] 75.

End Demo.

(** The world with another key in the environment. *)
Definition set_api_key (k : option str) (w : world) : world :=
  mkWorld k (genai_key w) (gemini w) (gemini_prompts w) (sleeps w) (stdout w)
          (db_file w) (engine w) (connects w) (open_connections w).

(** A computation that neither reads nor writes the key of the
    environment: it does with any key what it does with the one there. *)
Definition key_blind {A} (m : Eff world A) : Prop :=
  forall k w, m (set_api_key k w) = (fst (m w), set_api_key k (snd (m w))).

(** The world after a failed attempt number [attempt] (from 0) of
    [max_retries] on [prompt] that is retried: the prompt was sent, the
    retry was announced and the back-off was slept. *)
Definition backed_off (max_retries attempt : nat) (prompt : str) (w : world)
  : world :=
  let wait_time := (2 ^ (Z.of_nat attempt + 1))%Z in
  log_sleep wait_time
    (log_print (SqlAgent.retry_message attempt max_retries wait_time)
       (log_prompt prompt w)).

(** The outcome of the attempt number [k] of a call that starts in [w]. *)
Definition attempt_outcome (w : world) (prompt : str) (k : nat) : llm_outcome :=
  gemini w (List.length (gemini_prompts w) + k) prompt.

(** A failure that the retry logic classifies as transient. *)
Definition transient_failure {U : Unicode} (o : llm_outcome) : Prop :=
  exists e, o = Fails e /\ SqlAgent.transient (str_exn e) = true.

(** A text without a line feed. *)
Fixpoint nl_free (s : str) : bool :=
  match s with
  | [] => true
  | c :: t => negb (N.eqb c PyStr.nl_char) && nl_free t
  end.

(** The keys of the dictionary that [ask_question] builds. *)
Definition record_keys : list string :=
  ["question"; "sql_query"; "columns"; "rows"; "answer"; "error"]%string.

(** The answer record with its six entries. *)
Definition answer_record (question : str) (sql_query columns rows answer error : pyval)
  : dict :=
  [ ("question"%string, PStr question);
    ("sql_query"%string, sql_query);
    ("columns"%string, columns);
    ("rows"%string, rows);
    ("answer"%string, answer);
    ("error"%string, error) ].

Section Stages.
Context {U : Unicode} {Q : SqliteSyntax} {R : Repr}.

(** [v] is the statement that the translation stage returned. *)
Definition produced_by_translation (q : str) (w : world) (v : pyval) : Prop :=
  exists sql w1,
    SqlAgent.generate_sql_query q w = (Returned sql, w1) /\ v = PStr sql.

(** [v] is [f] of the columns and rows that the execution stage returned. *)
Definition produced_by_execution (q : str) (w : world)
    (f : list str * list row -> pyval) (v : pyval) : Prop :=
  exists sql w1 cr w2,
    SqlAgent.generate_sql_query q w = (Returned sql, w1) /\
    SqlAgent.execute_sql_query sql w1 = (Returned cr, w2) /\ v = f cr.

(** [v] is the answer that the synthesis stage returned. *)
Definition produced_by_synthesis (q : str) (w : world) (v : pyval) : Prop :=
  exists sql w1 cr w2 a w3,
    SqlAgent.generate_sql_query q w = (Returned sql, w1) /\
    SqlAgent.execute_sql_query sql w1 = (Returned cr, w2) /\
    SqlAgent.generate_natural_answer q sql (fst cr) (snd cr) w2 =
      (Returned a, w3) /\
    v = PStr a.

End Stages.

(* ================================================================== *)
(** ** sql_agent.py: the address filter *)

Module Net.

(** [r[0]], the address family of an answer of [socket.getaddrinfo]. *)
Inductive family : Type :=
| AF_INET
| AF_INET6
| AF_OTHER (n : Z).

Section Resolve.
(** The other four fields of an answer: socket type, protocol, canonical
    name and socket address. *)
Variable A : Type.

Definition addrinfo : Type := (family * A)%type.

(** [r[0] == socket.AF_INET]. *)
Definition is_inet (r : addrinfo) : bool :=
  match fst r with
  | AF_INET => true
  | _ => false
  end.

(** [_ipv4_only_getaddrinfo], on the answers of the original resolver:
    [[r for r in responses if r[0] == socket.AF_INET] or responses]. *)
Definition ipv4_only_getaddrinfo (responses : list addrinfo) : list addrinfo :=
  match filter is_inet responses with
  | [] => responses
  | ipv4 => ipv4
  end.

End Resolve.

Arguments is_inet {A} r.
Arguments ipv4_only_getaddrinfo {A} responses.

End Net.

(* ================================================================== *)
(** ** app.py: the schema in the sidebar *)

Module Sidebar.

(** Puts a character in front of the first piece. *)
Definition cons_head (c : codepoint) (pieces : list str) : list str :=
  match pieces with
  | [] => [[c]]
  | p :: ps => (c :: p) :: ps
  end.

(** [s.split("\n\n")]: the pieces between the leftmost occurrences of
    two line feeds that do not overlap. *)
Fixpoint split_blank (s : str) : list str :=
  match s with
  | [] => [[]]
  | c :: t =>
      match t with
      | c' :: t' =>
          if N.eqb c PyStr.nl_char && N.eqb c' PyStr.nl_char
          then [] :: split_blank t'
          else cons_head c (split_blank t)
      | [] => [[c]]
      end
  end.

(** The scan of [s.replace(old, new)] for a non-empty [old]: [skip]
    counts the characters of a match still to be passed over. *)
Fixpoint replace_from (old new : str) (skip : nat) (s : str) : str :=
  match s with
  | [] => []
  | c :: t =>
      match skip with
      | S k => replace_from old new k t
      | O =>
          if PyStr.prefix old s
          then new ++ replace_from old new (List.length old - 1) t
          else c :: replace_from old new 0 t
      end
  end.

(** [new] after every character, as [replace] with an empty [old] puts it. *)
Fixpoint after_each (new s : str) : str :=
  match s with
  | [] => []
  | c :: t => c :: new ++ after_each new t
  end.

(** [s.replace(old, new)]. *)
Definition replace (s old new : str) : str :=
  match old with
  | [] => new ++ after_each new s
  | _ => replace_from old new 0 s
  end.

(** One pass of the loop of [display_sidebar] over a block of the schema
    text: the title of the expander and the texts under it; no expander
    when [lines] is empty. *)
Definition sidebar_block (table_block : str) : list (str * list str) :=
  let lines := PyStr.split_nl (PyStr.strip table_block) in
  match lines with
  | [] => []
  | line :: col_lines =>
      let table_name := replace line "Table: " [] in
      [(table_name, map PyStr.strip col_lines)]
  end.

(** The expanders that [display_sidebar] builds from the schema text. *)
Definition sidebar_tables (schema : str) : list (str * list str) :=
  flat_map sidebar_block (split_blank schema).

(** The schema part of [display_sidebar()]; the sample questions below
    it are not modelled. *)
Definition display_sidebar {Q : SqliteSyntax} : Eff world (list (str * list str)) :=
  schema <- DatabaseSetup.get_schema_info ;;
  ret (sidebar_tables schema).

End Sidebar.

(* ================================================================== *)
(** ** app.py: the question form of [main] *)

(** Python truthiness of the values of an answer record. *)
Definition py_truthy (v : pyval) : bool :=
  match v with
  | PNone => false
  | PStr s => PyStr.truthy s
  | PStrList l => match l with [] => false | _ => true end
  | PRows l => match l with [] => false | _ => true end
  end.

Module AppMain.

(** What the form does with one run of the script. *)
Inductive submitted : Type :=
| NotAsked
| Warned                      (* "Please enter a question first." *)
| Asked (result : dict).

(** What is displayed for a result: the error, or the statement, the
    table of rows (when there are rows) and the answer. *)
Inductive view : Type :=
| ErrorView (error : pyval)
| AnswerView (sql_query : pyval) (table : option (pyval * pyval)) (answer : pyval).

(** The display of [result] in [main]; [None] stands for the [KeyError]
    of a missing key.  The widgets themselves are not modelled. *)
Definition result_view (result : dict) : option view :=
  match dict_get "error" result with
  | None => None
  | Some error =>
      if py_truthy error then Some (ErrorView error)
      else
        match dict_get "sql_query" result with
        | None => None
        | Some sql_query =>
            match dict_get "rows" result with
            | None => None
            | Some rows =>
                let table :=
                  if py_truthy rows then
                    match dict_get "columns" result with
                    | None => None
                    | Some columns => Some (Some (rows, columns))
                    end
                  else Some None in
                match table with
                | None => None
                | Some table =>
                    match dict_get "answer" result with
                    | None => None
                    | Some answer => Some (AnswerView sql_query table answer)
                    end
                end
            end
        end
  end.

Section Form.
Context {U : Unicode} {Q : SqliteSyntax} {R : Repr}.

(** Runs a computation on the world beside [st.session_state.chat_history]. *)
Definition with_history {A} (m : Eff world A) : Eff (world * list dict) A :=
  fun s => let (o, w') := m (fst s) in (o, (w', snd s)).

(** The block of [main] that processes the question: [ask_button] is the
    state of the button and [user_question] the text of the input. *)
Definition process_question (ask_button : bool) (user_question : str)
  : Eff (world * list dict) submitted :=
  if ask_button && PyStr.truthy (PyStr.strip user_question) then
    result <- with_history (SqlAgent.ask_question (PyStr.strip user_question)) ;;
    modify (fun s => (fst s, snd s ++ [result])) ;;;
    ret (Asked result)
  else if ask_button then ret Warned
  else ret NotAsked.

End Form.

End AppMain.

(* ================================================================== *)
(** ** Notions used in the statements *)

(** A text of ASCII characters. *)
Definition ascii_text (s : str) : Prop := Forall (fun c => (c < 128)%N) s.

(** The names of the five tables of the sample schema. *)
Definition seed_names : list str :=
  [ txt "departments"; txt "employees"; txt "projects"; txt "salaries";
    txt "project_assignments" ].

(** A name that SQLite takes for one of the five names. *)
Definition seed_name (n : str) : bool :=
  existsb (fun m => name_eqb m n) seed_names.

(** The database without the five tables of the sample schema, as the
    first script of [create_database] leaves it. *)
Definition without_seed (d : database) : database :=
  drop_table_if_exists "departments"
    (drop_table_if_exists "employees"
       (drop_table_if_exists "projects"
          (drop_table_if_exists "project_assignments"
             (drop_table_if_exists "salaries" d)))).

(** The first [k] sleeps of the back-off: 2, 4, 8, ... seconds. *)
Definition backoff_schedule (k : nat) : list Z :=
  map (fun i => (2 ^ (Z.of_nat i + 1))%Z) (seq 0 k).

(** A text of white space only. *)
Fixpoint all_space (s : str) : bool :=
  match s with
  | [] => true
  | c :: t => isspace c && all_space t
  end.

(** A text without two line feeds in a row and without a line feed at
    its end. *)
Fixpoint tight (s : str) : bool :=
  match s with
  | [] => true
  | c :: t =>
      match t with
      | [] => negb (N.eqb c PyStr.nl_char)
      | c' :: _ =>
          negb (N.eqb c PyStr.nl_char && N.eqb c' PyStr.nl_char) && tight t
      end
  end.

(** A text that is tight and starts with a character other than the line
    feed. *)
Definition solid (s : str) : Prop :=
  tight s = true /\
  exists c t, s = c :: t /\ N.eqb c PyStr.nl_char = false.

(** A name that SQLite reads as it is spelt when it stands unquoted in
    [PRAGMA table_info(...)]. *)
Definition reads_as_spelt {Q : SqliteSyntax} (n : str) : Prop :=
  pragma_arg n = inr n.

(** A table whose columns the schema text renders without ambiguity:
    their names and types hold no line feed, and there is one. *)
Definition plain_columns (t : table) : Prop :=
  tbl_columns t <> [] /\
  Forall (fun c => nl_free (col_name c) = true /\ nl_free (col_type c) = true)
         (tbl_columns t).

(** A table that the sidebar reads back: SQLite reads its name as it is
    spelt, the name holds no line feed and not the text "Table: ", and
    its columns are plain. *)
Definition plain_table {Q : SqliteSyntax} (nt : str * table) : Prop :=
  reads_as_spelt (fst nt) /\
  nl_free (fst nt) = true /\
  PyStr.contains "Table: " (fst nt) = false /\
  plain_columns (snd nt).

(** The order of the names in the schema, as a proposition. *)
Definition name_le (a b : str) : Prop := DatabaseSetup.str_leb a b = true.

(* ================================================================== *)
(** ** The pipeline of [ask_question] *)

Section Pipeline.
Context {U : Unicode} {Q : SqliteSyntax} {R : Repr}.

(** [ask_question] stage by stage: the record it returns after each of
    the four ways the [try] block can end. *)
Lemma ask_question_run (q : str) (w : world) :
  SqlAgent.ask_question q w =
  match SqlAgent.generate_sql_query q w with
  | (Raised e, w1) =>
      (Returned (answer_record q PNone PNone PNone PNone (PStr (str_exn e))), w1)
  | (Returned sql, w1) =>
      match SqlAgent.execute_sql_query sql w1 with
      | (Raised e, w2) =>
          (Returned (answer_record q (PStr sql) PNone PNone PNone
                                   (PStr (str_exn e))), w2)
      | (Returned cr, w2) =>
          match SqlAgent.generate_natural_answer q sql (fst cr) (snd cr) w2 with
          | (Raised e, w3) =>
              (Returned (answer_record q (PStr sql) (PStrList (fst cr))
                                       (PRows (snd cr)) PNone
                                       (PStr (str_exn e))), w3)
          | (Returned a, w3) =>
              (Returned (answer_record q (PStr sql) (PStrList (fst cr))
                                       (PRows (snd cr)) (PStr a) PNone), w3)
          end
      end
  end.
Proof.
  unfold SqlAgent.ask_question, try_except, SqlAgent.pipeline, bind,
    SqlAgent.stage, SqlAgent.set_item, modify.
  cbn [fst snd SqlAgent.initial_result].
  destruct (SqlAgent.generate_sql_query q w) as [[sql | e] w1];
    [ | reflexivity ].
  cbn [fst snd].
  destruct (SqlAgent.execute_sql_query sql w1) as [[cr | e] w2];
    [ | reflexivity ].
  cbn [fst snd].
  destruct (SqlAgent.generate_natural_answer q sql (fst cr) (snd cr) w2)
    as [[a | e] w3]; reflexivity.
Qed.

End Pipeline.

(* ================================================================== *)
(** ** The retry loop of [call_gemini_with_retry] *)

Section Retry.
Context {U : Unicode}.
Variables (max_retries : nat) (prompt : str).

Lemma generate_content_responds (w : world) (t : str) :
  attempt_outcome w prompt 0 = Responds t ->
  SqlAgent.generate_content prompt w =
    (Returned (SqlAgent.mkResponse t), log_prompt prompt w).
Proof.
  unfold attempt_outcome, SqlAgent.generate_content.
  rewrite Nat.add_0_r. intros ->. reflexivity.
Qed.

Lemma generate_content_fails (w : world) (e : exn) :
  attempt_outcome w prompt 0 = Fails e ->
  SqlAgent.generate_content prompt w = (Raised e, log_prompt prompt w).
Proof.
  unfold attempt_outcome, SqlAgent.generate_content.
  rewrite Nat.add_0_r. intros ->. reflexivity.
Qed.

(** An attempt that succeeds ends the loop. *)
Lemma retry_loop_success (attempt : nat) (rest : list nat) (w : world) (t : str) :
  attempt_outcome w prompt 0 = Responds t ->
  SqlAgent.retry_loop max_retries prompt (attempt :: rest) w =
    (Returned (Some (SqlAgent.mkResponse t)), log_prompt prompt w).
Proof.
  intros E. cbn [SqlAgent.retry_loop]. unfold try_except, bind.
  rewrite (generate_content_responds _ _ E). reflexivity.
Qed.

(** A failure on the last attempt, or one that is not transient, leaves
    the loop at once. *)
Lemma retry_loop_raise (attempt : nat) (rest : list nat) (w : world) (e : exn) :
  attempt_outcome w prompt 0 = Fails e ->
  (attempt <? max_retries - 1)%nat && SqlAgent.transient (str_exn e) = false ->
  SqlAgent.retry_loop max_retries prompt (attempt :: rest) w =
    (Raised e, log_prompt prompt w).
Proof.
  intros E G. cbn [SqlAgent.retry_loop]. unfold try_except, bind.
  rewrite (generate_content_fails _ _ E), G. reflexivity.
Qed.

(** A transient failure before the last attempt sleeps and goes on. *)
Lemma retry_loop_retry (attempt : nat) (rest : list nat) (w : world) (e : exn) :
  attempt_outcome w prompt 0 = Fails e ->
  (attempt <? max_retries - 1)%nat && SqlAgent.transient (str_exn e) = true ->
  SqlAgent.retry_loop max_retries prompt (attempt :: rest) w =
    SqlAgent.retry_loop max_retries prompt rest
      (backed_off max_retries attempt prompt w).
Proof.
  intros E G. cbn [SqlAgent.retry_loop]. unfold try_except, bind.
  rewrite (generate_content_fails _ _ E), G. reflexivity.
Qed.

(** The next attempt after a retry is the next call of the service. *)
Lemma attempt_outcome_backed_off (attempt k : nat) (w : world) :
  attempt_outcome (backed_off max_retries attempt prompt w) prompt k =
  attempt_outcome w prompt (S k).
Proof.
  unfold attempt_outcome, backed_off. cbn.
  rewrite length_app. cbn. f_equal. lia.
Qed.

End Retry.

Section RetryDefault.
Context {U : Unicode}.
Variable prompt : str.

Ltac retry_step :=
  unfold SqlAgent.call_gemini_with_retry, SqlAgent.call_gemini_with_retry_n;
  cbn [seq];
  repeat match goal with
    | H : transient_failure _ |- _ =>
        let e := fresh "e" in
        let E := fresh "E" in
        let T := fresh "T" in
        destruct H as (e & E & T)
    end;
  repeat (erewrite retry_loop_retry;
          [ | first [ eassumption
                    | rewrite !attempt_outcome_backed_off; eassumption ]
            | cbn [Nat.ltb Nat.leb Nat.sub andb]; assumption ]).

(** With the default of three attempts, the call ends in one of six
    ways, fixed by the outcomes of at most three attempts. *)
Lemma call_gemini_with_retry_cases (w : world) :
  let o := attempt_outcome w prompt in
  let run := SqlAgent.call_gemini_with_retry prompt w in
  let w1 := backed_off 3 0 prompt w in
  let w2 := backed_off 3 1 prompt w1 in
  (forall t, o 0 = Responds t ->
     run = (Returned (Some (SqlAgent.mkResponse t)), log_prompt prompt w)) /\
  (forall e, o 0 = Fails e -> SqlAgent.transient (str_exn e) = false ->
     run = (Raised e, log_prompt prompt w)) /\
  (transient_failure (o 0) -> forall t, o 1 = Responds t ->
     run = (Returned (Some (SqlAgent.mkResponse t)), log_prompt prompt w1)) /\
  (transient_failure (o 0) -> forall e, o 1 = Fails e ->
     SqlAgent.transient (str_exn e) = false ->
     run = (Raised e, log_prompt prompt w1)) /\
  (transient_failure (o 0) -> transient_failure (o 1) ->
     forall t, o 2 = Responds t ->
     run = (Returned (Some (SqlAgent.mkResponse t)), log_prompt prompt w2)) /\
  (transient_failure (o 0) -> transient_failure (o 1) ->
     forall e, o 2 = Fails e -> run = (Raised e, log_prompt prompt w2)).
Proof.
  cbv zeta. repeat split; intros.
  - retry_step. eapply retry_loop_success; eassumption.
  - retry_step. eapply retry_loop_raise; [ eassumption | ].
    rewrite H0. apply andb_false_r.
  - retry_step. eapply retry_loop_success.
    rewrite attempt_outcome_backed_off; eassumption.
  - retry_step. eapply retry_loop_raise.
    + rewrite attempt_outcome_backed_off; eassumption.
    + rewrite H1. apply andb_false_r.
  - retry_step. eapply retry_loop_success.
    rewrite !attempt_outcome_backed_off; eassumption.
  - retry_step. eapply retry_loop_raise.
    + rewrite !attempt_outcome_backed_off; eassumption.
    + reflexivity.
Qed.

(** What a call leaves behind: it sends the prompt once per attempt,
    one to three times, sleeps 2 s and then 4 s between the attempts and
    touches neither the database file nor the environment; it never
    falls off the end of the loop. *)
Lemma call_gemini_with_retry_trace (w : world) :
  let run := SqlAgent.call_gemini_with_retry prompt w in
  exists k, (k <= 2)%nat /\
    sleeps (snd run) = (sleeps w ++ firstn k [2; 4]%Z) /\
    gemini_prompts (snd run) = (gemini_prompts w ++ repeat prompt (S k)) /\
    db_file (snd run) = db_file w /\
    connects (snd run) = connects w /\
    open_connections (snd run) = open_connections w /\
    api_key (snd run) = api_key w /\
    fst run <> Returned None.
Proof.
  cbv zeta.
  destruct (call_gemini_with_retry_cases w) as (C1 & C2 & C3 & C4 & C5 & C6).
  destruct (attempt_outcome w prompt 0) as [t0 | e0] eqn:E0.
  { exists 0%nat. rewrite (C1 _ eq_refl). cbn.
    rewrite app_nil_r. repeat split; [ lia | discriminate ]. }
  destruct (SqlAgent.transient (str_exn e0)) eqn:T0.
  2:{ exists 0%nat. rewrite (C2 _ eq_refl T0). cbn.
      rewrite app_nil_r. repeat split; [ lia | discriminate ]. }
  assert (F0 : transient_failure (Fails e0)) by (exists e0; auto).
  destruct (attempt_outcome w prompt 1) as [t1 | e1] eqn:E1.
  { exists 1%nat. rewrite (C3 F0 _ eq_refl). cbn.
    rewrite <- !app_assoc. repeat split; [ lia | discriminate ]. }
  destruct (SqlAgent.transient (str_exn e1)) eqn:T1.
  2:{ exists 1%nat. rewrite (C4 F0 _ eq_refl T1). cbn.
      rewrite <- !app_assoc. repeat split; [ lia | discriminate ]. }
  assert (F1 : transient_failure (Fails e1)) by (exists e1; auto).
  exists 2%nat.
  destruct (attempt_outcome w prompt 2) as [t2 | e2] eqn:E2.
  - rewrite (C5 F0 F1 _ eq_refl). cbn.
    rewrite <- !app_assoc. repeat split; [ lia | discriminate ].
  - rewrite (C6 F0 F1 _ eq_refl). cbn.
    rewrite <- !app_assoc. repeat split; [ lia | discriminate ].
Qed.

End RetryDefault.

(* ================================================================== *)
(** ** Texts *)

Lemma str_eqb_refl (a : str) : str_eqb a a = true.
Proof.
  induction a as [ | c a IH ]; [ reflexivity | ].
  cbn [str_eqb]. rewrite N.eqb_refl. exact IH.
Qed.

Lemma str_eqb_eq (a b : str) : str_eqb a b = true <-> a = b.
Proof.
  split; [ | intros ->; apply str_eqb_refl ].
  revert b. induction a as [ | c a IH ]; intros [ | c' b ]; cbn [str_eqb];
    try discriminate; [ reflexivity | ].
  rewrite andb_true_iff, N.eqb_eq. intros [-> E]. f_equal. apply IH, E.
Qed.

(* ================================================================== *)
(** ** The database file: creation and schema *)

Lemma create_database_on_absent (w : world) :
  db_file w = Absent ->
  fst (DatabaseSetup.create_database w) = Returned tt /\
  db_file (snd (DatabaseSetup.create_database w)) =
    Present DatabaseSetup.seeded_database.
Proof.
  intros E. unfold DatabaseSetup.create_database, bind, DatabaseSetup.connect.
  rewrite E. split; reflexivity.
Qed.

Section SchemaFacts.
Context {Q : SqliteSyntax}.

(** The loop over the tables, when SQLite reads every name as it is
    spelt: one block per table, and the world is left as it was. *)
Lemma schema_blocks_spelt (d : database) (w : world) (tables : list str) :
  db_file w = Present d ->
  Forall reads_as_spelt tables ->
  DatabaseSetup.schema_blocks tables w =
    (Returned (map (fun n => DatabaseSetup.table_block n
                               (DatabaseSetup.table_info n d)) tables), w).
Proof.
  intros E. induction 1 as [ | n l Hn Hl IH ]; [ reflexivity | ].
  cbn [DatabaseSetup.schema_blocks map]. unfold bind at 1.
  unfold DatabaseSetup.pragma_table_info at 1. rewrite E, Hn.
  unfold bind at 1. rewrite IH. reflexivity.
Qed.


Lemma get_schema_info_on_present (w : world) (d : database) :
  db_file w = Present d ->
  Forall reads_as_spelt (DatabaseSetup.table_names d) ->
  DatabaseSetup.get_schema_info w =
    (Returned (DatabaseSetup.render_schema d),
     closed_connection (opened_connection w)).
Proof.
  intros E Hd.
  unfold DatabaseSetup.get_schema_info, bind, DatabaseSetup.connect.
  rewrite E. unfold DatabaseSetup.query_table_names.
  cbn [db_file opened_connection]. rewrite E.
  rewrite (schema_blocks_spelt d (opened_connection w) _ E Hd). reflexivity.
Qed.


Lemma get_schema_info_on_absent (w : world) :
  db_file w = Absent ->
  DatabaseSetup.get_schema_info w =
    (Returned [],
     closed_connection (opened_connection (set_db_file (Present empty_db) w))).
Proof.
  intros E. unfold DatabaseSetup.get_schema_info, bind, DatabaseSetup.connect.
  rewrite E. reflexivity.
Qed.


End SchemaFacts.

(* ================================================================== *)
(** ** What the database operations do with the key *)

Lemma key_blind_ret {A} (a : A) : key_blind (ret a).
Proof. intros k w. reflexivity. Qed.

Lemma key_blind_bind {A B} (m : Eff world A) (f : A -> Eff world B) :
  key_blind m -> (forall a, key_blind (f a)) -> key_blind (bind m f).
Proof.
  intros Hm Hf k w. unfold bind. rewrite Hm.
  destruct (m w) as [[a | e] w1]; cbn [fst snd]; [ apply Hf | reflexivity ].
Qed.

Lemma key_blind_connect : key_blind DatabaseSetup.connect.
Proof.
  intros k w. unfold DatabaseSetup.connect. cbn [db_file set_api_key].
  destruct (db_file w); reflexivity.
Qed.

Lemma key_blind_close : key_blind DatabaseSetup.close.
Proof. intros k w. reflexivity. Qed.

Lemma key_blind_print (s : str) : key_blind (print s).
Proof. intros k w. reflexivity. Qed.

Lemma key_blind_execute_update (u : DatabaseSetup.update) :
  key_blind (DatabaseSetup.execute_update u).
Proof.
  intros k w. unfold DatabaseSetup.execute_update. cbn [db_file set_api_key].
  destruct (db_file w) as [ | d | ]; try reflexivity.
  destruct (u d); reflexivity.
Qed.

Lemma key_blind_executescript (us : list DatabaseSetup.update) :
  key_blind (DatabaseSetup.executescript us).
Proof.
  induction us as [ | u us IH ]; [ apply key_blind_ret | ].
  cbn [DatabaseSetup.executescript].
  apply key_blind_bind; [ apply key_blind_execute_update | intros _; exact IH ].
Qed.

Lemma key_blind_create_database : key_blind DatabaseSetup.create_database.
Proof.
  unfold DatabaseSetup.create_database.
  repeat first
    [ apply key_blind_connect
    | apply key_blind_executescript
    | apply key_blind_execute_update
    | apply key_blind_close
    | apply key_blind_print
    | apply key_blind_bind; [ | intros _ ] ].
Qed.

Lemma key_blind_initialize_database : key_blind App.initialize_database.
Proof.
  intros k w. unfold App.initialize_database, App.path_exists.
  cbn [db_file set_api_key].
  destruct (db_file w); cbn [negb]; try reflexivity.
  apply key_blind_create_database.
Qed.

Section SchemaKey.
Context {Q : SqliteSyntax}.

Lemma key_blind_pragma_table_info (n : str) :
  key_blind (DatabaseSetup.pragma_table_info n).
Proof.
  intros k w. unfold DatabaseSetup.pragma_table_info.
  cbn [db_file set_api_key].
  destruct (db_file w); try reflexivity.
  destruct (pragma_arg n); reflexivity.
Qed.

Lemma key_blind_schema_blocks (tables : list str) :
  key_blind (DatabaseSetup.schema_blocks tables).
Proof.
  induction tables as [ | n l IH ]; [ apply key_blind_ret | ].
  cbn [DatabaseSetup.schema_blocks].
  apply key_blind_bind; [ apply key_blind_pragma_table_info | intros cols ].
  apply key_blind_bind; [ exact IH | intros blocks; apply key_blind_ret ].
Qed.

Lemma key_blind_get_schema_info : key_blind DatabaseSetup.get_schema_info.
Proof.
  unfold DatabaseSetup.get_schema_info.
  apply key_blind_bind; [ apply key_blind_connect | intros _ ].
  apply key_blind_bind.
  { intros k w. unfold DatabaseSetup.query_table_names.
    cbn [db_file set_api_key]. destruct (db_file w); reflexivity. }
  intros tables.
  apply key_blind_bind; [ apply key_blind_schema_blocks | intros blocks ].
  apply key_blind_bind; [ apply key_blind_close | intros _ ].
  apply key_blind_ret.
Qed.

Lemma key_blind_startup : key_blind App.startup.
Proof.
  unfold App.startup.
  apply key_blind_bind;
    [ apply key_blind_initialize_database
    | intros _; apply key_blind_get_schema_info ].
Qed.

End SchemaKey.


(* ================================================================== *)
(** ** The credential check *)

Lemma key_rejected_iff (k : option str) :
  SqlAgent.key_rejected k = true <->
  k = None \/ k = Some [] \/ k = Some SqlAgent.placeholder_key.
Proof.
  unfold SqlAgent.key_rejected. destruct k as [s | ].
  - rewrite orb_true_iff, negb_true_iff, str_eqb_eq. split.
    + intros [E | E].
      * destruct s; [ auto | discriminate ].
      * subst. auto.
    + intros [E | [E | E]]; try discriminate; injection E as ->; auto.
  - split; auto.
Qed.

Section Credential.
Context {U : Unicode} {Q : SqliteSyntax}.

Lemma configure_gemini_rejects (w : world) :
  SqlAgent.key_rejected (api_key w) = true ->
  SqlAgent.configure_gemini w =
    (Raised (mkExn ValueError SqlAgent.missing_key_message), w).
Proof.
  intros E. unfold SqlAgent.configure_gemini, bind, gets. rewrite E. reflexivity.
Qed.

Lemma generate_sql_query_rejects (q : str) (w : world) :
  SqlAgent.key_rejected (api_key w) = true ->
  SqlAgent.generate_sql_query q w =
    (Raised (mkExn ValueError SqlAgent.missing_key_message), w).
Proof.
  intros E. unfold SqlAgent.generate_sql_query, SqlAgent.get_gemini_model, bind.
  rewrite (configure_gemini_rejects _ E). reflexivity.
Qed.

End Credential.

(* ================================================================== *)
(** ** The safety gate of [execute_sql_query] *)

(** C1. A statement whose trimmed, upper-cased text does not begin with
    SELECT makes [execute_sql_query] raise the ValueError of the safety
    check; the world is left as it was: no connection is opened and the
    database file is the same. *)
Theorem execute_sql_query_rejects_non_select {U : Unicode}
    (s : str) (w : world) :
  PyStr.startswith (PyStr.upper (PyStr.strip s)) "SELECT" = false ->
  SqlAgent.execute_sql_query s w =
    (Raised (mkExn ValueError SqlAgent.not_select_message), w) /\
  connects (snd (SqlAgent.execute_sql_query s w)) = connects w /\
  open_connections (snd (SqlAgent.execute_sql_query s w)) = open_connections w /\
  db_file (snd (SqlAgent.execute_sql_query s w)) = db_file w.
Proof.
  intros G.
  assert (E : SqlAgent.execute_sql_query s w =
              (Raised (mkExn ValueError SqlAgent.not_select_message), w)).
  { unfold SqlAgent.execute_sql_query, SqlAgent.is_select. rewrite G. reflexivity. }
  rewrite E. repeat split.
Qed.

Lemma execute_sql_query_rejects_non_select_witness :
  let s := txt "  delete from employees; select 1" in
  let w := Demo.fresh (Some (txt "key")) (Demo.always s)
                      (Present DatabaseSetup.seeded_database) in
  let run := SqlAgent.execute_sql_query (U:=Demo.unicode) in
  run s w =
    (Raised (mkExn ValueError SqlAgent.not_select_message), w) /\
  connects (snd (run s w)) = connects w /\
  open_connections (snd (run s w)) = open_connections w /\
  db_file (snd (run s w)) = db_file w.
Proof.
  intros s w run.
  apply (execute_sql_query_rejects_non_select (U:=Demo.unicode) s w).
  reflexivity.
Defined.

(* ================================================================== *)
(** ** The answer record *)

Section Records.
Context {U : Unicode} {Q : SqliteSyntax} {R : Repr}.

(** C2. The record that [ask_question] returns never holds both an
    answer and an error: one of the two entries is [None]. *)
Theorem answer_and_error_exclusive (q : str) (w : world) :
  exists d,
    fst (SqlAgent.ask_question q w) = Returned d /\
    (dict_get "answer" d = Some PNone \/ dict_get "error" d = Some PNone).
Proof.
  rewrite ask_question_run.
  destruct (SqlAgent.generate_sql_query q w) as [[sql | e] w1].
  2:{ eexists. split; [ reflexivity | left; reflexivity ]. }
  destruct (SqlAgent.execute_sql_query sql w1) as [[cr | e] w2].
  2:{ eexists. split; [ reflexivity | left; reflexivity ]. }
  destruct (SqlAgent.generate_natural_answer q sql (fst cr) (snd cr) w2)
    as [[a | e] w3].
  - eexists. split; [ reflexivity | right; reflexivity ].
  - eexists. split; [ reflexivity | left; reflexivity ].
Qed.

(** C4. When a stage of [ask_question] raises, the record carries the
    message of the failure under ["error"], [None] for every later stage
    and the values of the stages already done; [ask_question] itself
    returns. *)
Theorem ask_question_stage_failure (q : str) (w : world) :
  (forall e w1,
     SqlAgent.generate_sql_query q w = (Raised e, w1) ->
     SqlAgent.ask_question q w =
       (Returned (answer_record q PNone PNone PNone PNone (PStr (str_exn e))),
        w1)) /\
  (forall sql w1 e w2,
     SqlAgent.generate_sql_query q w = (Returned sql, w1) ->
     SqlAgent.execute_sql_query sql w1 = (Raised e, w2) ->
     SqlAgent.ask_question q w =
       (Returned (answer_record q (PStr sql) PNone PNone PNone
                                (PStr (str_exn e))),
        w2)) /\
  (forall sql w1 cols rs w2 e w3,
     SqlAgent.generate_sql_query q w = (Returned sql, w1) ->
     SqlAgent.execute_sql_query sql w1 = (Returned (cols, rs), w2) ->
     SqlAgent.generate_natural_answer q sql cols rs w2 = (Raised e, w3) ->
     SqlAgent.ask_question q w =
       (Returned (answer_record q (PStr sql) (PStrList cols) (PRows rs) PNone
                                (PStr (str_exn e))),
        w3)) /\
  (exists d, fst (SqlAgent.ask_question q w) = Returned d).
Proof.
  repeat split.
  - intros e w1 G. rewrite ask_question_run, G. reflexivity.
  - intros sql w1 e w2 G X. rewrite ask_question_run, G, X. reflexivity.
  - intros sql w1 cols rs w2 e w3 G X A.
    rewrite ask_question_run, G, X. cbn [fst snd]. rewrite A. reflexivity.
  - rewrite ask_question_run.
    destruct (SqlAgent.generate_sql_query q w) as [[sql | e] w1];
      [ | eexists; reflexivity ].
    destruct (SqlAgent.execute_sql_query sql w1) as [[cr | e] w2];
      [ | eexists; reflexivity ].
    destruct (SqlAgent.generate_natural_answer q sql (fst cr) (snd cr) w2)
      as [[a | e] w3]; eexists; reflexivity.
Qed.

(** C10. For every question, [ask_question] returns a dictionary with
    the six keys question, sql_query, columns, rows, answer and error;
    ["question"] holds the input itself and each other entry is [None] or
    the value its stage produced (for ["error"], the text of a failure). *)
Theorem ask_question_record_shape (q : str) (w : world) :
  exists d,
    fst (SqlAgent.ask_question q w) = Returned d /\
    dict_keys d = record_keys /\
    dict_get "question" d = Some (PStr q) /\
    (exists v, dict_get "sql_query" d = Some v /\
       (v = PNone \/ produced_by_translation q w v)) /\
    (exists v, dict_get "columns" d = Some v /\
       (v = PNone \/ produced_by_execution q w (fun cr => PStrList (fst cr)) v)) /\
    (exists v, dict_get "rows" d = Some v /\
       (v = PNone \/ produced_by_execution q w (fun cr => PRows (snd cr)) v)) /\
    (exists v, dict_get "answer" d = Some v /\
       (v = PNone \/ produced_by_synthesis q w v)) /\
    (exists v, dict_get "error" d = Some v /\
       (v = PNone \/ exists e, v = PStr (str_exn e))).
Proof.
  rewrite ask_question_run.
  unfold produced_by_translation, produced_by_execution, produced_by_synthesis.
  destruct (SqlAgent.generate_sql_query q w) as [[sql | e] w1].
  2:{ eexists. repeat split; try reflexivity;
        eexists; (split; [ reflexivity | ]); eauto. }
  destruct (SqlAgent.execute_sql_query sql w1) as [[cr | e] w2] eqn:X.
  2:{ eexists. repeat split; try reflexivity;
        eexists; (split; [ reflexivity | ]); eauto 10. }
  destruct (SqlAgent.generate_natural_answer q sql (fst cr) (snd cr) w2)
    as [[a | e] w3] eqn:A;
    eexists; repeat split; try reflexivity;
      eexists; (split; [ reflexivity | ]); eauto 12.
Qed.

End Records.

Lemma ask_question_stage_failure_witness :
  let q := txt "How many employees?" in
  let ask :=
    SqlAgent.ask_question (U:=Demo.unicode) (Q:=Demo.sqlite) (R:=Demo.repr) q in
  let no_key := Demo.fresh None (Demo.always "SELECT 1;") Absent in
  let drops := Demo.fresh (Some (txt "key"))
                          (Demo.always "DROP TABLE employees;")
                          (Present DatabaseSetup.seeded_database) in
  let answers_once := Demo.fresh (Some (txt "key")) (Demo.once "SELECT 1;")
                                 (Present DatabaseSetup.seeded_database) in
  fst (ask no_key) =
    Returned (answer_record q PNone PNone PNone PNone
                            (PStr SqlAgent.missing_key_message)) /\
  fst (ask drops) =
    Returned (answer_record q (PStr "DROP TABLE employees;")
                            PNone PNone PNone
                            (PStr SqlAgent.not_select_message)) /\
  fst (ask answers_once) =
    Returned (answer_record q (PStr "SELECT 1;")
                            (PStrList [txt "n"]) (PRows [[VInt 5]]) PNone
                            (PStr "400 Bad Request")).
Proof.
  intros q ask no_key drops answers_once. unfold ask. split; [ | split ].
  - destruct (ask_question_stage_failure (U:=Demo.unicode) (Q:=Demo.sqlite)
                (R:=Demo.repr) q no_key) as (F & _).
    rewrite (F _ _ eq_refl). reflexivity.
  - destruct (ask_question_stage_failure (U:=Demo.unicode) (Q:=Demo.sqlite)
                (R:=Demo.repr) q drops) as (_ & F & _).
    rewrite (F _ _ _ _ eq_refl eq_refl). reflexivity.
  - destruct (ask_question_stage_failure (U:=Demo.unicode) (Q:=Demo.sqlite)
                (R:=Demo.repr) q answers_once) as (_ & _ & F & _).
    rewrite (F _ _ _ _ _ _ _ eq_refl eq_refl eq_refl). reflexivity.
Defined.

(* ================================================================== *)
(** ** [initialize_database] *)

(** One call returns, leaves a file behind on which a further call does
    nothing, and builds the sample database only where no file was. *)
Lemma initialize_database_on_file (w : world) :
  fst (App.initialize_database w) = Returned tt /\
  match db_file w with
  | Absent =>
      db_file (snd (App.initialize_database w)) =
        Present DatabaseSetup.seeded_database
  | _ => snd (App.initialize_database w) = w
  end /\
  App.initialize_database (snd (App.initialize_database w)) =
    (Returned tt, snd (App.initialize_database w)).
Proof.
  assert (N : forall v, db_file v <> Absent ->
                        App.initialize_database v = (Returned tt, v)).
  { intros v P. unfold App.initialize_database, App.path_exists.
    destruct (db_file v); [ contradiction | reflexivity | reflexivity ]. }
  destruct (db_file w) eqn:E.
  - assert (A : App.initialize_database w = DatabaseSetup.create_database w).
    { unfold App.initialize_database, App.path_exists. rewrite E. reflexivity. }
    rewrite A. destruct (create_database_on_absent w E) as (R & D).
    repeat split; try assumption.
    apply N. rewrite D. discriminate.
  - rewrite (N w) by (rewrite E; discriminate). cbn [fst snd].
    repeat split. apply N. rewrite E. discriminate.
  - rewrite (N w) by (rewrite E; discriminate). cbn [fst snd].
    repeat split. apply N. rewrite E. discriminate.
Qed.

(** C5. [initialize_database] is idempotent: a second call in succession
    returns and leaves the world of the first call as it is, so the schema
    and the row counts are those of one call.  Where no file was, the one
    call built the five tables with 5 departments, 15 employees,
    5 projects, 15 salaries and 11 project assignments; where a file was,
    the call did nothing. *)
Theorem initialize_database_idempotent (w : world) :
  let once := App.initialize_database w in
  let twice := App.initialize_database (snd once) in
  fst once = Returned tt /\
  twice = (Returned tt, snd once) /\
  match db_file w with
  | Absent =>
      exists d,
        db_file (snd once) = Present d /\
        db_file (snd twice) = Present d /\
        DatabaseSetup.row_counts d =
          [ (txt "departments", 5); (txt "employees", 15);
            (txt "projects", 5); (txt "salaries", 15);
            (txt "project_assignments", 11) ] /\
        DatabaseSetup.table_names d =
          [ txt "departments"; txt "employees"; txt "project_assignments";
            txt "projects"; txt "salaries" ]
  | _ => snd once = w
  end.
Proof.
  cbv zeta.
  destruct (initialize_database_on_file w) as (R & P & I).
  rewrite I. repeat split; try assumption.
  destruct (db_file w) eqn:E; try assumption.
  exists DatabaseSetup.seeded_database. repeat split; assumption.
Qed.
(* ================================================================== *)
(** ** Reading the schema without a database *)




(* ================================================================== *)
(** ** A missing credential *)

(** C8, as the code has it.  With the key absent, empty or equal to the
    placeholder, [configure_gemini] raises its ValueError when it is
    first called and changes nothing.  The start of the application does
    not call it: it does with this key what it does with any other key,
    and it returns the schema of the database that [initialize_database]
    leaves when SQLite reads the names of its tables as they are spelt.
    And [ask_question] catches the error: it returns a record whose
    ["error"] is the message and whose other stage entries are [None]. *)
Theorem missing_key_reported_in_record
    {U : Unicode} {Q : SqliteSyntax} {R : Repr} (w : world) :
  api_key w = None \/ api_key w = Some [] \/
  api_key w = Some (txt "your_google_api_key_here") ->
  SqlAgent.configure_gemini w =
    (Raised (mkExn ValueError SqlAgent.missing_key_message), w) /\
  (forall k,
     App.startup (set_api_key k w) =
       (fst (App.startup w), set_api_key k (snd (App.startup w)))) /\
  (forall d,
     db_file (snd (App.initialize_database w)) = Present d ->
     Forall reads_as_spelt (DatabaseSetup.table_names d) ->
     fst (App.startup w) = Returned (DatabaseSetup.render_schema d)) /\
  (forall q,
     SqlAgent.ask_question q w =
       (Returned (answer_record q PNone PNone PNone PNone
                                (PStr SqlAgent.missing_key_message)), w)).
Proof.
  intros K. apply key_rejected_iff in K. split; [ | split; [ | split ] ].
  - apply configure_gemini_rejects, K.
  - intros k. apply key_blind_startup.
  - intros d D Hd. unfold App.startup, bind.
    destruct (initialize_database_on_file w) as (I & _ & _).
    destruct (App.initialize_database w) as [o w1]. cbn [fst snd] in *.
    subst o. rewrite (get_schema_info_on_present _ _ D Hd). reflexivity.
  - intros q. rewrite ask_question_run, (generate_sql_query_rejects q w K).
    reflexivity.
Qed.

Lemma missing_key_reported_in_record_witness :
  let w := Demo.fresh None (Demo.always "SELECT 1;") Absent in
  SqlAgent.configure_gemini w =
    (Raised (mkExn ValueError SqlAgent.missing_key_message), w) /\
  (forall k,
     App.startup (Q:=Demo.sqlite) (set_api_key k w) =
       (fst (App.startup (Q:=Demo.sqlite) w),
        set_api_key k (snd (App.startup (Q:=Demo.sqlite) w)))) /\
  fst (App.startup (Q:=Demo.sqlite) w) =
    Returned (DatabaseSetup.render_schema DatabaseSetup.seeded_database) /\
  (forall q,
     SqlAgent.ask_question (U:=Demo.unicode) (Q:=Demo.sqlite) (R:=Demo.repr)
                           q w =
       (Returned (answer_record q PNone PNone PNone PNone
                                (PStr SqlAgent.missing_key_message)), w)).
Proof.
  intros w.
  destruct (missing_key_reported_in_record (U:=Demo.unicode) (Q:=Demo.sqlite)
              (R:=Demo.repr) w (or_introl eq_refl)) as (C & B & S & A).
  split; [ exact C | split; [ exact B | split; [ | exact A ] ] ].
  apply (S DatabaseSetup.seeded_database eq_refl).
  repeat (apply Forall_cons; [ reflexivity | ]). apply Forall_nil.
Defined.

(** C8, as the claim has it, fails: with no key in the environment
    [ask_question] raises nothing; the configuration error ends up in the
    ["error"] entry of the record it returns. *)
Lemma missing_key_not_raised_by_ask_question :
  let w := Demo.fresh None (Demo.always "SELECT 1;") Absent in
  let r := SqlAgent.ask_question (U:=Demo.unicode) (Q:=Demo.sqlite)
             (R:=Demo.repr) "How many employees?" w in
  api_key w = None /\
  (exists d, fst r = Returned d /\
             dict_get "error" d = Some (PStr SqlAgent.missing_key_message)) /\
  ~ (exists e, fst r = Raised e).
Proof.
  cbv zeta. split; [ reflexivity | split ].
  - eexists. split; reflexivity.
  - intros (e & E). discriminate E.
Qed.

(* ================================================================== *)
(** ** The retry policy *)

(** C3, as the code has it.  With the default of three attempts:
    an attempt that succeeds returns its response; a failure whose text
    matches no transient pattern is raised at once; a transient failure of
    the first attempt is followed by a sleep of 2 s and the second
    attempt, one of the second attempt by a sleep of 4 s and the third;
    whatever fails the third attempt is raised with no further sleep.  So
    a call makes one to three attempts and sleeps nothing, 2 s, or 2 s and
    then 4 s; two transient failures followed by a success return the
    successful response after sleeps of 2 s and 4 s. *)
Theorem call_gemini_with_retry_policy {U : Unicode}
    (prompt : str) (w : world) :
  let o := attempt_outcome w prompt in
  let run := SqlAgent.call_gemini_with_retry prompt w in
  let w1 := backed_off 3 0 prompt w in
  let w2 := backed_off 3 1 prompt w1 in
  (forall t, o 0 = Responds t ->
     run = (Returned (Some (SqlAgent.mkResponse t)), log_prompt prompt w)) /\
  (forall e, o 0 = Fails e -> SqlAgent.transient (str_exn e) = false ->
     run = (Raised e, log_prompt prompt w)) /\
  (transient_failure (o 0) -> forall t, o 1 = Responds t ->
     run = (Returned (Some (SqlAgent.mkResponse t)), log_prompt prompt w1)) /\
  (transient_failure (o 0) -> forall e, o 1 = Fails e ->
     SqlAgent.transient (str_exn e) = false ->
     run = (Raised e, log_prompt prompt w1)) /\
  (transient_failure (o 0) -> transient_failure (o 1) ->
     forall t, o 2 = Responds t ->
     run = (Returned (Some (SqlAgent.mkResponse t)), log_prompt prompt w2) /\
     sleeps (snd run) = (sleeps w ++ [2; 4]%Z)) /\
  (transient_failure (o 0) -> transient_failure (o 1) ->
     forall e, o 2 = Fails e ->
     run = (Raised e, log_prompt prompt w2) /\
     sleeps (snd run) = (sleeps w ++ [2; 4]%Z)) /\
  (exists k, (k <= 2)%nat /\
     sleeps (snd run) = (sleeps w ++ firstn k [2; 4]%Z) /\
     gemini_prompts (snd run) = (gemini_prompts w ++ repeat prompt (S k))).
Proof.
  cbv zeta.
  destruct (call_gemini_with_retry_cases prompt w) as (C1 & C2 & C3 & C4 & C5 & C6).
  repeat apply conj; try assumption.
  - intros F0 F1 t E. rewrite (C5 F0 F1 t E). split; [ reflexivity | ].
    cbn. rewrite <- !app_assoc. reflexivity.
  - intros F0 F1 e E. rewrite (C6 F0 F1 e E). split; [ reflexivity | ].
    cbn. rewrite <- !app_assoc. reflexivity.
  - destruct (call_gemini_with_retry_trace prompt w) as (k & K & S & P & _).
    exists k. auto.
Qed.

Lemma call_gemini_with_retry_policy_witness :
  let p := txt "question" in
  let w := Demo.fresh (Some (txt "key")) (Demo.after_failures 2 "SELECT 1;")
                      Absent in
  let run := SqlAgent.call_gemini_with_retry (U:=Demo.unicode) p w in
  fst run = Returned (Some (SqlAgent.mkResponse "SELECT 1;")) /\
  sleeps (snd run) = [2; 4]%Z /\
  gemini_prompts (snd run) = [p; p; p].
Proof.
  intros p w run.
  destruct (call_gemini_with_retry_policy (U:=Demo.unicode) p w)
    as (_ & _ & _ & _ & C & _).
  assert (F0 : transient_failure (U:=Demo.unicode) (attempt_outcome w p 0)).
  { exists Demo.unavailable. split; reflexivity. }
  assert (F1 : transient_failure (U:=Demo.unicode) (attempt_outcome w p 1)).
  { exists Demo.unavailable. split; reflexivity. }
  destruct (C F0 F1 (txt "SELECT 1;") eq_refl) as (R & S).
  unfold run. rewrite S, R. repeat split.
Defined.

(** C3, as the claim has it, fails on the back-off of 8 s: when all three
    attempts fail with a transient error the call has slept 2 s and 4 s
    and raises the third failure; no sleep of 8 s takes place. *)
Lemma call_gemini_with_retry_never_sleeps_8 :
  let w := Demo.fresh (Some (txt "key")) (fun _ _ => Fails Demo.unavailable)
                      Absent in
  let run := SqlAgent.call_gemini_with_retry (U:=Demo.unicode) "question" w in
  SqlAgent.transient (U:=Demo.unicode) (str_exn Demo.unavailable) = true /\
  fst run = Raised Demo.unavailable /\
  List.length (gemini_prompts (snd run)) = 3 /\
  sleeps (snd run) = [2; 4]%Z /\
  sleeps (snd run) <> [2; 4; 8]%Z /\
  ~ In 8%Z (sleeps (snd run)).
Proof.
  cbv zeta. repeat split; try reflexivity.
  - discriminate.
  - cbn. intros [E | [E | []]]; discriminate E.
Qed.

(** The third back-off of the schedule 2 s, 4 s, 8 s is reached only when
    the caller allows a fourth attempt. *)
Example four_attempts_sleep_2_4_8 :
  sleeps (snd (SqlAgent.call_gemini_with_retry_n (U:=Demo.unicode) 4 "question"
                 (Demo.fresh (Some (txt "key"))
                             (fun _ _ => Fails Demo.unavailable) Absent))) =
    [2; 4; 8]%Z.
Proof. reflexivity. Qed.

(** The patterns of a transient failure: 503 as it is, timeout and
    connect in any case. *)
Example transient_patterns :
  SqlAgent.transient (U:=Demo.unicode) "HTTP 503" = true /\
  SqlAgent.transient (U:=Demo.unicode) "Read TIMEOUT" = true /\
  SqlAgent.transient (U:=Demo.unicode) "Connection reset by peer" = true /\
  SqlAgent.transient (U:=Demo.unicode) "400 Bad Request" = false.
Proof. repeat split. Qed.

(* ================================================================== *)
(** ** The results text of [generate_natural_answer] *)

Lemma configure_gemini_accepts (w : world) :
  SqlAgent.key_rejected (api_key w) = false ->
  SqlAgent.configure_gemini w = (Returned tt, set_genai_key (api_key w) w).
Proof.
  intros E. unfold SqlAgent.configure_gemini, bind, gets. rewrite E. reflexivity.
Qed.

Section Results.
Context {U : Unicode} {R : Repr}.

(** With a usable key, [generate_natural_answer] sends one prompt, one to
    three times: the answer template filled with the results text. *)
Lemma generate_natural_answer_prompts
    (q sql : str) (cols : list str) (rs : list row) (w : world) :
  SqlAgent.key_rejected (api_key w) = false ->
  exists k, (k <= 2)%nat /\
    gemini_prompts (snd (SqlAgent.generate_natural_answer q sql cols rs w)) =
      (gemini_prompts w ++
       repeat (SqlAgent.format_answer_prompt q sql (SqlAgent.results_str rs)
                                             (str_columns cols)) (S k)).
Proof.
  intros K. unfold SqlAgent.generate_natural_answer, SqlAgent.get_gemini_model.
  unfold bind at 1. rewrite (configure_gemini_accepts w K).
  set (p := SqlAgent.format_answer_prompt q sql (SqlAgent.results_str rs)
                                          (str_columns cols)).
  destruct (call_gemini_with_retry_trace p (set_genai_key (api_key w) w))
    as (k & L & _ & P & _).
  exists k. split; [ exact L | ].
  unfold bind.
  destruct (SqlAgent.call_gemini_with_retry p (set_genai_key (api_key w) w))
    as [[r | e] w'].
  - cbn [fst snd] in *. destruct r as [r | ]; exact P.
  - exact P.
Qed.

(** C6. The results text holds at most 50 rendered rows, one per line.
    For more than 50 rows it is the first 50 renderings followed by the
    line "... and N more rows" with N the number of rows left out (25 for
    75 rows); for no row it is the marker "No results found."; it is the
    text that fills the results slot of the prompt sent to the model. *)
Theorem results_str_truncates (rs : list row) :
  (rs = [] -> SqlAgent.results_str rs = "No results found.") /\
  (rs <> [] -> (List.length rs <= 50)%nat ->
     SqlAgent.results_str rs = PyStr.join_nl (map str_row rs)) /\
  ((50 < List.length rs)%nat ->
     List.length (map str_row (firstn 50 rs)) = 50%nat /\
     SqlAgent.results_str rs =
       PyStr.join_nl (map str_row (firstn 50 rs)) ++ PyStr.nl ++
       txt "... and " ++ PyStr.of_nat (List.length rs - 50) ++
       txt " more rows") /\
  (List.length rs = 75%nat ->
     SqlAgent.results_str rs =
       PyStr.join_nl (map str_row (firstn 50 rs)) ++ PyStr.nl ++
       txt "... and 25 more rows") /\
  (forall q sql cols w,
     SqlAgent.key_rejected (api_key w) = false ->
     exists k, (k <= 2)%nat /\
       gemini_prompts (snd (SqlAgent.generate_natural_answer q sql cols rs w)) =
         (gemini_prompts w ++
          repeat (SqlAgent.answer_prompt_0 ++ q ++
                  SqlAgent.answer_prompt_1 ++ sql ++
                  SqlAgent.answer_prompt_2 ++ SqlAgent.results_str rs ++
                  SqlAgent.answer_prompt_3 ++ str_columns cols ++
                  SqlAgent.answer_prompt_4) (S k))).
Proof.
  split; [ | split; [ | split; [ | split ] ] ].
  - intros ->. reflexivity.
  - intros N L. unfold SqlAgent.results_str.
    destruct rs as [ | r rs']; [ contradiction | ].
    rewrite firstn_all2 by exact L.
    apply Nat.ltb_ge in L. rewrite L. reflexivity.
  - intros L. split.
    + rewrite length_map, length_firstn. lia.
    + unfold SqlAgent.results_str.
      destruct rs as [ | r rs']; [ cbn in L; lia | ].
      apply Nat.ltb_lt in L. rewrite L. reflexivity.
  - intros L. unfold SqlAgent.results_str.
    destruct rs as [ | r rs']; [ discriminate L | ].
    rewrite L. reflexivity.
  - intros q sql cols w K. apply generate_natural_answer_prompts, K.
Qed.

End Results.

Lemma results_str_truncates_witness :
  let rs := Demo.seventy_five_rows in
  let w := Demo.fresh (Some (txt "key")) (Demo.always "There are 75 rows.")
                      Absent in
  let results_str := SqlAgent.results_str (R:=Demo.repr) in
  List.length (map (str_row (Repr:=Demo.repr)) (firstn 50 rs)) = 50%nat /\
  results_str rs =
    PyStr.join_nl (repeat (txt "(1 values)") 50) ++ PyStr.nl ++
    txt "... and 25 more rows" /\
  results_str [] = txt "No results found." /\
  results_str [[VInt 1]; [VInt 2]] =
    txt "(1 values)" ++ PyStr.nl ++ txt "(1 values)" /\
  exists k,
    gemini_prompts
      (snd (SqlAgent.generate_natural_answer (U:=Demo.unicode) (R:=Demo.repr)
              "q" "SELECT 1;" [txt "n"] rs w)) =
    repeat (SqlAgent.answer_prompt_0 ++ txt "q" ++
            SqlAgent.answer_prompt_1 ++ txt "SELECT 1;" ++
            SqlAgent.answer_prompt_2 ++ results_str rs ++
            SqlAgent.answer_prompt_3 ++ txt "[n]" ++
            SqlAgent.answer_prompt_4) (S k).
Proof.
  intros rs w results_str. unfold results_str.
  destruct (results_str_truncates (U:=Demo.unicode) (R:=Demo.repr) rs)
    as (_ & _ & M & S & _).
  destruct (results_str_truncates (U:=Demo.unicode) (R:=Demo.repr) [])
    as (E & _).
  destruct (results_str_truncates (U:=Demo.unicode) (R:=Demo.repr)
              [[VInt 1]; [VInt 2]]) as (_ & F & _ & _ & _).
  destruct (results_str_truncates (U:=Demo.unicode) (R:=Demo.repr) rs)
    as (_ & _ & _ & _ & P).
  split; [ | split; [ | split; [ | split ] ] ].
  - apply M. cbn. lia.
  - rewrite (S eq_refl). reflexivity.
  - apply E. reflexivity.
  - rewrite F; [ reflexivity | discriminate | cbn; lia ].
  - destruct (P (txt "q") (txt "SELECT 1;") [txt "n"] w eq_refl) as (k & _ & G).
    exists k. exact G.
Defined.

(* ================================================================== *)
(** ** Lines, trimming and fences *)

Module Lines.

Lemma isspace_nl : isspace PyStr.nl_char = true.
Proof. reflexivity. Qed.

Lemma split_nl_nonempty (s : str) : PyStr.split_nl s <> [].
Proof.
  destruct s as [ | c t]; cbn [PyStr.split_nl]; [ discriminate | ].
  destruct (N.eqb c PyStr.nl_char); [ discriminate | ].
  destruct (PyStr.split_nl t); discriminate.
Qed.

Lemma split_nl_cons (c : codepoint) (t : str) :
  N.eqb c PyStr.nl_char = false ->
  exists l ls, PyStr.split_nl t = l :: ls /\
               PyStr.split_nl (c :: t) = (c :: l) :: ls.
Proof.
  intros N. cbn [PyStr.split_nl]. rewrite N.
  destruct (PyStr.split_nl t) as [ | l ls] eqn:E.
  - exfalso. exact (split_nl_nonempty t E).
  - eauto.
Qed.

Lemma split_nl_newline (t : str) :
  PyStr.split_nl (PyStr.nl_char :: t) = [] :: PyStr.split_nl t.
Proof. reflexivity. Qed.

Lemma split_nl_only_empty (s : str) :
  PyStr.split_nl s = [[]] -> s = [].
Proof.
  destruct s as [ | c t]; [ reflexivity | ].
  destruct (N.eqb c PyStr.nl_char) eqn:N.
  - apply N.eqb_eq in N. subst c. rewrite split_nl_newline.
    intros E. exfalso. apply (split_nl_nonempty t).
    exact (f_equal (@tl str) E).
  - destruct (split_nl_cons c t N) as (l & ls & _ & E). rewrite E. discriminate.
Qed.

Lemma join_nl_cons (l1 l2 : str) (ls : list str) :
  PyStr.join_nl (l1 :: l2 :: ls) = l1 ++ PyStr.nl ++ PyStr.join_nl (l2 :: ls).
Proof. reflexivity. Qed.

Lemma join_nl_head (c : codepoint) (l : str) (ls : list str) :
  PyStr.join_nl ((c :: l) :: ls) = (c :: (PyStr.join_nl (l :: ls))).
Proof. destruct ls; reflexivity. Qed.

(** Joining the lines of a text gives the text back. *)
Lemma join_split (s : str) : PyStr.join_nl (PyStr.split_nl s) = s.
Proof.
  induction s as [ | c t IH]; [ reflexivity | ].
  destruct (N.eqb c PyStr.nl_char) eqn:N.
  - apply N.eqb_eq in N. subst c. rewrite split_nl_newline.
    destruct (PyStr.split_nl t) as [ | l ls] eqn:E.
    + exfalso. exact (split_nl_nonempty t E).
    + rewrite join_nl_cons, IH. reflexivity.
  - destruct (split_nl_cons c t N) as (l & ls & E & E').
    rewrite E', join_nl_head, <- E, IH. reflexivity.
Qed.

Lemma split_nl_free (l : str) :
  nl_free l = true -> PyStr.split_nl l = [l].
Proof.
  induction l as [ | c t IH]; [ reflexivity | ].
  cbn [nl_free]. intros F. apply andb_true_iff in F as (N & F).
  apply negb_true_iff in N. cbn [PyStr.split_nl]. rewrite N, (IH F). reflexivity.
Qed.

Lemma split_nl_app (l r : str) :
  nl_free l = true ->
  PyStr.split_nl (l ++ PyStr.nl ++ r) = l :: PyStr.split_nl r.
Proof.
  induction l as [ | c t IH]; [ reflexivity | ].
  cbn [nl_free]. intros F. apply andb_true_iff in F as (N & F).
  apply negb_true_iff in N. cbn [app PyStr.split_nl].
  rewrite N.
  change ((c :: t) ++ PyStr.nl ++ r) with ((c :: (t ++ PyStr.nl ++ r))).
  rewrite (IH F). reflexivity.
Qed.

(** The lines of a text hold no line feed. *)
Lemma split_nl_lines_free (s : str) :
  Forall (fun l => nl_free l = true) (PyStr.split_nl s).
Proof.
  induction s as [ | c t IH]; [ repeat constructor | ].
  destruct (N.eqb c PyStr.nl_char) eqn:N.
  - apply N.eqb_eq in N. subst c. rewrite split_nl_newline.
    constructor; [ reflexivity | exact IH ].
  - destruct (split_nl_cons c t N) as (l & ls & E & E'). rewrite E'.
    rewrite E in IH. inversion IH as [ | ? ? F Fs]; subst.
    constructor; [ | exact Fs ].
    cbn [nl_free]. rewrite N, F. reflexivity.
Qed.

(** Splitting joined lines gives the lines back, when there is at least
    one and none holds a line feed. *)
Lemma split_join (l : str) (ls : list str) :
  Forall (fun x => nl_free x = true) (l :: ls) ->
  PyStr.split_nl (PyStr.join_nl (l :: ls)) = l :: ls.
Proof.
  revert l. induction ls as [ | l' ls IH]; intros l F.
  - inversion F; subst. apply split_nl_free. assumption.
  - inversion F as [ | ? ? Fl Fr]; subst.
    rewrite join_nl_cons, (split_nl_app _ _ Fl), (IH _ Fr). reflexivity.
Qed.

End Lines.

Module Trim.

Lemma lstrip_space (c : codepoint) (t : str) :
  isspace c = true -> PyStr.lstrip (c :: t) = PyStr.lstrip t.
Proof. intros W. cbn [PyStr.lstrip]. rewrite W. reflexivity. Qed.

Lemma lstrip_nonspace (c : codepoint) (t : str) :
  isspace c = false -> PyStr.lstrip (c :: t) = (c :: t).
Proof. intros W. cbn [PyStr.lstrip]. rewrite W. reflexivity. Qed.

Lemma rstrip_cons (c : codepoint) (t : str) :
  PyStr.rstrip (c :: t) =
  match PyStr.rstrip t with
  | [] => if isspace c then [] else (c :: [])
  | (a :: b) => (c :: (a :: b))
  end.
Proof. reflexivity. Qed.

Lemma rstrip_idempotent (s : str) :
  PyStr.rstrip (PyStr.rstrip s) = PyStr.rstrip s.
Proof.
  induction s as [ | c t IH]; [ reflexivity | ].
  rewrite rstrip_cons. destruct (PyStr.rstrip t) as [ | a b] eqn:R.
  - destruct (isspace c) eqn:W; [ reflexivity | ].
    rewrite rstrip_cons. cbn [PyStr.rstrip]. rewrite W. reflexivity.
  - rewrite rstrip_cons, IH. reflexivity.
Qed.

Lemma lstrip_rstrip (s : str) :
  PyStr.lstrip (PyStr.rstrip s) = PyStr.rstrip (PyStr.lstrip s).
Proof.
  induction s as [ | c t IH]; [ reflexivity | ].
  destruct (isspace c) eqn:W.
  - rewrite (lstrip_space _ _ W), <- IH, rstrip_cons, W.
    destruct (PyStr.rstrip t) as [ | a b]; [ reflexivity | ].
    apply lstrip_space, W.
  - rewrite (lstrip_nonspace _ _ W), rstrip_cons, W.
    destruct (PyStr.rstrip t); apply lstrip_nonspace, W.
Qed.

(** Trimming is not affected by an earlier trimming on either side. *)
Lemma strip_rstrip (s : str) : PyStr.strip (PyStr.rstrip s) = PyStr.strip s.
Proof.
  unfold PyStr.strip. rewrite lstrip_rstrip. apply rstrip_idempotent.
Qed.

Lemma strip_space (c : codepoint) (t : str) :
  isspace c = true -> PyStr.strip (c :: t) = PyStr.strip t.
Proof. intros W. unfold PyStr.strip. rewrite (lstrip_space _ _ W). reflexivity. Qed.

Lemma fence_line_space (c : codepoint) (t : str) :
  isspace c = true ->
  SqlAgent.fence_line (c :: t) = SqlAgent.fence_line t.
Proof. intros W. unfold SqlAgent.fence_line. rewrite (strip_space _ _ W). reflexivity. Qed.

Lemma fence_line_rstrip (l : str) :
  SqlAgent.fence_line (PyStr.rstrip l) = SqlAgent.fence_line l.
Proof. unfold SqlAgent.fence_line. rewrite strip_rstrip. reflexivity. Qed.

Lemma eqb_nl_space (c : codepoint) :
  N.eqb c PyStr.nl_char = true -> isspace c = true.
Proof. intros N. apply N.eqb_eq in N. subst c. reflexivity. Qed.

(** The lines left after trimming on the left are free of fences when
    the lines before were. *)
Lemma lstrip_keeps_fence_free (s : str) :
  Forall (fun l => SqlAgent.fence_line l = false) (PyStr.split_nl s) ->
  Forall (fun l => SqlAgent.fence_line l = false) (PyStr.split_nl (PyStr.lstrip s)).
Proof.
  induction s as [ | c t IH]; [ auto | ].
  destruct (isspace c) eqn:W.
  2:{ rewrite (lstrip_nonspace _ _ W). auto. }
  rewrite (lstrip_space _ _ W). intros F. apply IH.
  destruct (N.eqb c PyStr.nl_char) eqn:N.
  - apply N.eqb_eq in N. subst c. rewrite Lines.split_nl_newline in F.
    inversion F; assumption.
  - destruct (Lines.split_nl_cons c t N) as (l & ls & E & E').
    rewrite E' in F. rewrite E. inversion F as [ | ? ? Fl Fs]; subst.
    constructor; [ | exact Fs ].
    rewrite <- (fence_line_space c l W). exact Fl.
Qed.

(** The lines of a text trimmed on the right: the lines before the last
    one that is not blank, and that one trimmed. *)
Lemma split_nl_rstrip (s : str) :
  exists pre l post,
    PyStr.split_nl s = (pre ++ l :: post) /\
    PyStr.split_nl (PyStr.rstrip s) = (pre ++ [PyStr.rstrip l]).
Proof.
  induction s as [ | c t IH].
  - exists [], [], []. split; reflexivity.
  - destruct IH as (pre & l & post & E & R).
    rewrite rstrip_cons.
    destruct (PyStr.rstrip t) as [ | a b] eqn:T.
    + assert (P : pre = [] /\ PyStr.rstrip l = []).
      { destruct pre as [ | p pre']; cbn in R.
        - injection R as R. auto.
        - injection R as _ R. destruct pre'; discriminate R. }
      destruct P as (-> & L). cbn [app] in E.
      destruct (N.eqb c PyStr.nl_char) eqn:N.
      * rewrite (eqb_nl_space c N).
        apply N.eqb_eq in N. subst c. rewrite Lines.split_nl_newline.
        exists [], [], (PyStr.split_nl t). split; reflexivity.
      * destruct (Lines.split_nl_cons c t N) as (l0 & ls & E0 & E').
        rewrite E0 in E. injection E as -> ->.
        exists [], (c :: l), post. split; [ exact E' | ].
        rewrite rstrip_cons, L.
        destruct (isspace c) eqn:W; [ reflexivity | ].
        cbn [app PyStr.split_nl]. rewrite N. reflexivity.
    + destruct (N.eqb c PyStr.nl_char) eqn:N.
      * apply N.eqb_eq in N. subst c. rewrite !Lines.split_nl_newline.
        exists ([] :: pre), l, post. rewrite E, R. split; reflexivity.
      * destruct (Lines.split_nl_cons c t N) as (l0 & ls & E0 & E').
        destruct (Lines.split_nl_cons c (a :: b) N) as (r0 & rs & R0 & R').
        rewrite E', R'. rewrite E0 in E. rewrite R0 in R.
        destruct pre as [ | p pre']; cbn [app] in *.
        -- injection E as -> ->. injection R as -> ->.
           exists [], (c :: l), post. split; [ reflexivity | ].
           rewrite rstrip_cons.
           destruct (PyStr.rstrip l) as [ | a' b'] eqn:L; [ | reflexivity ].
           exfalso.
           apply Lines.split_nl_only_empty in R0. discriminate R0.
        -- injection E as -> ->. injection R as -> ->.
           exists ((c :: p) :: pre'), l, post. split; reflexivity.
Qed.

Lemma rstrip_keeps_fence_free (s : str) :
  Forall (fun l => SqlAgent.fence_line l = false) (PyStr.split_nl s) ->
  Forall (fun l => SqlAgent.fence_line l = false) (PyStr.split_nl (PyStr.rstrip s)).
Proof.
  destruct (split_nl_rstrip s) as (pre & l & post & E & R).
  rewrite E, R, !Forall_app. intros (Fp & Fl). split; [ exact Fp | ].
  inversion Fl; subst. constructor; [ | constructor ].
  rewrite fence_line_rstrip. assumption.
Qed.

(** Trimming a text whose lines are free of fences leaves lines that are
    free of fences. *)
Lemma strip_keeps_fence_free (s : str) :
  Forall (fun l => SqlAgent.fence_line l = false) (PyStr.split_nl s) ->
  Forall (fun l => SqlAgent.fence_line l = false) (PyStr.split_nl (PyStr.strip s)).
Proof.
  intros F. unfold PyStr.strip.
  apply rstrip_keeps_fence_free, lstrip_keeps_fence_free, F.
Qed.

End Trim.

(* ================================================================== *)
(** ** The clean-up of the generated statement *)

Section Translation.
Context {U : Unicode} {Q : SqliteSyntax}.

(** The translation stage once the model has answered: the statement
    returned is the clean-up of the text of the response. *)
Lemma generate_sql_query_cleans (question schema raw : str) (w w0 w1 w2 : world) :
  SqlAgent.get_gemini_model w = (Returned tt, w0) ->
  DatabaseSetup.get_schema_info w0 = (Returned schema, w1) ->
  SqlAgent.call_gemini_with_retry (SqlAgent.format_sql_prompt schema question) w1 =
    (Returned (Some (SqlAgent.mkResponse raw)), w2) ->
  SqlAgent.generate_sql_query question w =
    (Returned (SqlAgent.clean_sql raw), w2).
Proof.
  intros M S C. unfold SqlAgent.generate_sql_query.
  unfold bind at 1. rewrite M.
  unfold bind at 1. rewrite S.
  unfold bind at 1. rewrite C. reflexivity.
Qed.

(** The lines that the clean-up keeps hold no fence, and so do the lines
    of the kept lines joined and trimmed. *)
Lemma kept_lines_fence_free (sql : str) :
  let kept :=
    filter (fun l => negb (SqlAgent.fence_line l)) (PyStr.split_nl sql) in
  (kept <> [] -> PyStr.split_nl (PyStr.join_nl kept) = kept) /\
  Forall (fun l => SqlAgent.fence_line l = false)
         (PyStr.split_nl (PyStr.strip (PyStr.join_nl kept))).
Proof.
  cbv zeta.
  set (kept := filter (fun l => negb (SqlAgent.fence_line l))
                      (PyStr.split_nl sql)).
  assert (Ffence : Forall (fun l => SqlAgent.fence_line l = false) kept).
  { apply Forall_forall. intros l I. apply filter_In in I as (_ & I).
    apply negb_true_iff, I. }
  assert (Ffree : Forall (fun l => nl_free l = true) kept).
  { apply Forall_forall. intros l I. apply filter_In in I as (I & _).
    revert l I. apply Forall_forall, Lines.split_nl_lines_free. }
  assert (S : kept <> [] -> PyStr.split_nl (PyStr.join_nl kept) = kept).
  { destruct kept as [ | l ls]; [ intros N; contradiction | ].
    intros _. apply Lines.split_join, Ffree. }
  split; [ exact S | ].
  apply Trim.strip_keeps_fence_free.
  destruct kept as [ | l ls] eqn:K.
  - repeat constructor.
  - rewrite S by discriminate. exact Ffence.
Qed.

(** C7. When the model has answered with the text [raw],
    [generate_sql_query] returns the post-processing of [raw].  The
    post-processing trims [raw]; an output that then starts with a fence
    has the lines whose trimmed form starts with a fence removed and the
    other lines joined again in their order, and the result trimmed: the
    lines of the result hold no fence line; any other output is returned
    trimmed only. *)
Theorem clean_sql_removes_fences
    (question schema raw : str) (w w0 w1 w2 : world) :
  SqlAgent.get_gemini_model w = (Returned tt, w0) ->
  DatabaseSetup.get_schema_info w0 = (Returned schema, w1) ->
  SqlAgent.call_gemini_with_retry (SqlAgent.format_sql_prompt schema question) w1 =
    (Returned (Some (SqlAgent.mkResponse raw)), w2) ->
  let sql := PyStr.strip raw in
  let kept := filter (fun l => negb (SqlAgent.fence_line l)) (PyStr.split_nl sql) in
  let returned := fst (SqlAgent.generate_sql_query question w) in
  (PyStr.startswith sql "```" = false -> returned = Returned sql) /\
  (PyStr.startswith sql "```" = true ->
     returned = Returned (PyStr.strip (PyStr.join_nl kept)) /\
     PyStr.join_nl (PyStr.split_nl sql) = sql /\
     (kept <> [] -> PyStr.split_nl (PyStr.join_nl kept) = kept) /\
     forall cleaned, returned = Returned cleaned ->
       Forall (fun l => SqlAgent.fence_line l = false)
              (PyStr.split_nl cleaned)).
Proof.
  intros M S C. cbv zeta.
  rewrite (generate_sql_query_cleans _ _ _ _ _ _ _ M S C). cbn [fst].
  unfold SqlAgent.clean_sql, SqlAgent.fence. split.
  - intros ->. reflexivity.
  - intros ->.
    destruct (kept_lines_fence_free (PyStr.strip raw)) as (K & F).
    split; [ reflexivity | split; [ apply Lines.join_split | split ] ].
    + exact K.
    + intros cleaned E. injection E as <-. exact F.
Qed.

End Translation.

Lemma clean_sql_removes_fences_witness :
  let fenced := txt "  ```sql" ++ PyStr.nl ++ txt "SELECT 1" ++ PyStr.nl ++
                txt "FROM employees;" ++ PyStr.nl ++ txt "```" ++ PyStr.nl in
  let bare := PyStr.nl ++ txt "  SELECT 1;  " ++ PyStr.nl in
  let w raw := Demo.fresh (Some (txt "key")) (Demo.always raw)
                          (Present DatabaseSetup.seeded_database) in
  let ask raw :=
    fst (SqlAgent.generate_sql_query (U:=Demo.unicode) (Q:=Demo.sqlite)
           "How many employees?" (w raw)) in
  ask fenced = Returned (txt "SELECT 1" ++ PyStr.nl ++ txt "FROM employees;") /\
  (forall cleaned, ask fenced = Returned cleaned ->
     Forall (fun l => SqlAgent.fence_line l = false) (PyStr.split_nl cleaned)) /\
  ask bare = Returned (txt "SELECT 1;").
Proof.
  intros fenced bare w ask. unfold ask.
  destruct (clean_sql_removes_fences (U:=Demo.unicode) (Q:=Demo.sqlite)
              "How many employees?" _ fenced (w fenced) _ _ _
              eq_refl eq_refl eq_refl) as (_ & F).
  destruct (F eq_refl) as (C & _ & _ & N).
  destruct (clean_sql_removes_fences (U:=Demo.unicode) (Q:=Demo.sqlite)
              "How many employees?" _ bare (w bare) _ _ _
              eq_refl eq_refl eq_refl) as (B & _).
  split; [ | split ].
  - rewrite C. reflexivity.
  - exact N.
  - rewrite (B eq_refl). reflexivity.
Defined.

(* ================================================================== *)
(** ** The address filter *)

Lemma filter_nil_existsb {B : Type} (f : B -> bool) (l : list B) :
  filter f l = [] <-> existsb f l = false.
Proof.
  induction l as [ | x l IH]; [ tauto | ].
  cbn [filter existsb]. destruct (f x); cbn [orb]; [ | exact IH ].
  split; discriminate.
Qed.

Lemma ipv4_only_getaddrinfo_filter {A : Type} (responses : list (Net.addrinfo A)) :
  Net.ipv4_only_getaddrinfo responses =
  if existsb Net.is_inet responses then filter Net.is_inet responses
  else responses.
Proof.
  unfold Net.ipv4_only_getaddrinfo.
  destruct (filter Net.is_inet responses) as [ | r rs] eqn:F.
  - apply filter_nil_existsb in F. rewrite F. reflexivity.
  - destruct (existsb Net.is_inet responses) eqn:E; [ reflexivity | ].
    apply filter_nil_existsb in E. rewrite E in F. discriminate F.
Qed.

(** X1. The resolver patch keeps exactly the IPv4 answers, in their
    order, when there is one, and all answers otherwise: it never turns
    a non-empty answer into an empty one, adds nothing, and applying it
    twice changes nothing more. *)
Theorem ipv4_only_getaddrinfo_prefers_ipv4
    {A : Type} (responses : list (Net.addrinfo A)) :
  let result := Net.ipv4_only_getaddrinfo responses in
  (existsb Net.is_inet responses = true ->
     result = filter Net.is_inet responses /\
     Forall (fun r => fst r = Net.AF_INET) result) /\
  (existsb Net.is_inet responses = false -> result = responses) /\
  (result = [] <-> responses = []) /\
  incl result responses /\
  Net.ipv4_only_getaddrinfo result = result.
Proof.
  cbv zeta. rewrite ipv4_only_getaddrinfo_filter.
  destruct (existsb Net.is_inet responses) eqn:E.
  - assert (F : Forall (fun r : Net.addrinfo A => fst r = Net.AF_INET)
                       (filter Net.is_inet responses)).
    { apply Forall_forall. intros r I. apply filter_In in I as (_ & I).
      unfold Net.is_inet in I. destruct (fst r); [ reflexivity | | ];
        discriminate I. }
    repeat apply conj.
    + intros _. split; [ reflexivity | exact F ].
    + discriminate.
    + intros N. apply existsb_exists in E as (r & I & P).
      assert (I' : In r (filter Net.is_inet responses))
        by (apply filter_In; auto).
      rewrite N in I'. destruct I'.
    + intros ->. reflexivity.
    + intros r I. apply filter_In in I. apply I.
    + rewrite ipv4_only_getaddrinfo_filter.
      destruct (existsb Net.is_inet (filter Net.is_inet responses));
        [ | reflexivity ].
      clear. induction responses as [ | r rs IH]; [ reflexivity | ].
      cbn [filter]. destruct (Net.is_inet r) eqn:P; [ | exact IH ].
      cbn [filter]. rewrite P, IH. reflexivity.
  - repeat apply conj.
    + discriminate.
    + reflexivity.
    + tauto.
    + tauto.
    + apply incl_refl.
    + rewrite ipv4_only_getaddrinfo_filter, E. reflexivity.
Qed.

Lemma ipv4_only_getaddrinfo_prefers_ipv4_witness :
  let v6 := (Net.AF_INET6, "::1") in
  let v4 := (Net.AF_INET, "127.0.0.1") in
  let v4' := (Net.AF_INET, "10.0.0.1") in
  Net.ipv4_only_getaddrinfo [v6; v4; v6; v4'] = [v4; v4'] /\
  Net.ipv4_only_getaddrinfo [v6; v6] = [v6; v6].
Proof.
  intros v6 v4 v4'. split.
  - apply (proj1 (ipv4_only_getaddrinfo_prefers_ipv4 [v6; v4; v6; v4'])).
    reflexivity.
  - apply (proj1 (proj2 (ipv4_only_getaddrinfo_prefers_ipv4 [v6; v6]))).
    reflexivity.
Defined.

(* ================================================================== *)
(** ** Running an accepted statement *)

Section Execution.
Context {U : Unicode}.

Lemma execute_sql_query_accepts (s : str) (w : world) :
  SqlAgent.is_select s = true ->
  SqlAgent.execute_sql_query s w =
    (DatabaseSetup.connect ;;;
     try_finally
       (try_except
          (SqlAgent.cursor_execute s)
          (fun e =>
             if SqlAgent.is_sqlite_error e
             then raise (mkExn RuntimeError (txt "SQL execution error: " ++ str_exn e))
             else raise e))
       DatabaseSetup.close) w.
Proof.
  intros G. unfold SqlAgent.execute_sql_query. rewrite G. reflexivity.
Qed.



End Execution.



(* ================================================================== *)
(** ** The texts that pass the safety gate *)

Module Gate.

Lemma select_codes : txt "SELECT" = [83; 69; 76; 69; 67; 84]%N.
Proof. reflexivity. Qed.

Lemma lstrip_all_space_app (pre x : str) :
  all_space pre = true -> PyStr.lstrip (pre ++ x) = PyStr.lstrip x.
Proof.
  induction pre as [ | c pre IH]; [ reflexivity | ].
  cbn [all_space]. intros S. apply andb_true_iff in S as (W & S).
  cbn [app]. rewrite (Trim.lstrip_space _ _ W). apply IH, S.
Qed.

(** A text is white space followed by its left-trimmed form. *)
Lemma lstrip_decompose (s : str) :
  exists pre, all_space pre = true /\ s = pre ++ PyStr.lstrip s.
Proof.
  induction s as [ | c t (pre & S & E)].
  - exists []. split; reflexivity.
  - destruct (isspace c) eqn:W.
    + exists (c :: pre). rewrite (Trim.lstrip_space _ _ W). split.
      * cbn [all_space]. rewrite W, S. reflexivity.
      * cbn [app]. rewrite <- E. reflexivity.
    + exists []. rewrite (Trim.lstrip_nonspace _ _ W).
      split; reflexivity.
Qed.

(** A text is its right-trimmed form followed by white space. *)
Lemma rstrip_decompose (s : str) :
  exists post, all_space post = true /\ s = PyStr.rstrip s ++ post.
Proof.
  induction s as [ | c t (post & S & E)].
  - exists []. split; reflexivity.
  - rewrite Trim.rstrip_cons. destruct (PyStr.rstrip t) as [ | a b] eqn:R.
    + cbn [app] in E. subst post.
      destruct (isspace c) eqn:W.
      * exists (c :: t). split; [ | reflexivity ].
        cbn [all_space]. rewrite W, S. reflexivity.
      * exists t. split; [ exact S | reflexivity ].
    + exists post. split; [ exact S | ].
      cbn [app]. f_equal. exact E.
Qed.

Lemma rstrip_nonspace_cons (c : codepoint) (t : str) :
  isspace c = false ->
  PyStr.rstrip (c :: t) = c :: PyStr.rstrip t.
Proof.
  intros W. rewrite Trim.rstrip_cons, W.
  destruct (PyStr.rstrip t); reflexivity.
Qed.

(** Trimming stops at a word without white space. *)
Lemma rstrip_nonspace_app (kw rest : str) :
  Forall (fun c => isspace c = false) kw ->
  PyStr.rstrip (kw ++ rest) = kw ++ PyStr.rstrip rest.
Proof.
  induction 1 as [ | c kw W _ IH ]; [ reflexivity | ].
  cbn [app]. rewrite (rstrip_nonspace_cons _ _ W), IH. reflexivity.
Qed.

Lemma strip_nonspace_app (kw rest : str) :
  kw <> [] ->
  Forall (fun c => isspace c = false) kw ->
  PyStr.strip (kw ++ rest) = kw ++ PyStr.rstrip rest.
Proof.
  intros N F. unfold PyStr.strip.
  destruct F as [ | c kw W F ]; [ contradiction | ].
  cbn [app]. rewrite (Trim.lstrip_nonspace _ _ W).
  apply (rstrip_nonspace_app (c :: kw)). constructor; assumption.
Qed.

Lemma prefix_app (p r : str) : PyStr.prefix p (p ++ r) = true.
Proof.
  induction p as [ | c p IH]; [ reflexivity | ].
  cbn [app PyStr.prefix]. rewrite N.eqb_refl. exact IH.
Qed.

(** A word found at the start of a text mapped character by character
    is the image of the start of the text. *)
Lemma prefix_map_split (f : codepoint -> codepoint) (p y : str) :
  PyStr.prefix p (map f y) = true ->
  exists kw r, y = kw ++ r /\ map f kw = p.
Proof.
  revert y. induction p as [ | c p IH]; intros y P.
  - exists [], y. split; reflexivity.
  - destruct y as [ | a y]; [ discriminate P | ].
    cbn [map PyStr.prefix] in P. apply andb_true_iff in P as (E & P).
    apply N.eqb_eq in E. destruct (IH y P) as (kw & r & Y & K).
    exists (a :: kw), r. split.
    + cbn [app]. rewrite <- Y. reflexivity.
    + cbn [map]. rewrite K, E. reflexivity.
Qed.

Lemma ascii_text_app (a b : str) :
  ascii_text (a ++ b) <-> ascii_text a /\ ascii_text b.
Proof. apply Forall_app. Qed.

Lemma ascii_text_lstrip (s : str) : ascii_text s -> ascii_text (PyStr.lstrip s).
Proof.
  intros A. destruct (lstrip_decompose s) as (pre & _ & E).
  rewrite E in A. apply ascii_text_app in A. apply A.
Qed.

Lemma ascii_text_rstrip (s : str) : ascii_text s -> ascii_text (PyStr.rstrip s).
Proof.
  intros A. destruct (rstrip_decompose s) as (post & _ & E).
  rewrite E in A. apply ascii_text_app in A. apply A.
Qed.

Lemma ascii_text_strip (s : str) : ascii_text s -> ascii_text (PyStr.strip s).
Proof. intros A. apply ascii_text_rstrip, ascii_text_lstrip, A. Qed.

Section Case.
Context {U : Unicode}.

Lemma upper_app (a b : str) :
  PyStr.upper (a ++ b) = PyStr.upper a ++ PyStr.upper b.
Proof. apply flat_map_app. Qed.

(** On ASCII text [str.upper] maps the letters one by one. *)
Lemma upper_ascii (s : str) :
  ascii_text s -> PyStr.upper s = map ascii_upper s.
Proof.
  unfold PyStr.upper. induction 1 as [ | c s L _ IH ]; [ reflexivity | ].
  cbn [flat_map map]. rewrite (upper_char_ascii c L), IH. reflexivity.
Qed.


(** A word whose upper case holds no white space holds none itself. *)
Lemma nonspace_of_upper (kw p : str) :
  PyStr.upper kw = p ->
  Forall (fun c => isspace c = false) p ->
  Forall (fun c => isspace c = false) kw.
Proof.
  revert p. induction kw as [ | c kw IH ]; intros p E F; [ constructor | ].
  unfold PyStr.upper in E. cbn [flat_map] in E. subst p.
  apply Forall_app in F as (Fc & Fk).
  constructor; [ | exact (IH _ eq_refl Fk) ].
  destruct (isspace c) eqn:W; [ | reflexivity ].
  rewrite (upper_char_space c W) in Fc.
  inversion Fc as [ | ? ? Wc _ ]; subst. rewrite W in Wc. discriminate Wc.
Qed.

(** A word whose upper case is SELECT, at the head of a text, stays at
    the head of the trimmed text, and in upper case it is SELECT. *)
Lemma keyword_survives (kw rest : str) :
  PyStr.upper kw = txt "SELECT" ->
  PyStr.upper (PyStr.strip (kw ++ rest)) =
    txt "SELECT" ++ PyStr.upper (PyStr.rstrip rest).
Proof.
  intros K.
  assert (N : kw <> []).
  { intros ->. rewrite select_codes in K. discriminate K. }
  assert (F : Forall (fun c => isspace c = false) kw).
  { apply (nonspace_of_upper _ _ K). rewrite select_codes.
    repeat constructor. }
  rewrite (strip_nonspace_app _ _ N F), upper_app, K. reflexivity.
Qed.


End Case.

End Gate.

Section Gated.
Context {U : Unicode}.

(** X4. The gate of [execute_sql_query] accepts every text that, after
    leading white space, begins with a word whose upper case is SELECT;
    what follows the word plays no part.  Among the texts of ASCII
    characters these are the only ones it accepts: the word is then
    select in any letter case. *)
Theorem is_select_iff (s : str) :
  ((exists pre kw rest,
      s = pre ++ kw ++ rest /\ all_space pre = true /\
      PyStr.upper kw = txt "SELECT") ->
   SqlAgent.is_select s = true) /\
  (ascii_text s ->
   SqlAgent.is_select s = true ->
   exists pre kw rest,
     s = pre ++ kw ++ rest /\ all_space pre = true /\
     map ascii_upper kw = txt "SELECT" /\ PyStr.upper kw = txt "SELECT").
Proof.
  unfold SqlAgent.is_select, PyStr.startswith. split.
  - intros (pre & kw & rest & -> & S & K).
    assert (E : PyStr.strip (pre ++ kw ++ rest) = PyStr.strip (kw ++ rest)).
    { unfold PyStr.strip. rewrite (Gate.lstrip_all_space_app _ _ S).
      reflexivity. }
    rewrite E, (Gate.keyword_survives _ _ K). apply Gate.prefix_app.
  - intros A P.
    rewrite (Gate.upper_ascii _ (Gate.ascii_text_strip _ A)) in P.
    apply Gate.prefix_map_split in P as (kw & r & Y & K).
    destruct (Gate.lstrip_decompose s) as (pre & S & E).
    destruct (Gate.rstrip_decompose (PyStr.lstrip s)) as (post & _ & T).
    assert (D : s = pre ++ kw ++ r ++ post).
    { rewrite E at 1. f_equal. rewrite T at 1.
      unfold PyStr.strip in Y. rewrite Y, <- app_assoc. reflexivity. }
    exists pre, kw, (r ++ post).
    split; [ exact D | split; [ exact S | split; [ exact K | ] ] ].
    rewrite <- K. apply Gate.upper_ascii.
    rewrite D in A. apply Gate.ascii_text_app in A as (_ & A).
    apply Gate.ascii_text_app in A. apply A.
Qed.


End Gated.

Lemma is_select_iff_witness :
  let accepted := SqlAgent.is_select (U:=Demo.unicode) in
  accepted (txt "  " ++ txt "SeLeCt" ++ txt " 1; DELETE FROM employees") = true /\
  accepted (txt "ſelect 1") = true /\
  exists pre kw rest,
    txt "select*from t" = pre ++ kw ++ rest /\ all_space pre = true /\
    map ascii_upper kw = txt "SELECT" /\
    PyStr.upper (U:=Demo.unicode) kw = txt "SELECT".
Proof.
  intros accepted. unfold accepted. split; [ | split ].
  - apply (proj1 (is_select_iff (U:=Demo.unicode) _)).
    exists (txt "  "), (txt "SeLeCt"), (txt " 1; DELETE FROM employees").
    split; [ reflexivity | split; reflexivity ].
  - apply (proj1 (is_select_iff (U:=Demo.unicode) _)).
    exists [], (txt "ſelect"), (txt " 1").
    split; [ reflexivity | split; reflexivity ].
  - apply (proj2 (is_select_iff (U:=Demo.unicode) (txt "select*from t"))).
    + unfold ascii_text. apply Forall_forall. intros c I.
      cbn in I. repeat (destruct I as [<- | I]; [ reflexivity | ]).
      destruct I.
    + reflexivity.
Defined.


(* ================================================================== *)
(** ** [create_database] on an existing file *)

Module Tables.

Lemma name_eqb_iff (a b : str) :
  name_eqb a b = true <-> map ascii_lower a = map ascii_lower b.
Proof. apply str_eqb_eq. Qed.

Lemma name_eqb_refl (a : str) : name_eqb a a = true.
Proof. apply str_eqb_refl. Qed.

(** Two names that SQLite takes for the name [k] are taken for the
    same names. *)
Lemma name_eqb_same (k m n : str) :
  name_eqb k m = true -> name_eqb k n = name_eqb m n.
Proof.
  intros E. apply name_eqb_iff in E. unfold name_eqb. rewrite E. reflexivity.
Qed.

Lemma find_table_app (n : str) (d l : database) :
  find_table n (d ++ l) =
  match find_table n d with
  | Some t => Some t
  | None => find_table n l
  end.
Proof.
  induction d as [ | [m t] d IH]; [ reflexivity | ].
  cbn [app find_table]. destruct (name_eqb m n); [ reflexivity | exact IH ].
Qed.

Lemma find_table_drop_other (n m : str) (d : database) :
  name_eqb m n = false ->
  find_table n (drop_table_if_exists m d) = find_table n d.
Proof.
  intros N. unfold drop_table_if_exists.
  induction d as [ | [k t] d IH]; [ reflexivity | ].
  cbn [filter fst find_table]. destruct (name_eqb k m) eqn:E; cbn [negb].
  - rewrite (name_eqb_same _ _ n E), N. exact IH.
  - cbn [find_table]. rewrite IH. reflexivity.
Qed.

(** A dropped table is found under none of its spellings. *)
Lemma find_table_drop_same (n m : str) (d : database) :
  name_eqb m n = true ->
  find_table n (drop_table_if_exists m d) = None.
Proof.
  intros S. unfold drop_table_if_exists.
  induction d as [ | [k t] d IH]; [ reflexivity | ].
  cbn [filter fst]. destruct (name_eqb k m) eqn:E; cbn [negb]; [ exact IH | ].
  cbn [find_table].
  destruct (name_eqb k n) eqn:K; [ | exact IH ].
  exfalso. apply name_eqb_iff in K. apply name_eqb_iff in S.
  assert (T : name_eqb k m = true)
    by (apply name_eqb_iff; rewrite K, S; reflexivity).
  rewrite T in E. discriminate E.
Qed.

Lemma find_table_drop_none (n m : str) (d : database) :
  find_table n d = None -> find_table n (drop_table_if_exists m d) = None.
Proof.
  intros F. destruct (name_eqb m n) eqn:E.
  - apply find_table_drop_same, E.
  - rewrite (find_table_drop_other _ _ _ E). exact F.
Qed.

(** Dropping a table that is not there changes nothing. *)
Lemma drop_absent (n : str) (d : database) :
  find_table n d = None -> drop_table_if_exists n d = d.
Proof.
  unfold drop_table_if_exists.
  induction d as [ | [m t] d IH]; [ reflexivity | ].
  cbn [find_table filter fst]. destruct (name_eqb m n); [ discriminate | ].
  intros F. cbn [negb]. rewrite (IH F). reflexivity.
Qed.

Lemma drop_app (n : str) (d l : database) :
  drop_table_if_exists n (d ++ l) =
  drop_table_if_exists n d ++ drop_table_if_exists n l.
Proof. apply filter_app. Qed.

Lemma append_rows_app (n : str) (rs : list row) (d l : database) :
  find_table n d = None ->
  DatabaseSetup.append_rows n rs (d ++ l) =
  d ++ DatabaseSetup.append_rows n rs l.
Proof.
  induction d as [ | [m t] d IH]; [ reflexivity | ].
  cbn [find_table app DatabaseSetup.append_rows].
  destruct (name_eqb m n); [ discriminate | ].
  intros F. rewrite (IH F). reflexivity.
Qed.

(** The five names, each against a name [n]. *)
Lemma seed_name_cases (n : str) :
  seed_name n =
    name_eqb "departments" n || name_eqb "employees" n ||
    name_eqb "projects" n || name_eqb "salaries" n ||
    name_eqb "project_assignments" n.
Proof.
  unfold seed_name, seed_names. cbn [existsb].
  rewrite orb_false_r, !orb_assoc. reflexivity.
Qed.

Lemma seed_name_false (n : str) :
  seed_name n = false ->
  name_eqb "departments" n = false /\ name_eqb "employees" n = false /\
  name_eqb "projects" n = false /\ name_eqb "salaries" n = false /\
  name_eqb "project_assignments" n = false.
Proof.
  rewrite seed_name_cases, !orb_false_iff. tauto.
Qed.

Lemma without_seed_fresh (d : database) (n : str) :
  seed_name n = true -> find_table n (without_seed d) = None.
Proof.
  rewrite seed_name_cases, !orb_true_iff. unfold without_seed.
  intros [[[[S | S] | S] | S] | S];
    repeat first [ apply (find_table_drop_same _ _ _ S)
                 | apply find_table_drop_none ].
Qed.

Lemma without_seed_other (d : database) (n : str) :
  seed_name n = false -> find_table n (without_seed d) = find_table n d.
Proof.
  intros N. apply seed_name_false in N as (N1 & N2 & N3 & N4 & N5).
  unfold without_seed. rewrite !find_table_drop_other by assumption.
  reflexivity.
Qed.

Lemma seed_names_are_seed (n : str) : In n seed_names -> seed_name n = true.
Proof.
  unfold seed_names.
  intros [<- | [<- | [<- | [<- | [<- | []]]]]]; reflexivity.
Qed.

Lemma without_seed_idempotent (d : database) :
  without_seed (without_seed d ++ DatabaseSetup.seeded_database) =
  without_seed d.
Proof.
  unfold without_seed at 1. rewrite !drop_app.
  change (drop_table_if_exists "departments"
            (drop_table_if_exists "employees"
               (drop_table_if_exists "projects"
                  (drop_table_if_exists "project_assignments"
                     (drop_table_if_exists "salaries"
                        DatabaseSetup.seeded_database))))) with (@nil (str * table)).
  rewrite app_nil_r.
  assert (K : forall n, In n seed_names ->
                        drop_table_if_exists n (without_seed d) = without_seed d).
  { intros n I. apply drop_absent, without_seed_fresh, seed_names_are_seed, I. }
  rewrite (K "salaries") by (cbn; auto 6).
  rewrite (K "project_assignments") by (cbn; auto 6).
  rewrite (K "projects") by (cbn; auto 6).
  rewrite (K "employees") by (cbn; auto 6).
  apply K. cbn; auto 6.
Qed.

Lemma set_db_file_same (w : world) (f : file_state) :
  db_file w = f -> set_db_file f w = w.
Proof. intros <-. destruct w. reflexivity. Qed.

(** One statement that the engine accepts replaces the database. *)
Lemma execute_update_ok (u : DatabaseSetup.update) (w : world) (d d' : database) :
  db_file w = Present d -> u d = inr d' ->
  DatabaseSetup.execute_update u w = (Returned tt, set_db_file (Present d') w).
Proof.
  intros E X. unfold DatabaseSetup.execute_update. rewrite E, X. reflexivity.
Qed.

Lemma create_table_fresh (n : str) (cols : list column) (d : database) :
  find_table n d = None ->
  DatabaseSetup.create_table n cols d = inr (d ++ [(n, mkTable cols [])]).
Proof. intros F. unfold DatabaseSetup.create_table. rewrite F. reflexivity. Qed.

Lemma insert_many_app (n : str) (rs : list row) (d l : database) (t : table) :
  find_table n d = None -> find_table n l = Some t ->
  DatabaseSetup.insert_many n rs (d ++ l) =
    inr (d ++ DatabaseSetup.append_rows n rs l).
Proof.
  intros F L. unfold DatabaseSetup.insert_many.
  rewrite find_table_app, F, L, (append_rows_app _ _ _ _ F). reflexivity.
Qed.

(** [create_database] on a file that holds [d]. *)
Lemma create_database_on_present (w : world) (d : database) :
  db_file w = Present d ->
  fst (DatabaseSetup.create_database w) = Returned tt /\
  db_file (snd (DatabaseSetup.create_database w)) =
    Present (without_seed d ++ DatabaseSetup.seeded_database) /\
  open_connections (snd (DatabaseSetup.create_database w)) = open_connections w.
Proof.
  intros E.
  assert (F : forall n, In n seed_names -> find_table n (without_seed d) = None)
    by (intros n I; apply without_seed_fresh, seed_names_are_seed, I).
  unfold seed_names in F.
  cut (exists v,
         DatabaseSetup.create_database w = (Returned tt, v) /\
         db_file v = Present (without_seed d ++ DatabaseSetup.seeded_database) /\
         open_connections v = open_connections w).
  { intros (v & -> & D & O). auto. }
  set (b := without_seed d) in *.
  unfold DatabaseSetup.create_database, bind, DatabaseSetup.connect.
  rewrite E. cbn [DatabaseSetup.executescript]. unfold bind.
  (* the five drops *)
  erewrite execute_update_ok; [ | exact E | reflexivity ].
  do 4 (erewrite execute_update_ok; [ | reflexivity | reflexivity ]).
  fold (without_seed d). fold b. unfold ret at 1.
  (* the five creations *)
  erewrite execute_update_ok;
    [ | reflexivity | apply create_table_fresh, F; cbn; auto 6 ].
  do 4 (erewrite execute_update_ok;
        [ | reflexivity
          | apply create_table_fresh; rewrite !find_table_app, F by (cbn; auto 6);
            reflexivity ]).
  unfold ret at 1. rewrite <- !app_assoc. cbn [app].
  (* the five insertions *)
  do 5 (erewrite execute_update_ok;
        [ | reflexivity
          | eapply insert_many_app; [ apply F; cbn; auto 6 | reflexivity ] ];
        match goal with
        | |- context [DatabaseSetup.append_rows ?n ?rs ?l] =>
            let l' := eval vm_compute in (DatabaseSetup.append_rows n rs l) in
            change (DatabaseSetup.append_rows n rs l) with l'
        end).
  eexists. split; [ reflexivity | split; [ | reflexivity ] ].
  cbn [db_file closed_connection log_print set_db_file opened_connection].
  reflexivity.
Qed.

End Tables.

(** X6. [create_database] on an existing database drops and recreates the
    five tables of the sample schema: afterwards each of them holds
    exactly the sample rows, whatever it held before and in whatever
    letter case its name was spelt; every table whose name is, letter
    case apart, none of the five is as it was, and the connection is
    closed. *)
Theorem create_database_resets_sample_tables (w : world) (d : database) :
  db_file w = Present d ->
  exists d',
    fst (DatabaseSetup.create_database w) = Returned tt /\
    db_file (snd (DatabaseSetup.create_database w)) = Present d' /\
    (forall n t, In (n, t) DatabaseSetup.seeded_database ->
                 find_table n d' = Some t) /\
    (forall n, seed_name n = true ->
               find_table n d' = find_table n DatabaseSetup.seeded_database) /\
    (forall n, seed_name n = false -> find_table n d' = find_table n d) /\
    open_connections (snd (DatabaseSetup.create_database w)) = open_connections w.
Proof.
  intros E. destruct (Tables.create_database_on_present w d E) as (R & D & O).
  assert (S : forall n, seed_name n = true ->
            find_table n (without_seed d ++ DatabaseSetup.seeded_database) =
            find_table n DatabaseSetup.seeded_database).
  { intros n N. rewrite Tables.find_table_app, (Tables.without_seed_fresh d n N).
    reflexivity. }
  exists (without_seed d ++ DatabaseSetup.seeded_database).
  split; [ exact R | split; [ exact D | split; [ | split; [ exact S | split ] ] ] ].
  - intros n t I. unfold DatabaseSetup.seeded_database in I. cbn [In] in I.
    destruct I as [I | [I | [I | [I | [I | []]]]]];
      injection I as <- <-; (rewrite S; reflexivity).
  - intros n N.
    rewrite Tables.find_table_app, (Tables.without_seed_other d n N).
    destruct (find_table n d) eqn:F; [ reflexivity | ].
    apply Tables.seed_name_false in N as (N1 & N2 & N3 & N4 & N5).
    unfold DatabaseSetup.seeded_database. cbn [find_table].
    rewrite N1, N2, N3, N4, N5. reflexivity.
  - exact O.
Qed.

Lemma create_database_resets_sample_tables_witness :
  let stale :=
    [ (txt "notes",
       mkTable [mkColumn "body" "TEXT" false false] [[VText "keep"]]);
      (txt "Employees",
       mkTable [mkColumn "id" "INTEGER" false true] [[VInt 99]]) ] in
  let w := Demo.fresh None (Demo.always "SELECT 1;") (Present stale) in
  exists d',
    db_file (snd (DatabaseSetup.create_database w)) = Present d' /\
    find_table "employees" d' =
      Some (mkTable DatabaseSetup.employees_columns DatabaseSetup.employees) /\
    find_table "Employees" d' =
      Some (mkTable DatabaseSetup.employees_columns DatabaseSetup.employees) /\
    find_table "notes" d' = find_table "notes" stale.
Proof.
  intros stale w.
  destruct (create_database_resets_sample_tables w stale eq_refl)
    as (d' & _ & D & S & C & K & _).
  exists d'. split; [ exact D | split; [ | split ] ].
  - apply S. cbn. auto.
  - rewrite (C (txt "Employees") eq_refl). reflexivity.
  - apply K. reflexivity.
Defined.

(** X7. [create_database] is idempotent on the database: run twice, it
    leaves the file that one run leaves, whatever was at the path
    before. *)
Theorem create_database_idempotent (w : world) :
  db_file (snd (DatabaseSetup.create_database
                  (snd (DatabaseSetup.create_database w)))) =
  db_file (snd (DatabaseSetup.create_database w)).
Proof.
  destruct (db_file w) as [ | d | ] eqn:E.
  - destruct (create_database_on_absent w E) as (_ & D).
    destruct (Tables.create_database_on_present _ _ D) as (_ & D2 & _).
    rewrite D2, D. reflexivity.
  - destruct (Tables.create_database_on_present w d E) as (_ & D & _).
    destruct (Tables.create_database_on_present _ _ D) as (_ & D2 & _).
    rewrite D2, D, Tables.without_seed_idempotent. reflexivity.
  - assert (L : forall v, db_file v = Unopenable ->
                          db_file (snd (DatabaseSetup.create_database v)) = Unopenable).
    { intros v V. unfold DatabaseSetup.create_database, bind, DatabaseSetup.connect.
      rewrite V. exact V. }
    rewrite (L _ (L w E)), (L w E). reflexivity.
Qed.

(** X8. A schema read made while no file exists (as the first step of
    [ask_question] makes it) leaves an empty database at the path; since
    [initialize_database] only tests that a file exists, it then seeds
    nothing: the database stays without tables and the schema text stays
    empty. *)
Theorem schema_read_before_setup_prevents_seeding {Q : SqliteSyntax} (w : world) :
  db_file w = Absent ->
  let read := snd (DatabaseSetup.get_schema_info w) in
  let setup := snd (App.initialize_database read) in
  db_file read = Present empty_db /\
  fst (App.initialize_database read) = Returned tt /\
  db_file setup = Present empty_db /\
  fst (DatabaseSetup.get_schema_info setup) = Returned [].
Proof.
  intros E. cbv zeta. rewrite (get_schema_info_on_absent w E). cbn [snd].
  set (v := closed_connection (opened_connection (set_db_file (Present empty_db) w))).
  assert (D : db_file v = Present empty_db) by reflexivity.
  assert (I : App.initialize_database v = (Returned tt, v)).
  { unfold App.initialize_database, App.path_exists. rewrite D. reflexivity. }
  rewrite I. cbn [fst snd].
  rewrite (get_schema_info_on_present v empty_db D (Forall_nil _)).
  repeat split.
Qed.

Lemma schema_read_before_setup_prevents_seeding_witness :
  let w := Demo.fresh (Some (txt "key")) (Demo.always "SELECT 1;") Absent in
  let read := snd (DatabaseSetup.get_schema_info (Q:=Demo.sqlite) w) in
  let setup := snd (App.initialize_database read) in
  db_file read = Present empty_db /\
  fst (App.initialize_database read) = Returned tt /\
  db_file setup = Present empty_db /\
  fst (DatabaseSetup.get_schema_info (Q:=Demo.sqlite) setup) = Returned [].
Proof.
  intros w.
  exact (schema_read_before_setup_prevents_seeding (Q:=Demo.sqlite) w eq_refl).
Defined.

(* ================================================================== *)
(** ** The order of the tables in the schema *)

Module Order.

Lemma str_leb_total (a b : str) :
  DatabaseSetup.str_leb a b = true \/ DatabaseSetup.str_leb b a = true.
Proof.
  revert b. induction a as [ | x a IH ]; intros [ | y b ];
    cbn [DatabaseSetup.str_leb]; auto.
  destruct (N.ltb_spec x y) as [ L | L ]; [ auto | ].
  destruct (N.ltb_spec y x) as [ L' | L' ]; [ auto | ].
  apply IH.
Qed.

Lemma insert_sorted_perm (n : str) (l : list str) :
  Permutation (DatabaseSetup.insert_sorted n l) (n :: l).
Proof.
  induction l as [ | m l IH]; [ reflexivity | ].
  cbn [DatabaseSetup.insert_sorted].
  destruct (DatabaseSetup.str_leb n m); [ reflexivity | ].
  rewrite IH. apply perm_swap.
Qed.

Lemma insert_sorted_hd (a n : str) (l : list str) :
  name_le a n -> HdRel name_le a l ->
  HdRel name_le a (DatabaseSetup.insert_sorted n l).
Proof.
  intros A H. destruct l as [ | m l]; cbn [DatabaseSetup.insert_sorted].
  - constructor. exact A.
  - destruct (DatabaseSetup.str_leb n m); constructor; [ exact A | ].
    inversion H; assumption.
Qed.

Lemma insert_sorted_sorted (n : str) (l : list str) :
  Sorted name_le l -> Sorted name_le (DatabaseSetup.insert_sorted n l).
Proof.
  induction l as [ | m l IH]; intros S.
  - repeat constructor.
  - cbn [DatabaseSetup.insert_sorted].
    destruct (DatabaseSetup.str_leb n m) eqn:L.
    + constructor; [ exact S | constructor; exact L ].
    + inversion S as [ | ? ? S' H]; subst. constructor.
      * apply IH, S'.
      * apply insert_sorted_hd; [ | exact H ].
        destruct (str_leb_total n m) as [T | T]; [ | exact T ].
        rewrite T in L. discriminate L.
Qed.

Lemma table_names_perm (d : database) :
  Permutation (DatabaseSetup.table_names d) (map fst d).
Proof.
  unfold DatabaseSetup.table_names, DatabaseSetup.sort_names.
  induction (map fst d) as [ | n l P]; cbn [fold_right]; [ constructor | ].
  rewrite insert_sorted_perm. constructor. exact P.
Qed.

End Order.

(** X9. The table names that [get_schema_info] lists are the names of
    the tables of the database, each as often as it occurs, in ascending
    byte order. *)
Theorem table_names_sorted (d : database) :
  Sorted name_le (DatabaseSetup.table_names d) /\
  Permutation (DatabaseSetup.table_names d) (map fst d).
Proof.
  split; [ | apply Order.table_names_perm ].
  unfold DatabaseSetup.table_names, DatabaseSetup.sort_names.
  induction (map fst d) as [ | n l S]; cbn [fold_right].
  - constructor.
  - apply Order.insert_sorted_sorted, S.
Qed.

(* ================================================================== *)
(** ** The statement handed to the executor *)

Module Clean.

Lemma lstrip_idempotent (s : str) :
  PyStr.lstrip (PyStr.lstrip s) = PyStr.lstrip s.
Proof.
  induction s as [ | c t IH]; [ reflexivity | ].
  destruct (isspace c) eqn:W.
  - rewrite (Trim.lstrip_space _ _ W). exact IH.
  - rewrite !(Trim.lstrip_nonspace _ _ W). reflexivity.
Qed.

Lemma strip_idempotent (s : str) :
  PyStr.strip (PyStr.strip s) = PyStr.strip s.
Proof.
  unfold PyStr.strip.
  rewrite Trim.lstrip_rstrip, lstrip_idempotent. apply Trim.rstrip_idempotent.
Qed.

Lemma fence_codes : SqlAgent.fence = [96; 96; 96]%N.
Proof. reflexivity. Qed.

(** A text that starts with a fence is the fence and a rest. *)
Lemma startswith_fence (s : str) :
  PyStr.startswith s SqlAgent.fence = true ->
  exists t, s = SqlAgent.fence ++ t.
Proof.
  unfold PyStr.startswith. rewrite fence_codes. intros P.
  destruct s as [ | c1 [ | c2 [ | c3 t]]]; cbn [PyStr.prefix] in P;
    try discriminate P;
    try (destruct (N.eqb 96 c1); discriminate P);
    try (destruct (N.eqb 96 c1); destruct (N.eqb 96 c2); discriminate P).
  apply andb_true_iff in P as (E1 & P). apply andb_true_iff in P as (E2 & P).
  apply andb_true_iff in P as (E3 & _).
  apply N.eqb_eq in E1, E2, E3. subst. exists t. reflexivity.
Qed.

(** A text that starts with a fence has a first line that is a fence
    line. *)
Lemma fenced_first_line (s : str) :
  PyStr.startswith s SqlAgent.fence = true ->
  exists l ls, PyStr.split_nl s = l :: ls /\ SqlAgent.fence_line l = true.
Proof.
  intros P. destruct (startswith_fence s P) as (t & ->).
  rewrite fence_codes. cbn [app].
  destruct (Lines.split_nl_cons 96%N t eq_refl) as (l3 & r3 & _ & E3).
  destruct (Lines.split_nl_cons 96%N (96%N :: t) eq_refl)
    as (l2 & r2 & E2' & E2).
  destruct (Lines.split_nl_cons 96%N (96%N :: 96%N :: t) eq_refl)
    as (l1 & r1 & E1' & E1).
  pose proof (eq_trans (eq_sym E3) E2') as X2. injection X2 as <- <-.
  pose proof (eq_trans (eq_sym E2) E1') as X1. injection X1 as <- <-.
  exists (96%N :: 96%N :: 96%N :: l3), r3.
  split; [ exact E1 | ].
  unfold SqlAgent.fence_line, PyStr.strip, PyStr.startswith.
  rewrite Trim.lstrip_nonspace by reflexivity.
  rewrite !Gate.rstrip_nonspace_cons by reflexivity.
  rewrite fence_codes.
  apply (Gate.prefix_app [96; 96; 96]%N).
Qed.

(** A text whose lines hold no fence line does not start with a fence. *)
Lemma fence_free_unfenced (s : str) :
  Forall (fun l => SqlAgent.fence_line l = false) (PyStr.split_nl s) ->
  PyStr.startswith s SqlAgent.fence = false.
Proof.
  intros F. destruct (PyStr.startswith s SqlAgent.fence) eqn:P; [ | reflexivity ].
  destruct (fenced_first_line s P) as (l & ls & E & L).
  rewrite E in F. inversion F as [ | ? ? Fl _]; subst.
  rewrite L in Fl. discriminate Fl.
Qed.

(** The lines of a cleaned text that was fenced hold no fence line. *)
Lemma cleaned_lines_fence_free (raw : str) :
  PyStr.startswith (PyStr.strip raw) SqlAgent.fence = true ->
  Forall (fun l => SqlAgent.fence_line l = false)
         (PyStr.split_nl (SqlAgent.clean_sql raw)).
Proof.
  intros P. unfold SqlAgent.clean_sql. rewrite P.
  apply (kept_lines_fence_free (PyStr.strip raw)).
Qed.

End Clean.

(** X10. Whatever the model wrote, the statement that the clean-up of
    [generate_sql_query] returns has no white space at either end and
    does not start with a fence; cleaning it again changes nothing. *)
Theorem clean_sql_normal_form (raw : str) :
  PyStr.strip (SqlAgent.clean_sql raw) = SqlAgent.clean_sql raw /\
  PyStr.startswith (SqlAgent.clean_sql raw) "```" = false /\
  SqlAgent.clean_sql (SqlAgent.clean_sql raw) = SqlAgent.clean_sql raw.
Proof.
  assert (T : PyStr.strip (SqlAgent.clean_sql raw) = SqlAgent.clean_sql raw).
  { unfold SqlAgent.clean_sql.
    destruct (PyStr.startswith (PyStr.strip raw) SqlAgent.fence);
      apply Clean.strip_idempotent. }
  assert (N : PyStr.startswith (SqlAgent.clean_sql raw) SqlAgent.fence = false).
  { destruct (PyStr.startswith (PyStr.strip raw) SqlAgent.fence) eqn:P.
    - apply Clean.fence_free_unfenced, Clean.cleaned_lines_fence_free, P.
    - unfold SqlAgent.clean_sql. rewrite P. exact P. }
  repeat split; try assumption.
  unfold SqlAgent.clean_sql at 1. rewrite T, N. reflexivity.
Qed.

(* ================================================================== *)
(** ** The retry loop for any number of attempts *)

Section RetryAny.
Context {U : Unicode}.
Variables (max_retries : nat) (prompt : str).

Lemma map_seq_cons (f : nat -> Z) (a k : nat) :
  (f a :: map f (seq (S a) k)) = map f (seq a (S k)).
Proof. reflexivity. Qed.

(** The loop over the attempts [a], [a + 1], ..., [max_retries - 1]. *)
Lemma retry_loop_trace (len : nat) :
  forall (a : nat) (w : world),
    a + len = max_retries ->
    match len with
    | O =>
        SqlAgent.retry_loop max_retries prompt (seq a len) w = (Returned None, w)
    | S _ =>
        exists k, k < len /\
          sleeps (snd (SqlAgent.retry_loop max_retries prompt (seq a len) w)) =
            (sleeps w ++
             map (fun i => (2 ^ (Z.of_nat i + 1))%Z) (seq a k)) /\
          gemini_prompts
            (snd (SqlAgent.retry_loop max_retries prompt (seq a len) w)) =
            (gemini_prompts w ++ repeat prompt (S k)) /\
          fst (SqlAgent.retry_loop max_retries prompt (seq a len) w) <>
            Returned None
    end.
Proof.
  induction len as [ | len IH]; intros a w L; [ reflexivity | ].
  cbn [seq].
  destruct (attempt_outcome w prompt 0) as [t | e] eqn:O.
  { exists 0. rewrite (retry_loop_success _ _ _ _ _ _ O). cbn.
    rewrite app_nil_r. repeat split; [ lia | discriminate ]. }
  destruct ((a <? max_retries - 1)%nat && SqlAgent.transient (str_exn e)) eqn:G.
  2:{ exists 0. rewrite (retry_loop_raise _ _ _ _ _ _ O G). cbn.
      rewrite app_nil_r. repeat split; [ lia | discriminate ]. }
  rewrite (retry_loop_retry _ _ _ _ _ _ O G).
  specialize (IH (S a) (backed_off max_retries a prompt w)).
  destruct len as [ | len'].
  { apply andb_true_iff in G as (G & _). apply Nat.ltb_lt in G. lia. }
  destruct IH as (k & K & Hs & Hp & N); [ lia | ].
  exists (S k). rewrite Hs, Hp. cbn [backed_off log_sleep log_print log_prompt
                                     sleeps gemini_prompts].
  rewrite <- !app_assoc. cbn [app repeat seq map].
  repeat split; [ lia | exact N ].
Qed.

End RetryAny.

(** X11. For any number of attempts allowed, [call_gemini_with_retry]
    sends the prompt at least once and at most that many times, sleeps
    2, 4, 8, ... seconds between consecutive attempts and nothing after
    the last one; with no attempt allowed it calls nothing and returns
    [None]. *)
Theorem call_gemini_with_retry_n_trace {U : Unicode}
    (max_retries : nat) (prompt : str) (w : world) :
  let run := SqlAgent.call_gemini_with_retry_n max_retries prompt w in
  (max_retries = 0 -> run = (Returned None, w)) /\
  (0 < max_retries ->
     exists k, k < max_retries /\
       sleeps (snd run) = (sleeps w ++ backoff_schedule k) /\
       gemini_prompts (snd run) = (gemini_prompts w ++ repeat prompt (S k)) /\
       fst run <> Returned None).
Proof.
  cbv zeta. unfold SqlAgent.call_gemini_with_retry_n, backoff_schedule.
  pose proof (retry_loop_trace max_retries prompt max_retries 0 w eq_refl) as T.
  split.
  - intros ->. exact T.
  - intros P. destruct max_retries; [ lia | exact T ].
Qed.

Lemma call_gemini_with_retry_n_trace_witness :
  let run n := SqlAgent.call_gemini_with_retry_n (U:=Demo.unicode) n "question" in
  let w := Demo.fresh (Some (txt "key")) (Demo.after_failures 3 "SELECT 1;")
                      Absent in
  run 0 w = (Returned None, w) /\
  exists k, k < 5 /\
    sleeps (snd (run 5 w)) = backoff_schedule k /\
    gemini_prompts (snd (run 5 w)) = repeat (txt "question") (S k).
Proof.
  intros run w. unfold run. split.
  - apply (proj1 (call_gemini_with_retry_n_trace (U:=Demo.unicode)
                    0 "question" w)).
    reflexivity.
  - destruct (proj2 (call_gemini_with_retry_n_trace (U:=Demo.unicode)
                       5 "question" w))
      as (k & K & Hs & Hp & _); [ lia | ].
    exists k. auto.
Defined.

(* ================================================================== *)
(** ** The lines of the results text *)

Module ResultLines.

Lemma nl_free_app (a b : str) :
  nl_free (a ++ b) = nl_free a && nl_free b.
Proof.
  induction a as [ | c a IH]; [ reflexivity | ].
  cbn [app nl_free]. rewrite IH. apply andb_assoc.
Qed.

Lemma txt_ascii (c : ascii) (s : string) :
  (N_of_ascii c < 128)%N -> txt (String c s) = N_of_ascii c :: txt s.
Proof.
  intros L. unfold txt. cbn [list_ascii_of_string map decode_utf8].
  apply N.ltb_lt in L. rewrite L. reflexivity.
Qed.

Lemma nl_free_digits (d : Decimal.uint) :
  nl_free (txt (NilEmpty.string_of_uint d)) = true.
Proof.
  induction d; cbn [NilEmpty.string_of_uint]; [ reflexivity | .. ];
    (rewrite txt_ascii by reflexivity); cbn [nl_free]; rewrite IHd;
    reflexivity.
Qed.

Lemma nl_free_of_nat (n : nat) : nl_free (PyStr.of_nat n) = true.
Proof.
  unfold PyStr.of_nat, NilZero.string_of_uint.
  destruct (Nat.to_uint n) eqn:E; try reflexivity;
    rewrite <- E; apply nl_free_digits.
Qed.

(** The lines of joined lines followed by a line feed and a further
    text. *)
Lemma split_join_app (l : str) (ls : list str) (r : str) :
  Forall (fun x => nl_free x = true) (l :: ls) ->
  PyStr.split_nl (PyStr.join_nl (l :: ls) ++ PyStr.nl ++ r) =
    ((l :: ls) ++ PyStr.split_nl r).
Proof.
  revert l. induction ls as [ | l' ls IH]; intros l F.
  - inversion F; subst. apply Lines.split_nl_app. assumption.
  - inversion F as [ | ? ? Fl Fr]; subst.
    rewrite Lines.join_nl_cons.
    replace ((l ++ PyStr.nl ++ PyStr.join_nl (l' :: ls)) ++ PyStr.nl ++ r)
      with (l ++ PyStr.nl ++ (PyStr.join_nl (l' :: ls) ++ PyStr.nl ++ r)).
    + rewrite (Lines.split_nl_app _ _ Fl), (IH _ Fr). reflexivity.
    + generalize (PyStr.join_nl (l' :: ls)). intros j.
      clear. induction l as [ | c l IH]; [ reflexivity | ].
      cbn [app]. f_equal. exact IH.
Qed.

End ResultLines.

Section ResultsLines.
Context {R : Repr}.

(** X12. When the rendering of a row holds no line feed, the lines of
    the results text are the renderings of the first 50 rows, one per
    line and in order, followed for more than 50 rows by the one line of
    the note: at most 51 lines, however many rows there are. *)
Theorem results_str_lines (rs : list row) :
  (forall r, nl_free (str_row r) = true) ->
  (List.length (PyStr.split_nl (SqlAgent.results_str rs)) <= 51)%nat /\
  (rs <> [] -> (List.length rs <= 50)%nat ->
     PyStr.split_nl (SqlAgent.results_str rs) = map str_row rs) /\
  ((50 < List.length rs)%nat ->
     PyStr.split_nl (SqlAgent.results_str rs) =
       (map str_row (firstn 50 rs) ++
        [txt "... and " ++ PyStr.of_nat (List.length rs - 50) ++
         txt " more rows"])).
Proof.
  intros Hr.
  assert (F : forall l : list row, Forall (fun x => nl_free x = true) (map str_row l)).
  { intros l. apply Forall_forall. intros x I. apply in_map_iff in I as (r & <- & _).
    apply Hr. }
  assert (Small : rs <> [] -> (List.length rs <= 50)%nat ->
                  PyStr.split_nl (SqlAgent.results_str rs) = map str_row rs).
  { intros N L. unfold SqlAgent.results_str.
    destruct rs as [ | r rs']; [ contradiction | ].
    rewrite firstn_all2 by exact L. apply Nat.ltb_ge in L. rewrite L.
    cbn [map]. apply Lines.split_join. apply (F (r :: rs')). }
  assert (Large : (50 < List.length rs)%nat ->
                  PyStr.split_nl (SqlAgent.results_str rs) =
                  (map str_row (firstn 50 rs) ++
                   [txt "... and " ++ PyStr.of_nat (List.length rs - 50) ++
                    txt " more rows"])).
  { intros L. unfold SqlAgent.results_str.
    destruct rs as [ | r rs']; [ cbn in L; lia | ].
    apply Nat.ltb_lt in L. rewrite L.
    change (firstn 50 (r :: rs')) with (r :: firstn 49 rs'). cbn [map].
    rewrite ResultLines.split_join_app by apply (F (r :: firstn 49 rs')).
    rewrite Lines.split_nl_free; [ reflexivity | ].
    rewrite !ResultLines.nl_free_app, ResultLines.nl_free_of_nat. reflexivity. }
  split; [ | split; assumption ].
  destruct (Nat.le_gt_cases (List.length rs) 50) as [L | L].
  - destruct rs as [ | r rs']; [ cbn; lia | ].
    rewrite Small by (discriminate || exact L). rewrite length_map.
    cbn [List.length] in *. lia.
  - rewrite (Large L), length_app, length_map, length_firstn.
    cbn [List.length]. lia.
Qed.

End ResultsLines.

Lemma results_str_lines_witness :
  let results_str := SqlAgent.results_str (R:=Demo.repr) in
  List.length (PyStr.split_nl (results_str Demo.seventy_five_rows)) = 51%nat /\
  PyStr.split_nl (results_str [[VInt 1]; [VInt 2; VInt 3]]) =
    [txt "(1 values)"; txt "(2 values)"].
Proof.
  intros results_str. unfold results_str.
  assert (Hr : forall r, nl_free (str_row (Repr:=Demo.repr) r) = true).
  { intros r. cbn [str_row Demo.repr].
    rewrite !ResultLines.nl_free_app, ResultLines.nl_free_of_nat. reflexivity. }
  destruct (results_str_lines (R:=Demo.repr) Demo.seventy_five_rows Hr)
    as (_ & _ & L).
  destruct (results_str_lines (R:=Demo.repr) [[VInt 1]; [VInt 2; VInt 3]] Hr)
    as (_ & S & _).
  split.
  - rewrite L by (cbn; lia). reflexivity.
  - rewrite S; [ reflexivity | discriminate | cbn; lia ].
Defined.

(* ================================================================== *)
(** ** The pipeline from end to end *)

Section StageFacts.
Context {U : Unicode} {Q : SqliteSyntax}.

Lemma attempt_outcome_same (w v : world) (p : str) (k : nat) :
  gemini v = gemini w -> gemini_prompts v = gemini_prompts w ->
  attempt_outcome v p k = attempt_outcome w p k.
Proof. unfold attempt_outcome. intros -> ->. reflexivity. Qed.

(** The first attempt of a call succeeds: nothing is retried. *)
Lemma call_gemini_with_retry_first (p : str) (w : world) (t : str) :
  attempt_outcome w p 0 = Responds t ->
  SqlAgent.call_gemini_with_retry p w =
    (Returned (Some (SqlAgent.mkResponse t)), log_prompt p w).
Proof. apply (proj1 (call_gemini_with_retry_cases p w)). Qed.

(** The translation stage with a usable key, a database and a model
    that answers at once. *)
Lemma generate_sql_query_success (q : str) (w : world) (d : database) (t : str) :
  SqlAgent.key_rejected (api_key w) = false ->
  db_file w = Present d ->
  Forall reads_as_spelt (DatabaseSetup.table_names d) ->
  attempt_outcome w (SqlAgent.format_sql_prompt (DatabaseSetup.render_schema d) q) 0
    = Responds t ->
  SqlAgent.generate_sql_query q w =
    (Returned (SqlAgent.clean_sql t),
     log_prompt (SqlAgent.format_sql_prompt (DatabaseSetup.render_schema d) q)
       (closed_connection (opened_connection (set_genai_key (api_key w) w)))).
Proof.
  intros K E Hd O.
  unfold SqlAgent.generate_sql_query, SqlAgent.get_gemini_model.
  unfold bind at 1. rewrite (configure_gemini_accepts w K).
  unfold bind at 1.
  rewrite (get_schema_info_on_present (set_genai_key (api_key w) w) d E Hd).
  unfold bind at 1.
  erewrite call_gemini_with_retry_first;
    [ reflexivity | rewrite <- O; apply attempt_outcome_same; reflexivity ].
Qed.

(** The execution stage on an accepted statement and a database. *)
Lemma execute_sql_query_on_present (s : str) (w : world) (d : database) :
  SqlAgent.is_select s = true ->
  db_file w = Present d ->
  SqlAgent.execute_sql_query s w =
    (match engine w d s with
     | ExecRows cols rs => Returned (cols, rs)
     | ExecError msg =>
         Raised (mkExn RuntimeError (txt "SQL execution error: " ++ msg))
     end,
     closed_connection (opened_connection w)).
Proof.
  intros G E. rewrite (execute_sql_query_accepts s w G).
  unfold bind, DatabaseSetup.connect. rewrite E.
  unfold try_finally, try_except, SqlAgent.cursor_execute.
  cbn [db_file opened_connection engine]. rewrite E.
  destruct (engine w d s); reflexivity.
Qed.

End StageFacts.

Section EndToEnd.
Context {U : Unicode} {Q : SqliteSyntax} {R : Repr}.

(** The synthesis stage with a usable key and a model that answers at
    once. *)
Lemma generate_natural_answer_success
    (q sql : str) (cols : list str) (rs : list row) (w : world) (t : str) :
  SqlAgent.key_rejected (api_key w) = false ->
  attempt_outcome w (SqlAgent.format_answer_prompt q sql (SqlAgent.results_str rs)
                                                   (str_columns cols)) 0
    = Responds t ->
  SqlAgent.generate_natural_answer q sql cols rs w =
    (Returned (PyStr.strip t),
     log_prompt (SqlAgent.format_answer_prompt q sql (SqlAgent.results_str rs)
                                               (str_columns cols))
       (set_genai_key (api_key w) w)).
Proof.
  intros K O.
  unfold SqlAgent.generate_natural_answer, SqlAgent.get_gemini_model.
  unfold bind at 1. rewrite (configure_gemini_accepts w K).
  unfold bind at 1.
  erewrite call_gemini_with_retry_first;
    [ reflexivity | rewrite <- O; apply attempt_outcome_same; reflexivity ].
Qed.

(** X13. With a usable key, an existing database whose table names
    SQLite reads as they are spelt and a model that answers both prompts
    at once, [ask_question] returns the cleaned
    statement, the columns and rows of the engine, the trimmed answer and
    no error.  It has sent exactly two prompts (the statement prompt with
    the schema and the question, the answer prompt with the results
    text), slept nothing, opened and closed two connections and left the
    database as it was. *)
Theorem ask_question_success
    (q : str) (w : world) (d : database)
    (t1 t2 : str) (cols : list str) (rs : list row) :
  let p1 := SqlAgent.format_sql_prompt (DatabaseSetup.render_schema d) q in
  let sql := SqlAgent.clean_sql t1 in
  let p2 := SqlAgent.format_answer_prompt q sql (SqlAgent.results_str rs)
                                          (str_columns cols) in
  SqlAgent.key_rejected (api_key w) = false ->
  db_file w = Present d ->
  Forall reads_as_spelt (DatabaseSetup.table_names d) ->
  attempt_outcome w p1 0 = Responds t1 ->
  SqlAgent.is_select sql = true ->
  engine w d sql = ExecRows cols rs ->
  attempt_outcome w p2 1 = Responds t2 ->
  exists v,
    SqlAgent.ask_question q w =
      (Returned (answer_record q (PStr sql) (PStrList cols) (PRows rs)
                               (PStr (PyStr.strip t2)) PNone), v) /\
    gemini_prompts v = (gemini_prompts w ++ [p1; p2]) /\
    sleeps v = sleeps w /\
    db_file v = Present d /\
    connects v = S (S (connects w)) /\
    open_connections v = open_connections w.
Proof.
  intros p1 sql p2 K E Hd O1 G X O2.
  rewrite ask_question_run, (generate_sql_query_success q w d t1 K E Hd O1).
  fold p1. fold sql.
  set (w1 := log_prompt p1
               (closed_connection (opened_connection (set_genai_key (api_key w) w)))).
  assert (E1 : db_file w1 = Present d) by exact E.
  rewrite (execute_sql_query_on_present sql w1 d G E1).
  change (engine w1) with (engine w). rewrite X.
  set (w2 := closed_connection (opened_connection w1)).
  cbn [fst snd].
  assert (K2 : SqlAgent.key_rejected (api_key w2) = false) by exact K.
  assert (O2' : attempt_outcome w2 p2 0 = Responds t2).
  { rewrite <- O2. unfold attempt_outcome, w2, w1.
    cbn [gemini gemini_prompts closed_connection opened_connection log_prompt
         set_genai_key].
    rewrite length_app. cbn [List.length]. f_equal. lia. }
  rewrite (generate_natural_answer_success q sql cols rs w2 t2 K2 O2').
  fold p2. eexists. split; [ reflexivity | ].
  unfold w2, w1.
  cbn [gemini_prompts sleeps db_file connects open_connections log_prompt
       closed_connection opened_connection set_genai_key Nat.pred].
  rewrite <- app_assoc. repeat split. exact E.
Qed.

(** X14. With a usable key and an existing database whose table names
    SQLite reads as they are spelt, when the model answers the statement
    prompt with a text whose cleaned form does not pass the gate, [ask_question] returns the
    statement with the policy error and no rows or answer; the only
    prompt sent is the statement prompt, the only connection was the one
    of the schema read, and the database is as before: the statement has
    not reached the engine. *)
Theorem ask_question_rejects_generated_non_select
    (q : str) (w : world) (d : database) (t : str) :
  let p := SqlAgent.format_sql_prompt (DatabaseSetup.render_schema d) q in
  SqlAgent.key_rejected (api_key w) = false ->
  db_file w = Present d ->
  Forall reads_as_spelt (DatabaseSetup.table_names d) ->
  attempt_outcome w p 0 = Responds t ->
  SqlAgent.is_select (SqlAgent.clean_sql t) = false ->
  exists v,
    SqlAgent.ask_question q w =
      (Returned (answer_record q (PStr (SqlAgent.clean_sql t)) PNone PNone PNone
                               (PStr SqlAgent.not_select_message)), v) /\
    gemini_prompts v = (gemini_prompts w ++ [p]) /\
    db_file v = Present d /\
    connects v = S (connects w) /\
    open_connections v = open_connections w.
Proof.
  intros p K E Hd O G.
  rewrite ask_question_run, (generate_sql_query_success q w d t K E Hd O).
  unfold SqlAgent.execute_sql_query at 1. rewrite G. cbn [negb raise].
  unfold raise. eexists. split; [ reflexivity | ].
  cbn [gemini_prompts db_file connects open_connections log_prompt
       closed_connection opened_connection set_genai_key Nat.pred].
  repeat split. exact E.
Qed.

End EndToEnd.

(** The names of the sample schema are plain identifiers. *)
Lemma seeded_names_spelt :
  Forall (reads_as_spelt (Q:=Demo.sqlite))
         (DatabaseSetup.table_names DatabaseSetup.seeded_database).
Proof. repeat (apply Forall_cons; [ reflexivity | ]). apply Forall_nil. Qed.

Lemma ask_question_success_witness :
  let nbsp := [160%N] in
  let reply := nbsp ++ txt "  select n from t;  " ++ nbsp in
  let w := Demo.fresh (Some (txt "key")) (Demo.always reply)
                      (Present DatabaseSetup.seeded_database) in
  exists v,
    SqlAgent.ask_question (U:=Demo.unicode) (Q:=Demo.sqlite) (R:=Demo.repr)
                          "How many?" w =
      (Returned (answer_record "How many?" (PStr "select n from t;")
                               (PStrList [txt "n"]) (PRows [[VInt 5]])
                               (PStr "select n from t;") PNone), v) /\
    List.length (gemini_prompts v) = 2 /\
    sleeps v = [] /\
    db_file v = Present DatabaseSetup.seeded_database /\
    connects v = 2 /\
    open_connections v = 0.
Proof.
  intros nbsp reply w.
  destruct (ask_question_success (U:=Demo.unicode) (Q:=Demo.sqlite)
              (R:=Demo.repr) "How many?" w
              DatabaseSetup.seeded_database
              reply reply [txt "n"] [[VInt 5]]
              eq_refl eq_refl seeded_names_spelt eq_refl eq_refl eq_refl eq_refl)
    as (v & A & P & S & D & C & O).
  exists v. rewrite P.
  split; [ exact A | split; [ reflexivity | ] ].
  split; [ exact S | split; [ exact D | split; [ exact C | exact O ] ] ].
Defined.

Lemma ask_question_rejects_generated_non_select_witness :
  let w := Demo.fresh (Some (txt "key")) (Demo.always "DELETE FROM employees;")
                      (Present DatabaseSetup.seeded_database) in
  exists v,
    SqlAgent.ask_question (U:=Demo.unicode) (Q:=Demo.sqlite) (R:=Demo.repr)
                          "Remove everyone" w =
      (Returned (answer_record "Remove everyone" (PStr "DELETE FROM employees;")
                               PNone PNone PNone
                               (PStr SqlAgent.not_select_message)), v) /\
    List.length (gemini_prompts v) = 1 /\
    db_file v = Present DatabaseSetup.seeded_database /\
    connects v = 1.
Proof.
  intros w.
  destruct (ask_question_rejects_generated_non_select (U:=Demo.unicode)
              (Q:=Demo.sqlite) (R:=Demo.repr)
              "Remove everyone" w DatabaseSetup.seeded_database
              "DELETE FROM employees;" eq_refl eq_refl seeded_names_spelt
              eq_refl eq_refl)
    as (v & A & P & D & C & _).
  exists v. rewrite P.
  split; [ exact A | split; [ reflexivity | split; [ exact D | exact C ] ] ].
Defined.

(* ================================================================== *)
(** ** The question form *)

Section Form.
Context {U : Unicode} {Q : SqliteSyntax} {R : Repr}.

(** [ask_question] returns a record that holds the question. *)
Lemma ask_question_returns (q : str) (w : world) :
  exists d v,
    SqlAgent.ask_question q w = (Returned d, v) /\
    dict_get "question" d = Some (PStr q) /\
    dict_keys d = record_keys /\
    (dict_get "error" d = Some PNone \/
     exists msg, dict_get "error" d = Some (PStr msg) /\
                 dict_get "answer" d = Some PNone).
Proof.
  rewrite ask_question_run.
  destruct (SqlAgent.generate_sql_query q w) as [[sql | e] w1].
  2:{ do 2 eexists. repeat split. right. eexists. split; reflexivity. }
  destruct (SqlAgent.execute_sql_query sql w1) as [[cr | e] w2].
  2:{ do 2 eexists. repeat split. right. eexists. split; reflexivity. }
  destruct (SqlAgent.generate_natural_answer q sql (fst cr) (snd cr) w2)
    as [[a | e] w3].
  - do 2 eexists. repeat split. left. reflexivity.
  - do 2 eexists. repeat split. right. eexists. split; reflexivity.
Qed.

(** X15. The form asks only when the button was pressed and the text
    is not blank: otherwise nothing is sent and the history is as before
    (with the button pressed, the warning is shown).  When it asks, the
    question put to the pipeline and stored in the record is the trimmed
    text, and that record is appended to the history, whose earlier
    entries stay. *)
Theorem process_question_guard
    (ask_button : bool) (user_question : str) (w : world) (history : list dict) :
  let run := AppMain.process_question ask_button user_question (w, history) in
  (ask_button = false -> run = (Returned AppMain.NotAsked, (w, history))) /\
  (ask_button = true -> PyStr.strip user_question = [] ->
     run = (Returned AppMain.Warned, (w, history))) /\
  (ask_button = true -> PyStr.strip user_question <> [] ->
     exists d v,
       SqlAgent.ask_question (PyStr.strip user_question) w = (Returned d, v) /\
       run = (Returned (AppMain.Asked d), (v, (history ++ [d]))) /\
       dict_get "question" d = Some (PStr (PyStr.strip user_question))).
Proof.
  cbv zeta. unfold AppMain.process_question. split; [ | split ].
  - intros ->. reflexivity.
  - intros -> ->. reflexivity.
  - intros -> N.
    destruct (PyStr.strip user_question) as [ | c t] eqn:S; [ contradiction | ].
    cbn [andb PyStr.truthy].
    destruct (ask_question_returns (c :: t) w) as (d & v & A & Hq & _).
    exists d, v. split; [ exact A | split; [ | exact Hq ] ].
    unfold bind, AppMain.with_history, modify, ret. cbn [fst snd].
    rewrite A. reflexivity.
Qed.

(** X16. The display of a record of [ask_question] never fails on a
    missing key.  It is the error view exactly when the record holds an
    error message that is not the empty text; a failure whose message is
    empty is displayed as an answer, with no answer text. *)
Theorem result_view_of_answer (q : str) (w : world) :
  exists d view,
    fst (SqlAgent.ask_question q w) = Returned d /\
    AppMain.result_view d = Some view /\
    (forall msg, dict_get "error" d = Some (PStr msg) -> msg <> [] ->
                 view = AppMain.ErrorView (PStr msg)) /\
    (dict_get "error" d = Some (PStr []) ->
       exists sql_query table, view = AppMain.AnswerView sql_query table PNone) /\
    (dict_get "error" d = Some PNone ->
       exists sql_query table answer,
         view = AppMain.AnswerView sql_query table answer /\
         dict_get "answer" d = Some answer).
Proof.
  rewrite ask_question_run.
  assert (V : forall sql cols rs ans err,
            exists view,
              AppMain.result_view (answer_record q sql cols rs ans err) = Some view /\
              (forall msg, err = PStr msg -> msg <> [] ->
                           view = AppMain.ErrorView (PStr msg)) /\
              (err = PStr [] ->
                 exists s t, view = AppMain.AnswerView s t ans) /\
              (err = PNone -> exists s t, view = AppMain.AnswerView s t ans)).
  { intros sql cols rs ans err. unfold AppMain.result_view, answer_record.
    cbn [dict_get String.eqb Ascii.eqb Bool.eqb].
    destruct err as [ | [ | c m] | l | l ].
    - cbn [py_truthy]. destruct (py_truthy rs); eexists;
        (split; [ reflexivity | ]); repeat split; try discriminate; eauto.
    - cbn [py_truthy PyStr.truthy]. destruct (py_truthy rs); eexists;
        (split; [ reflexivity | ]); repeat split; try discriminate; eauto;
        intros msg E N; injection E as <-; contradiction.
    - cbn [py_truthy PyStr.truthy]. eexists. split; [ reflexivity | ].
      repeat split; try discriminate. intros msg E _. exact (f_equal _ E).
    - destruct l; cbn [py_truthy]; [ destruct (py_truthy rs) | ]; eexists;
        (split; [ reflexivity | ]); repeat split; discriminate.
    - destruct l; cbn [py_truthy]; [ destruct (py_truthy rs) | ]; eexists;
        (split; [ reflexivity | ]); repeat split; discriminate. }
  assert (G : forall sql cols rs ans err (v : world),
            (err = PNone \/ ans = PNone) ->
            exists d view,
              fst (Returned (answer_record q sql cols rs ans err), v) = Returned d /\
              AppMain.result_view d = Some view /\
              (forall msg, dict_get "error" d = Some (PStr msg) ->
                           msg <> [] ->
                           view = AppMain.ErrorView (PStr msg)) /\
              (dict_get "error" d = Some (PStr []) ->
                 exists s t, view = AppMain.AnswerView s t PNone) /\
              (dict_get "error" d = Some PNone ->
                 exists s t a, view = AppMain.AnswerView s t a /\
                               dict_get "answer" d = Some a)).
  { intros sql cols rs ans err v O.
    destruct (V sql cols rs ans err) as (view & Hv & A & B & C).
    exists (answer_record q sql cols rs ans err), view.
    split; [ reflexivity | split; [ exact Hv | ] ].
    cbn [answer_record dict_get String.eqb Ascii.eqb Bool.eqb].
    repeat split.
    - intros msg E. injection E as ->. apply A. reflexivity.
    - intros E. injection E as ->. destruct O as [O | ->]; [ discriminate O | ].
      apply B. reflexivity.
    - intros E. injection E as ->. destruct (C eq_refl) as (s & t & ->).
      exists s, t, ans. split; reflexivity. }
  destruct (SqlAgent.generate_sql_query q w) as [[sql | e] w1];
    [ | apply G; auto ].
  destruct (SqlAgent.execute_sql_query sql w1) as [[cr | e] w2];
    [ | apply G; auto ].
  destruct (SqlAgent.generate_natural_answer q sql (fst cr) (snd cr) w2)
    as [[a | e] w3]; apply G; auto.
Qed.

End Form.

Lemma process_question_guard_witness :
  let run := AppMain.process_question (U:=Demo.unicode) (Q:=Demo.sqlite)
               (R:=Demo.repr) in
  let w := Demo.fresh None (Demo.always "SELECT 1;") Absent in
  run false "ignored" (w, []) = (Returned AppMain.NotAsked, (w, [])) /\
  run true "   " (w, []) = (Returned AppMain.Warned, (w, [])) /\
  run true [160%N] (w, []) = (Returned AppMain.Warned, (w, [])) /\
  exists d v,
    run true "  Who?  " (w, []) = (Returned (AppMain.Asked d), (v, [d])) /\
    dict_get "question" d = Some (PStr "Who?").
Proof.
  intros run w. unfold run.
  destruct (process_question_guard (U:=Demo.unicode) (Q:=Demo.sqlite)
              (R:=Demo.repr) false "ignored" w []) as (N & _).
  destruct (process_question_guard (U:=Demo.unicode) (Q:=Demo.sqlite)
              (R:=Demo.repr) true "   " w []) as (_ & B & _).
  destruct (process_question_guard (U:=Demo.unicode) (Q:=Demo.sqlite)
              (R:=Demo.repr) true [160%N] w []) as (_ & B' & _).
  destruct (process_question_guard (U:=Demo.unicode) (Q:=Demo.sqlite)
              (R:=Demo.repr) true "  Who?  " w []) as (_ & _ & A).
  split; [ exact (N eq_refl) | ].
  split; [ exact (B eq_refl eq_refl) | ].
  split; [ exact (B' eq_refl eq_refl) | ].
  destruct (A eq_refl) as (d & v & _ & E & Hq); [ discriminate | ].
  exists d, v. split; [ exact E | exact Hq ].
Defined.

Lemma result_view_of_answer_witness :
  let silent := Demo.fresh (Some (txt "key"))
                  (fun _ _ => Fails (mkExn ServiceError []))
                  (Present DatabaseSetup.seeded_database) in
  exists d view,
    fst (SqlAgent.ask_question (U:=Demo.unicode) (Q:=Demo.sqlite)
           (R:=Demo.repr) "Who?" silent) = Returned d /\
    dict_get "error" d = Some (PStr []) /\
    AppMain.result_view d = Some view /\
    exists sql_query table, view = AppMain.AnswerView sql_query table PNone.
Proof.
  intros silent.
  destruct (result_view_of_answer (U:=Demo.unicode) (Q:=Demo.sqlite)
              (R:=Demo.repr) "Who?" silent)
    as (d & view & A & V & _ & E & _).
  exists d, view.
  assert (D : dict_get "error" d = Some (PStr [])).
  { vm_compute in A. injection A as <-. reflexivity. }
  split; [ exact A | split; [ exact D | split; [ exact V | exact (E D) ] ] ].
Defined.

(* ================================================================== *)
(** ** The schema text read back by the sidebar *)

Module SidebarFacts.

Lemma tight_cons2 (c c' : codepoint) (t : str) :
  tight ((c :: ((c' :: t)))) =
  negb (N.eqb c PyStr.nl_char && N.eqb c' PyStr.nl_char) &&
  tight ((c' :: t)).
Proof. reflexivity. Qed.

Lemma split_blank_cons2 (c c' : codepoint) (t : str) :
  Sidebar.split_blank ((c :: ((c' :: t)))) =
  if N.eqb c PyStr.nl_char && N.eqb c' PyStr.nl_char
  then [] :: Sidebar.split_blank t
  else Sidebar.cons_head c (Sidebar.split_blank ((c' :: t))).
Proof. reflexivity. Qed.

(** A tight piece followed by two line feeds is split off as it is. *)
Lemma split_blank_tight_app (b r : str) :
  tight b = true ->
  Sidebar.split_blank (b ++ (PyStr.nl_char :: (PyStr.nl_char :: r))) =
    b :: Sidebar.split_blank r.
Proof.
  induction b as [ | c t IH]; intros T; [ reflexivity | ].
  destruct t as [ | c' t'].
  - cbn [tight] in T. apply negb_true_iff in T.
    cbn [app]. rewrite split_blank_cons2, T. cbn [andb].
    change ((PyStr.nl_char :: (PyStr.nl_char :: r)))
      with ([] ++ (PyStr.nl_char :: (PyStr.nl_char :: r))).
    rewrite IH by reflexivity. reflexivity.
  - rewrite tight_cons2 in T. apply andb_true_iff in T as (N & T).
    apply negb_true_iff in N.
    cbn [app]. rewrite split_blank_cons2, N.
    change ((c' :: (t' ++ (PyStr.nl_char :: (PyStr.nl_char :: r)))))
      with ((c' :: t') ++ (PyStr.nl_char :: (PyStr.nl_char :: r))).
    rewrite (IH T). reflexivity.
Qed.

Lemma split_blank_tight (b : str) :
  tight b = true -> Sidebar.split_blank b = [b].
Proof.
  induction b as [ | c t IH]; intros T; [ reflexivity | ].
  destruct t as [ | c' t']; [ reflexivity | ].
  rewrite tight_cons2 in T. apply andb_true_iff in T as (N & T).
  apply negb_true_iff in N.
  rewrite split_blank_cons2, N, (IH T). reflexivity.
Qed.

(** Splitting the joined blocks gives the blocks back. *)
Lemma split_blank_join (b : str) (bs : list str) :
  Forall (fun x => tight x = true) (b :: bs) ->
  Sidebar.split_blank (DatabaseSetup.join_blank (b :: bs)) = b :: bs.
Proof.
  revert b. induction bs as [ | b' bs IH]; intros b F.
  - inversion F; subst. apply split_blank_tight. assumption.
  - inversion F as [ | ? ? Fb Fr]; subst.
    change (DatabaseSetup.join_blank (b :: b' :: bs))
      with (b ++ PyStr.nl_char :: PyStr.nl_char ::
                  DatabaseSetup.join_blank (b' :: bs)).
    rewrite (split_blank_tight_app _ _ Fb), (IH _ Fr). reflexivity.
Qed.

Lemma solid_line (l : str) :
  nl_free l = true -> l <> [] -> solid l.
Proof.
  intros F N. destruct l as [ | c t]; [ contradiction | ]. clear N.
  split.
  - revert c F. induction t as [ | c' t IH]; intros c F.
    + cbn [nl_free] in F. cbn [tight]. apply andb_true_iff in F. apply F.
    + cbn [nl_free] in F. apply andb_true_iff in F as (N & F).
      rewrite tight_cons2, (IH c' F). apply negb_true_iff in N.
      rewrite N. reflexivity.
  - exists c, t. split; [ reflexivity | ].
    cbn [nl_free] in F. apply andb_true_iff in F as (F & _).
    apply negb_true_iff, F.
Qed.

Lemma solid_app (l r : str) :
  nl_free l = true -> l <> [] -> solid r ->
  solid (l ++ PyStr.nl ++ r).
Proof.
  intros F N (T & c0 & t0 & -> & C0).
  destruct l as [ | c t]; [ contradiction | ]. clear N.
  split.
  - revert c F. induction t as [ | c' t IH]; intros c F.
    + cbn [nl_free] in F. apply andb_true_iff in F as (N & _).
      apply negb_true_iff in N.
      change ((c :: []) ++ PyStr.nl ++ (c0 :: t0))
        with ((c :: ((PyStr.nl_char :: (c0 :: t0))))).
      rewrite !tight_cons2, N, C0, T. reflexivity.
    + cbn [nl_free] in F. apply andb_true_iff in F as (N & F).
      apply negb_true_iff in N.
      change ((c :: ((c' :: t))) ++ PyStr.nl ++ (c0 :: t0))
        with ((c :: ((c' :: (t ++ PyStr.nl ++ (c0 :: t0)))))).
      rewrite tight_cons2, N. cbn [andb negb].
      exact (IH c' F).
  - exists c, (t ++ PyStr.nl ++ (c0 :: t0)). split; [ reflexivity | ].
    cbn [nl_free] in F. apply andb_true_iff in F as (F & _).
    apply negb_true_iff, F.
Qed.

(** Lines that are not empty and hold no line feed join to a tight text. *)
Lemma solid_join (l : str) (ls : list str) :
  Forall (fun x => nl_free x = true /\ x <> []) (l :: ls) ->
  solid (PyStr.join_nl (l :: ls)).
Proof.
  revert l. induction ls as [ | l' ls IH]; intros l F.
  - inversion F as [ | ? ? (Fl & Nl) _]; subst. apply solid_line; assumption.
  - inversion F as [ | ? ? (Fl & Nl) Fr]; subst.
    rewrite Lines.join_nl_cons. apply solid_app; auto.
Qed.

Lemma replace_from_absent (old : str) (s : str) :
  PyStr.contains old s = false ->
  Sidebar.replace_from old [] 0 s = s.
Proof.
  induction s as [ | c t IH]; [ reflexivity | ].
  cbn [PyStr.contains]. intros C. apply orb_false_iff in C as (P & C).
  cbn [Sidebar.replace_from]. rewrite P, (IH C). reflexivity.
Qed.

(** The title line gives the name back. *)
Lemma replace_title (n : str) :
  PyStr.contains "Table: " n = false ->
  Sidebar.replace (txt "Table: " ++ n) "Table: " [] = n.
Proof.
  intros C. rewrite <- (replace_from_absent "Table: " n C) at 2.
  reflexivity.
Qed.

Lemma rstrip_app (a b : str) :
  PyStr.rstrip b <> [] ->
  PyStr.rstrip (a ++ b) = a ++ PyStr.rstrip b.
Proof.
  intros N. induction a as [ | c a IH]; [ reflexivity | ].
  cbn [app]. rewrite Trim.rstrip_cons, IH.
  destruct (a ++ PyStr.rstrip b) as [ | x y] eqn:E; [ | reflexivity ].
  destruct a; [ | discriminate E ]. cbn in E. contradiction.
Qed.

Lemma join_nl_snoc (ls : list str) :
  exists pre, forall x, PyStr.join_nl (ls ++ [x]) = pre ++ x.
Proof.
  induction ls as [ | l ls (pre & IH)].
  - exists []. reflexivity.
  - exists (l ++ PyStr.nl ++ pre). intros x.
    cbn [app]. destruct (ls ++ [x]) as [ | y ys] eqn:E.
    + destruct ls; discriminate E.
    + rewrite Lines.join_nl_cons, <- E, IH.
      clear. induction l as [ | c l IHl]; [ reflexivity | ].
      cbn [app]. f_equal. exact IHl.
Qed.

Lemma nl_free_rstrip (x : str) :
  nl_free x = true -> nl_free (PyStr.rstrip x) = true.
Proof.
  intros F. destruct (Gate.rstrip_decompose x) as (post & _ & E).
  rewrite E, ResultLines.nl_free_app in F. apply andb_true_iff in F. apply F.
Qed.

Lemma rstrip_col_detail (c : column) :
  PyStr.rstrip (DatabaseSetup.col_detail c) <> [].
Proof.
  unfold DatabaseSetup.col_detail.
  set (rest := col_name c ++ _).
  change (txt "    - " ++ rest)
    with ([32; 32; 32; 32]%N ++ 45%N :: 32%N :: rest).
  rewrite rstrip_app.
  - discriminate.
  - rewrite Gate.rstrip_nonspace_cons by reflexivity. discriminate.
Qed.

Lemma nl_free_col_detail (c : column) :
  nl_free (col_name c) = true -> nl_free (col_type c) = true ->
  nl_free (DatabaseSetup.col_detail c) = true.
Proof.
  intros N T. unfold DatabaseSetup.col_detail.
  rewrite !ResultLines.nl_free_app, N, T.
  destruct (col_pk c), (col_notnull c); reflexivity.
Qed.

(** The table that SQLite finds under a name of the database. *)
Lemma find_table_in (n : str) (d : database) :
  In n (map fst d) -> exists m t, find_table n d = Some t /\ In (m, t) d.
Proof.
  induction d as [ | [m t] d IH]; [ intros [] | ].
  cbn [map fst find_table]. destruct (name_eqb m n) eqn:E.
  - intros _. exists m, t. split; [ reflexivity | left; reflexivity ].
  - intros [I | I].
    + subst m. rewrite Tables.name_eqb_refl in E. discriminate E.
    + destruct (IH I) as (m' & t' & F & I'). exists m', t'.
      split; [ exact F | right; exact I' ].
Qed.

(** The block of a table with a plain name and plain columns is read
    back as the name and the trimmed lines of the columns. *)
Lemma sidebar_block_table (n : str) (t : table) :
  nl_free n = true -> PyStr.contains "Table: " n = false -> plain_columns t ->
  solid (DatabaseSetup.table_block n (tbl_columns t)) /\
  Sidebar.sidebar_block (DatabaseSetup.table_block n (tbl_columns t)) =
    [(n, map (fun c => PyStr.strip (DatabaseSetup.col_detail c)) (tbl_columns t))].
Proof.
  intros Nn Cn (Ne & Fc).
  unfold DatabaseSetup.table_block.
  set (title := txt "Table: " ++ n).
  assert (Ft : nl_free title = true)
    by (unfold title; rewrite ResultLines.nl_free_app, Nn; reflexivity).
  assert (Fl : Forall (fun x => nl_free x = true)
                      (map DatabaseSetup.col_detail (tbl_columns t))).
  { apply Forall_forall. intros x I. apply in_map_iff in I as (c & <- & I).
    rewrite Forall_forall in Fc. destruct (Fc c I).
    apply nl_free_col_detail; assumption. }
  destruct (exists_last Ne) as (cols & last & E). rewrite E in *.
  rewrite map_app in *. cbn [map] in *.
  set (details := map DatabaseSetup.col_detail cols) in *.
  assert (J : txt "Table: " ++ n ++ PyStr.nl ++
              PyStr.join_nl (details ++ [DatabaseSetup.col_detail last]) =
              PyStr.join_nl (title :: details ++ [DatabaseSetup.col_detail last])).
  { destruct (details ++ [DatabaseSetup.col_detail last]) as [ | y ys] eqn:Y.
    - destruct details; discriminate Y.
    - rewrite Lines.join_nl_cons. unfold title.
      rewrite <- app_assoc. reflexivity. }
  rewrite J. split.
  - apply solid_join. constructor.
    + split; [ exact Ft | discriminate ].
    + apply Forall_forall. intros x I. split.
      * rewrite Forall_forall in Fl. apply Fl, I.
      * apply in_app_or in I as [I | [<- | []]].
        -- apply in_map_iff in I as (c & <- & _). discriminate.
        -- discriminate.
  - unfold Sidebar.sidebar_block, PyStr.strip.
    set (tail := details ++ [DatabaseSetup.col_detail last]).
    assert (L : PyStr.lstrip (PyStr.join_nl (title :: tail)) =
                PyStr.join_nl (title :: tail)).
    { destruct tail; reflexivity. }
    unfold tail in *. clear tail.
    rewrite L.
    destruct (join_nl_snoc (title :: details)) as (pre & P).
    change (title :: details ++ [DatabaseSetup.col_detail last])
      with ((title :: details) ++ [DatabaseSetup.col_detail last]).
    rewrite P, (rstrip_app _ _ (rstrip_col_detail last)), <- P.
    cbn [app]. rewrite Lines.split_join.
    + unfold title. rewrite (replace_title n Cn).
      rewrite !map_app. cbn [map].
      pose proof (Trim.strip_rstrip (DatabaseSetup.col_detail last)) as X.
      unfold PyStr.strip in X. rewrite X.
      unfold details. rewrite map_map. reflexivity.
    + constructor; [ exact Ft | ].
      apply Forall_app in Fl as (Fd & Flast). apply Forall_app. split.
      * exact Fd.
      * inversion Flast; subst. constructor; [ | constructor ].
        apply nl_free_rstrip. assumption.
Qed.

(** The names of a database of plain tables are read as they are
    spelt. *)
Lemma plain_names_spelt {Q : SqliteSyntax} (d : database) :
  Forall plain_table d -> Forall reads_as_spelt (DatabaseSetup.table_names d).
Proof.
  intros P. apply Forall_forall. intros n I.
  apply (Permutation_in _ (Order.table_names_perm d)) in I.
  apply in_map_iff in I as ([m t] & <- & I).
  rewrite Forall_forall in P. apply (P _ I).
Qed.

End SidebarFacts.

(** X17. The sidebar reads the schema text back.  For a database with at
    least one table, whose tables are plain (SQLite reads their names as
    they are spelt, and neither the names nor the columns hold a line
    feed), the expanders are the tables in the order of the schema, each
    with its name as title and the trimmed lines of its columns.  For a
    database without tables the schema text is empty and the sidebar
    shows one expander with an empty title and no line. *)
Theorem sidebar_reads_schema_back {Q : SqliteSyntax} (d : database) :
  let read_back :=
    map (fun n =>
           (n, map (fun c => PyStr.strip (DatabaseSetup.col_detail c))
                   (DatabaseSetup.table_info n d)))
        (DatabaseSetup.table_names d) in
  (forall w, db_file w = Present d ->
     Forall reads_as_spelt (DatabaseSetup.table_names d) ->
     fst (Sidebar.display_sidebar w) =
       Returned (Sidebar.sidebar_tables (DatabaseSetup.render_schema d))) /\
  (d = [] ->
     Sidebar.sidebar_tables (DatabaseSetup.render_schema d) = [([], [])]) /\
  (d <> [] -> Forall plain_table d ->
     Sidebar.sidebar_tables (DatabaseSetup.render_schema d) = read_back /\
     forall w, db_file w = Present d ->
       fst (Sidebar.display_sidebar w) = Returned read_back).
Proof.
  cbv zeta.
  assert (D : forall w, db_file w = Present d ->
     Forall reads_as_spelt (DatabaseSetup.table_names d) ->
     fst (Sidebar.display_sidebar w) =
       Returned (Sidebar.sidebar_tables (DatabaseSetup.render_schema d))).
  { intros w E Hd. unfold Sidebar.display_sidebar, bind.
    rewrite (get_schema_info_on_present w d E Hd). reflexivity. }
  split; [ exact D | split; [ intros ->; reflexivity | ] ].
  intros N P.
  cut (Sidebar.sidebar_tables (DatabaseSetup.render_schema d) =
       map (fun n =>
              (n, map (fun c => PyStr.strip (DatabaseSetup.col_detail c))
                      (DatabaseSetup.table_info n d)))
           (DatabaseSetup.table_names d)).
  { intros X. split; [ exact X | ]. intros w E.
    rewrite (D w E (SidebarFacts.plain_names_spelt d P)), X. reflexivity. }
  unfold DatabaseSetup.render_schema, Sidebar.sidebar_tables.
  pose proof (Order.table_names_perm d) as Perm.
  set (block := fun n => DatabaseSetup.table_block n (DatabaseSetup.table_info n d)).
  assert (B : forall n, In n (DatabaseSetup.table_names d) ->
              solid (block n) /\
              Sidebar.sidebar_block (block n) =
                [(n, map (fun c => PyStr.strip (DatabaseSetup.col_detail c))
                         (DatabaseSetup.table_info n d))]).
  { intros n I. apply (Permutation_in _ Perm) in I.
    destruct (SidebarFacts.find_table_in n d I) as (m & t & F & It).
    apply in_map_iff in I as ([n' t0] & <- & I0).
    rewrite Forall_forall in P.
    destruct (P _ I0) as (_ & Nn & Cn & _).
    destruct (P _ It) as (_ & _ & _ & Pc).
    unfold block, DatabaseSetup.table_info. cbn [fst snd] in *. rewrite F.
    apply SidebarFacts.sidebar_block_table; assumption. }
  assert (NE : DatabaseSetup.table_names d <> []).
  { intros X. rewrite X in Perm. apply Permutation_nil in Perm.
    destruct d; [ contradiction | discriminate Perm ]. }
  clear Perm. revert B NE.
  generalize (DatabaseSetup.table_names d). intros l B NE.
  assert (S : Sidebar.split_blank (DatabaseSetup.join_blank (map block l)) =
              map block l).
  { destruct l as [ | n ns]; [ contradiction | ]. cbn [map].
    apply SidebarFacts.split_blank_join.
    change (block n :: map block ns) with (map block (n :: ns)).
    apply Forall_forall. intros x I. apply in_map_iff in I as (k & <- & I).
    apply (B k I). }
  rewrite S. clear S NE.
  induction l as [ | m l IH]; [ reflexivity | ].
  cbn [map flat_map]. rewrite (proj2 (B m (or_introl eq_refl))).
  cbn [app]. f_equal. apply IH. intros k I. apply B. right. exact I.
Qed.

Lemma sidebar_reads_schema_back_witness :
  let d := [ (txt "t", mkTable [ mkColumn "id" "INTEGER" false true;
                                 mkColumn "x" "TEXT" true false ] []);
             (txt "notes", mkTable [ mkColumn "y" "REAL" false false ] []) ] in
  let w := Demo.fresh None (Demo.always "SELECT 1;") (Present d) in
  let shown :=
    [ (txt "notes", [txt "- y REAL"]);
      (txt "t", [txt "- id INTEGER (PRIMARY KEY)"; txt "- x TEXT (NOT NULL)"]) ] in
  Sidebar.sidebar_tables (DatabaseSetup.render_schema []) = [([], [])] /\
  Sidebar.sidebar_tables (DatabaseSetup.render_schema d) = shown /\
  fst (Sidebar.display_sidebar (Q:=Demo.sqlite) w) = Returned shown.
Proof.
  intros d w shown.
  destruct (sidebar_reads_schema_back (Q:=Demo.sqlite) []) as (_ & E & _).
  destruct (sidebar_reads_schema_back (Q:=Demo.sqlite) d) as (_ & _ & R).
  assert (P : Forall (plain_table (Q:=Demo.sqlite)) d).
  { unfold d.
    repeat (apply Forall_cons; [ | try apply Forall_nil ]);
      unfold plain_table, plain_columns; cbn [fst snd tbl_columns];
      (split; [ reflexivity
              | split; [ reflexivity
                       | split; [ reflexivity | split; [ discriminate | ] ] ] ]);
      repeat (apply Forall_cons; [ split; reflexivity | try apply Forall_nil ]). }
  assert (N : d <> []) by discriminate.
  destruct (R N P) as (S & V).
  split; [ exact (E eq_refl) | split ].
  - rewrite S. reflexivity.
  - rewrite (V w eq_refl). reflexivity.
Defined.
